(** * EV battery-health and repair-cost scripts: a shallow embedding

    Sources embedded here:
    - [ML_Model_Train/new_model/test/batteryHealth.py]
      (synthetic record generator, feature preparation, predictor);
    - [ML_Model_Train/new_model/test/repairecost.py]
      (repair-cost feature preparation, training, predictor);
    - [ML_Model_Train/train_simplified_model.py] (training + export);
    - [ML_Model_Train/new_model/test/conver.py] (export of the saved model).

    Modelling conventions.
    - A Python [float] is modelled as an exact rational ([Q]); the
      rounding error of binary64 arithmetic is outside the model, the
      comparisons, clamps, truncations and decimal roundings of the code
      are inside it.  Numbers are compared with [==] ([Qeq]).  Where a
      statement says which value the generator stores, it is made over
      an arbitrary arithmetic instead (module [Float]), of which the
      exact one is an instance.
    - A Python [int] is a [Z].
    - NumPy's process-wide random state is threaded explicitly through a
      state monad; the generator itself (Mersenne Twister and the
      samplers built on it) is an interface, [RandomState], with the
      range contracts NumPy documents for it.
    - scikit-learn's fitted regressor is a function from a feature row to
      a number; its [LabelEncoder] is modelled concretely (sorted distinct
      labels, position lookup, failure on an unseen label).
    - A pandas DataFrame is an index plus an ordered association list of
      named columns; frames that are mutated in place live in a heap and
      are passed by location. *)

From Stdlib Require Import ZArith QArith Qround Lqa Lia List String.
From Stdlib Require Import NArith Ascii Sorted.
From stdpp Require Import base option list gmap strings.
Import ListNotations.
Open Scope Q_scope.

(** ** Python numerics over [Q] *)

Module Py.

Definition Qltb (x y : Q) : bool := negb (Qle_bool y x).

(** [min(a, b)]: the first argument unless the second is strictly smaller. *)
Definition min (a b : Q) : Q := if Qltb b a then b else a.

(** [max(a, b)]: the first argument unless the second is strictly larger. *)
Definition max (a b : Q) : Q := if Qltb a b then b else a.

(** [int(x)] on a float: truncation toward zero. *)
Definition int (x : Q) : Z := if Qltb x 0 then Qceiling x else Qfloor x.

(** Nearest integer, ties to the even neighbour. *)
Definition round_half_even (x : Q) : Z :=
  let f := Qfloor x in
  let r := x - inject_Z f in
  if Qltb r 0.5 then f
  else if Qltb 0.5 r then (f + 1)%Z
  else if Z.even f then f else (f + 1)%Z.

Definition pow10 (ndigits : nat) : Q := inject_Z (10 ^ Z.of_nat ndigits).

(** [round(x, ndigits)] on a float. *)
Definition round (x : Q) (ndigits : nat) : Q :=
  inject_Z (round_half_even (x * pow10 ndigits)) / pow10 ndigits.

(** [sub in s] on strings. *)
Fixpoint contains (sub s : string) : bool :=
  String.prefix sub s ||
  match s with
  | EmptyString => false
  | String _ s' => contains sub s'
  end.

End Py.

(** ** The state monad that threads NumPy's global random state *)

Definition State (G A : Type) : Type := G -> A * G.

#[global] Instance state_ret {G} : MRet (State G) :=
  fun A a g => (a, g).
#[global] Instance state_bind {G} : MBind (State G) :=
  fun A B f m g => let '(a, g') := m g in f a g'.

(** ** [numpy.random]: the legacy global generator as an interface *)

Class RandomState (G : Type) : Type := {
  (** state installed by [np.random.seed(s)] *)
  rs_seed : Z -> G;
  (** [np.random.uniform(low, high)] *)
  rs_uniform : Q -> Q -> State G Q;
  (** [np.random.normal(loc, scale)] *)
  rs_normal : Q -> Q -> State G Q;
  (** [np.random.beta(a, b)] *)
  rs_beta : Q -> Q -> State G Q;
  (** the position picked by [np.random.choice] among [k] candidates *)
  rs_index : nat -> State G nat
}.

(** The documented ranges: [uniform] samples from [[low, high)], and
    [choice] picks one of the candidates. *)
Class RandomStateLaws {G : Type} (R : RandomState G) : Prop := {
  rs_uniform_range : forall lo hi g,
    lo < hi -> lo <= (rs_uniform lo hi g).1 /\ (rs_uniform lo hi g).1 < hi;
  rs_index_range : forall k g,
    (0 < k)%nat -> ((rs_index k g).1 < k)%nat
}.

Module np_random.
Section np_random.
Context {G : Type} {R : RandomState G}.

Definition seed (s : Z) : State G unit := fun _ => (tt, rs_seed s).
Definition uniform : Q -> Q -> State G Q := rs_uniform.
Definition normal : Q -> Q -> State G Q := rs_normal.
Definition beta : Q -> Q -> State G Q := rs_beta.
Definition choice {A : Type} `{Inhabited A} (a : list A) : State G A :=
  i ← rs_index (length a); mret (a !!! i).
End np_random.
End np_random.

(** ** pandas: cells, frames, and the operations the scripts use *)

Module pd.

(** A cell of a column: a string, a number, a boolean, or a missing
    value (NaN). *)
Inductive cell : Type :=
| CStr (s : string)
| CNum (q : Q)
| CBool (b : bool)
| CNaN.

Record DataFrame : Type := Frame {
  index : list nat;
  columns : list (string * list cell)
}.

(** [df[name]]; [None] is a [KeyError]. *)
Fixpoint lookup_column (name : string) (cols : list (string * list cell))
    : option (list cell) :=
  match cols with
  | [] => None
  | (k, v) :: cols' =>
      if String.eqb k name then Some v else lookup_column name cols'
  end.

Definition getitem (df : DataFrame) (name : string) : option (list cell) :=
  lookup_column name (columns df).

(** [df[name] = values]: an existing column is overwritten where it
    stands, a new one is appended after the others. *)
Fixpoint assign_column (name : string) (values : list cell)
    (cols : list (string * list cell)) : list (string * list cell) :=
  match cols with
  | [] => [(name, values)]
  | (k, v) :: cols' =>
      if String.eqb k name then (k, values) :: cols'
      else (k, v) :: assign_column name values cols'
  end.

Definition setitem (df : DataFrame) (name : string) (values : list cell)
    : DataFrame :=
  {| index := index df; columns := assign_column name values (columns df) |}.

(** [df[name] = scalar]: the value is repeated on every row. *)
Definition setitem_scalar (df : DataFrame) (name : string) (value : cell)
    : DataFrame :=
  setitem df name (replicate (length (index df)) value).

(** [df[names]]: the named columns, in the order asked for. *)
Definition select (df : DataFrame) (names : list string) : option DataFrame :=
  cols ← mapM (fun name => v ← getitem df name; Some (name, v)) names;
  Some {| index := index df; columns := cols |}.

(** [df.drop(columns=[name])]. *)
Definition drop (df : DataFrame) (name : string) : option DataFrame :=
  _ ← getitem df name;
  Some {| index := index df;
          columns := List.filter (fun kv => negb (String.eqb kv.1 name))
                       (columns df) |}.

(** [c == True], element by element. *)
Definition eq_True (c : cell) : bool :=
  match c with
  | CBool b => b
  | CNum q => Qeq_bool q 1
  | _ => false
  end.

Fixpoint keep {A : Type} (mask : list bool) (l : list A) : list A :=
  match mask, l with
  | b :: mask', x :: l' => if b then x :: keep mask' l' else keep mask' l'
  | _, _ => []
  end.

(** [df[mask]]: the rows where the mask holds, with their index labels. *)
Definition filter_rows (df : DataFrame) (mask : list bool) : DataFrame :=
  {| index := keep mask (index df);
     columns := List.map (fun kv => (kv.1, keep mask kv.2)) (columns df) |}.

(** [pd.DataFrame([d])] for one dictionary [d]. *)
Definition of_dict (d : list (string * cell)) : DataFrame :=
  {| index := [0%nat];
     columns := List.map (fun kv => (kv.1, [kv.2])) d |}.

Definition strings (col : list cell) : option (list string) :=
  mapM (fun c => match c with CStr s => Some s | _ => None end) col.

(** The numbers of a column that has nothing missing. *)
Definition numbers (col : list cell) : option (list Q) :=
  mapM (fun c => match c with CNum q => Some q | _ => None end) col.

Definition isnull (c : cell) : bool :=
  match c with CNaN => true | _ => false end.

(** [X.isnull().sum().sum()] *)
Definition count_null (df : DataFrame) : nat :=
  sum_list (List.map (fun kv => length (List.filter isnull kv.2)) (columns df)).

(** The present numbers of a numeric column; [None] when a cell is
    neither a number nor missing. *)
Definition present (col : list cell) : option (list Q) :=
  mapM (fun c => match c with
                 | CNum q => Some [q] | CNaN => Some [] | _ => None
                 end) col ≫= fun qs => Some (concat qs).

(** A column's [mean()], missing values skipped; NaN when none is present. *)
Definition mean (col : list cell) : option cell :=
  qs ← present col;
  Some (match qs with
        | [] => CNaN
        | _ => CNum (List.fold_left Qplus qs 0 / inject_Z (Z.of_nat (length qs)))
        end).

(** [X.fillna(X.mean())] *)
Definition fillna_mean (df : DataFrame) : option DataFrame :=
  cols ← mapM (fun kv =>
                 m ← mean kv.2;
                 Some (kv.1, List.map (fun c => if isnull c then m else c) kv.2))
              (columns df);
  Some {| index := index df; columns := cols |}.

(** Every column has one cell per index label. *)
Definition well_formed (df : DataFrame) : Prop :=
  Forall (fun kv => length kv.2 = length (index df)) (columns df).

(** Two frames with the same columns and as many rows: they differ at
    most in their index labels. *)
Definition same_data (a b : DataFrame) : Prop :=
  columns a = columns b /\ length (index a) = length (index b).

(** The rows of a frame as a numeric matrix, as scikit-learn reads it;
    [None] when a cell is not a number (text and missing values are
    refused). *)
Definition to_matrix (df : DataFrame) : option (list (list Q)) :=
  cols ← mapM (fun kv => numbers kv.2) (columns df);
  Some (List.map (fun i => List.map (fun col => nth i col 0) cols)
          (seq 0 (length (index df)))).

End pd.

(** ** scikit-learn's [LabelEncoder] on string labels

    The scripts encode the [model] and [repair_type] columns, which hold
    text; a column with any other cell is not encoded here. *)

Module LabelEncoder.

Record t : Type := Encoder { classes_ : list string }.

(** Insertion into a sorted list of distinct labels. *)
Fixpoint insert_label (s : string) (l : list string) : list string :=
  match l with
  | [] => [s]
  | x :: l' =>
      if String.eqb s x then l
      else if String.ltb s x then s :: l
      else x :: insert_label s l'
  end.

(** [np.unique]: the distinct labels in increasing order. *)
Definition unique (y : list string) : list string :=
  List.fold_right insert_label [] y.

Definition fit (y : list string) : t := {| classes_ := unique y |}.

Fixpoint position (s : string) (l : list string) : option nat :=
  match l with
  | [] => None
  | x :: l' => if String.eqb s x then Some 0%nat else S <$> position s l'
  end.

(** [transform]: the position of each label among the classes; an unseen
    label raises (here [None]). *)
Definition transform (le : t) (y : list string) : option (list nat) :=
  mapM (fun s => position s (classes_ le)) y.

Definition fit_transform (y : list string) : t * option (list nat) :=
  let le := fit y in (le, transform le y).

Definition cells (codes : list nat) : list pd.cell :=
  List.map (fun k => pd.CNum (inject_Z (Z.of_nat k))) codes.

(** The code the predictors feed to the model for a label: its position
    among the classes, or 0 when [transform] raises. *)
Definition code_or_default (le : t) (s : string) : Q :=
  match position s (classes_ le) with
  | Some code => inject_Z (Z.of_nat code)
  | None => 0
  end.

(** The line a predictor prints when it reports the fallback. *)
Definition warning_if_unseen (le : t) (s warning : string) : list string :=
  match position s (classes_ le) with
  | Some _ => []
  | None => [warning]
  end.

End LabelEncoder.

(** ** batteryHealth.py: the synthetic record generator *)

Module BatteryHealth.

(** One dictionary appended to [data]: a row of the generated table. *)
Record row : Type := Row {
  model : string;
  age_years : Q;
  mileage : Z;
  battery_cycles : Z;
  fast_charge_ratio : Q;
  avg_temperature_c : Q;
  avg_depth_of_discharge : Q;
  voltage : Q;
  internal_resistance_mohm : Q;
  charging_efficiency : Q;
  battery_capacity_kwh : Z;
  battery_health_percent : Q
}.

(** The values of one loop iteration as they stand when the dictionary is
    built (line 106): its local variables, and the three anonymous draws
    the later statements refer to ([l_noise_km] of line 34, [l_u] of
    line 76, [l_noise] of line 101). *)
Record locals : Type := Locals {
  l_age_years : Q;
  l_annual_mileage : Q;
  l_noise_km : Q;
  l_mileage : Q;
  l_battery_cycles : Z;
  l_fast_charge_ratio : Q;
  l_avg_temperature_c : Q;
  l_avg_depth_of_discharge : Q;
  l_voltage : Q;
  l_internal_resistance_mohm : Q;
  l_charging_efficiency : Q;
  l_model : string;
  l_battery_capacity_kwh : Z;
  l_u : Q;
  l_calendar_degradation : Q;
  l_noise : Q;
  l_battery_health : Q
}.

Definition ev_models : list string :=
  [ "Tesla Model 3"; "Nissan Leaf"; "Chevrolet Bolt"; "BMW i3";
    "Hyundai Kona Electric"; "Volkswagen ID.4"; "Ford Mustang Mach-E";
    "Audi e-tron"; "Rivian R1T"; "BYD Atto 3"; "MG ZS EV" ]%string.

(** Lines 73-101: [battery_health] just before the clamp, as a function of
    the iteration's values and of its two draws, [u] from
    [uniform(2, 3)] (line 76) and [noise] from [normal(0, 2)] (line 101). *)
Definition health_before_clamp
    (age_years : Q) (battery_cycles : Z) (fast_charge_ratio : Q)
    (avg_temperature_c avg_depth_of_discharge mileage u noise : Q) : Q :=
  let battery_health := 100.0 in
  let calendar_degradation := age_years * u in
  let battery_health := battery_health - calendar_degradation in
  let cycle_factor := if Py.Qltb avg_depth_of_discharge 0.5 then 0.01 else 0.015 in
  let cycle_degradation :=
    inject_Z battery_cycles * cycle_factor * avg_depth_of_discharge in
  let battery_health := battery_health - cycle_degradation in
  let fast_charge_degradation :=
    fast_charge_ratio * inject_Z battery_cycles * 0.005 in
  let battery_health := battery_health - fast_charge_degradation in
  let battery_health :=
    if Py.Qltb 35 avg_temperature_c then
      battery_health - (avg_temperature_c - 35) * age_years * 0.3
    else if Py.Qltb avg_temperature_c 10 then
      battery_health - (10 - avg_temperature_c) * age_years * 0.15
    else battery_health in
  let battery_health :=
    if Py.Qltb 100000 mileage then
      battery_health - (mileage - 100000) / 10000 * 0.5
    else battery_health in
  battery_health + noise.

(** Line 104. *)
Definition clamp_health (battery_health : Q) : Q :=
  Py.max 40 (Py.min 100 battery_health).

(** Lines 106-119: the dictionary built from the iteration's variables. *)
Definition row_of_locals (l : locals) : row := {|
  model := l_model l;
  age_years := Py.round (l_age_years l) 2;
  mileage := Py.int (l_mileage l);
  battery_cycles := l_battery_cycles l;
  fast_charge_ratio := Py.round (l_fast_charge_ratio l) 3;
  avg_temperature_c := Py.round (l_avg_temperature_c l) 1;
  avg_depth_of_discharge := Py.round (l_avg_depth_of_discharge l) 3;
  voltage := Py.round (l_voltage l) 2;
  internal_resistance_mohm := Py.round (l_internal_resistance_mohm l) 2;
  charging_efficiency := Py.round (l_charging_efficiency l) 3;
  battery_capacity_kwh := l_battery_capacity_kwh l;
  battery_health_percent := Py.round (l_battery_health l) 2
|}.

Section Generator.
Context {G : Type} {R : RandomState G}.

(** Lines 60-68: the vehicle model and its capacity. *)
Definition choose_model_and_capacity : State G (string * Z) :=
  model ← np_random.choice ev_models;
  battery_capacity_kwh ←
    (if Py.contains "Tesla" model then np_random.choice [50; 75; 100]%Z
     else if Py.contains "Nissan Leaf" model then np_random.choice [40; 62]%Z
     else if Py.contains "Rivian" model then np_random.choice [135; 180]%Z
     else np_random.choice [50; 60; 75; 82]%Z);
  mret (model, battery_capacity_kwh).

(** Lines 29-104: one iteration of the loop, draws in source order. *)
Definition iteration : State G locals :=
  age_years ← np_random.uniform 0.1 10;
  let age_months := age_years * 12 in
  annual_mileage ← np_random.uniform 8000 25000;
  noise_km ← np_random.normal 0 2000;
  let mileage := age_years * annual_mileage + noise_km in
  noise_cycles ← np_random.normal 0 50;
  let battery_cycles := Py.int (mileage / 300 + noise_cycles) in
  fast_charge_ratio ←
    (if Py.Qltb age_years 3 then np_random.beta 2 5
     else np_random.beta 1.5 4);
  avg_temperature_c ← np_random.uniform 15 40;
  avg_depth_of_discharge ← np_random.uniform 0.3 0.9;
  noise_v ← np_random.normal 0 5;
  let voltage := 400 - age_years * 1.5 + noise_v in
  let base_resistance := 2.0 + age_years * 0.8 in
  noise_r ← np_random.uniform 0 1;
  let internal_resistance_mohm := base_resistance + noise_r in
  noise_e ← np_random.uniform (-0.02) 0.01;
  let charging_efficiency := 0.95 - age_years * 0.008 + noise_e in
  let charging_efficiency := Py.max 0.80 (Py.min 0.98 charging_efficiency) in
  mc ← choose_model_and_capacity;
  u ← np_random.uniform 2 3;
  noise ← np_random.normal 0 2;
  let battery_health :=
    health_before_clamp age_years battery_cycles fast_charge_ratio
      avg_temperature_c avg_depth_of_discharge mileage u noise in
  let battery_health := clamp_health battery_health in
  mret {|
    l_age_years := age_years;
    l_annual_mileage := annual_mileage;
    l_noise_km := noise_km;
    l_mileage := mileage;
    l_battery_cycles := battery_cycles;
    l_fast_charge_ratio := fast_charge_ratio;
    l_avg_temperature_c := avg_temperature_c;
    l_avg_depth_of_discharge := avg_depth_of_discharge;
    l_voltage := voltage;
    l_internal_resistance_mohm := internal_resistance_mohm;
    l_charging_efficiency := charging_efficiency;
    l_model := mc.1;
    l_battery_capacity_kwh := mc.2;
    l_u := u;
    l_calendar_degradation := age_years * u;
    l_noise := noise;
    l_battery_health := battery_health
  |}.

(** Lines 27-119: [for _ in range(n_samples)], appending to [data]. *)
Fixpoint loop (n : nat) (data : list row) : State G (list row) :=
  match n with
  | O => mret data
  | S n' => l ← iteration; loop n' (data ++ [row_of_locals l])
  end.

(** Lines 17-119: the list [data] when the loop is over.  [range] of a
    negative number is empty. *)
Definition generate_rows (n_samples : Z) : State G (list row) :=
  _ ← np_random.seed 42;
  loop (Z.to_nat n_samples) [].

(** Line 121: [pd.DataFrame(data)].  An empty list gives a frame with
    no column at all. *)
Definition frame_of_rows (data : list row) : pd.DataFrame :=
  let num (f : row -> Q) := List.map (fun r => pd.CNum (f r)) data in
  let int (f : row -> Z) := List.map (fun r => pd.CNum (inject_Z (f r))) data in
  match data with
  | [] => {| pd.index := []; pd.columns := [] |}
  | _ :: _ =>
      {| pd.index := seq 0 (length data);
         pd.columns :=
           [ ("model", List.map (fun r => pd.CStr (model r)) data);
             ("age_years", num age_years);
             ("mileage", int mileage);
             ("battery_cycles", int battery_cycles);
             ("fast_charge_ratio", num fast_charge_ratio);
             ("avg_temperature_c", num avg_temperature_c);
             ("avg_depth_of_discharge", num avg_depth_of_discharge);
             ("voltage", num voltage);
             ("internal_resistance_mohm", num internal_resistance_mohm);
             ("charging_efficiency", num charging_efficiency);
             ("battery_capacity_kwh", int battery_capacity_kwh);
             ("battery_health_percent", num battery_health_percent) ]%string |}
  end.

(** Lines 12-121. *)
Definition generate_realistic_battery_data (n_samples : Z)
    : State G pd.DataFrame :=
  data ← generate_rows n_samples;
  mret (frame_of_rows data).

End Generator.

(** *** Feature preparation (lines 124-147)

    The frame is the caller's object: it is passed by location and
    updated in the heap.  A raised exception ([None]) keeps the updates
    made before it. *)

Definition loc : Type := positive.
Abbreviation heap := (gmap loc pd.DataFrame).

Definition HeapM (A : Type) : Type := heap -> option A * heap.

#[global] Instance heap_ret : MRet HeapM := fun A a h => (Some a, h).
#[global] Instance heap_bind : MBind HeapM :=
  fun A B f m h =>
    match m h with
    | (Some a, h') => f a h'
    | (None, h') => (None, h')
    end.

Definition lift {A : Type} (o : option A) : HeapM A := fun h => (o, h).
Definition read (r : loc) : HeapM pd.DataFrame := fun h => (h !! r, h).
Definition write (r : loc) (df : pd.DataFrame) : HeapM unit :=
  fun h => (Some tt, <[r := df]> h).

Definition base_feature_cols : list string :=
  [ "age_years"; "mileage"; "battery_cycles"; "fast_charge_ratio";
    "avg_temperature_c"; "avg_depth_of_discharge"; "voltage";
    "internal_resistance_mohm"; "charging_efficiency";
    "battery_capacity_kwh" ]%string.

Definition prepare_battery_health_data (df : loc)
    : HeapM (pd.DataFrame * list pd.cell * LabelEncoder.t * list string) :=
  let feature_cols := base_feature_cols in
  frame ← read df;
  col ← lift (pd.getitem frame "model");
  labels ← lift (pd.strings col);
  let '(le_model, codes) := LabelEncoder.fit_transform labels in
  codes ← lift codes;
  _ ← write df (pd.setitem frame "model_encoded" (LabelEncoder.cells codes));
  let feature_cols := feature_cols ++ ["model_encoded"%string] in
  frame ← read df;
  X ← lift (pd.select frame feature_cols);
  y ← lift (pd.getitem frame "battery_health_percent");
  mret (X, y, le_model, feature_cols).

(** *** Prediction (lines 201-219)

    The fitted regressor is the function [model] from a feature row to a
    number.  The result pairs the returned value ([None] when an exception
    escapes) with the lines printed on standard output. *)

Definition predict_battery_health (model : list Q -> Q)
    (le_model : LabelEncoder.t) (feature_cols : list string)
    (input_data : list (string * pd.cell)) : option Q * list string :=
  let input_df := pd.of_dict input_data in
  let input_df :=
    match col ← pd.getitem input_df "model";
          labels ← pd.strings col;
          LabelEncoder.transform le_model labels with
    | Some codes => pd.setitem input_df "model_encoded" (LabelEncoder.cells codes)
    | None => pd.setitem_scalar input_df "model_encoded" (pd.CNum 0)
    end in
  (input_df ← pd.drop input_df "model";
   input_df ← pd.select input_df feature_cols;
   X ← pd.to_matrix input_df;
   features ← X !! 0%nat;
   let prediction := model features in
   Some (Py.max 0 (Py.min 100 prediction)),
   []).

(** The dictionaries passed to the predictor by the script (lines 244,
    264, 284, 303): ten numeric features, then the model name. *)
Definition input_data
    (age_years mileage battery_cycles fast_charge_ratio avg_temperature_c
     avg_depth_of_discharge voltage internal_resistance_mohm
     charging_efficiency battery_capacity_kwh : Q) (model : string)
    : list (string * pd.cell) :=
  [ ("age_years", pd.CNum age_years);
    ("mileage", pd.CNum mileage);
    ("battery_cycles", pd.CNum battery_cycles);
    ("fast_charge_ratio", pd.CNum fast_charge_ratio);
    ("avg_temperature_c", pd.CNum avg_temperature_c);
    ("avg_depth_of_discharge", pd.CNum avg_depth_of_discharge);
    ("voltage", pd.CNum voltage);
    ("internal_resistance_mohm", pd.CNum internal_resistance_mohm);
    ("charging_efficiency", pd.CNum charging_efficiency);
    ("battery_capacity_kwh", pd.CNum battery_capacity_kwh);
    ("model", pd.CStr model) ]%string.

(** The feature list [prepare_battery_health_data] returns and training
    saves. *)
Definition trained_feature_cols : list string :=
  base_feature_cols ++ ["model_encoded"%string].

End BatteryHealth.

(** ** repairecost.py and train_simplified_model.py *)

Module RepairCost.

Record encoders : Type := Encoders {
  enc_model : LabelEncoder.t;
  enc_repair_type : LabelEncoder.t
}.

(** Lines 17-52 of repairecost.py.  The frame read from the CSV file is
    only read: the filtered frame is a copy. *)
Definition prepare_simplified_repair_data (df : pd.DataFrame)
    : option (pd.DataFrame * list pd.cell * encoders * list string) :=
  needs_repair ← pd.getitem df "needs_repair";
  let df_repair := pd.filter_rows df (List.map pd.eq_True needs_repair) in
  let feature_cols :=
    [ "age_years"; "mileage_km"; "battery_health_percent";
      "battery_capacity_kwh" ]%string in
  models ← pd.getitem df_repair "model" ≫= pd.strings;
  let '(le_model, codes) := LabelEncoder.fit_transform models in
  codes ← codes;
  let df_repair := pd.setitem df_repair "model_encoded" (LabelEncoder.cells codes) in
  repairs ← pd.getitem df_repair "repair_type" ≫= pd.strings;
  let '(le_repair, codes) := LabelEncoder.fit_transform repairs in
  codes ← codes;
  let df_repair :=
    pd.setitem df_repair "repair_type_encoded" (LabelEncoder.cells codes) in
  let feature_cols :=
    feature_cols ++ ["model_encoded"; "repair_type_encoded"]%string in
  X ← pd.select df_repair feature_cols;
  y ← pd.getitem df_repair "out_of_pocket_cost_lkr";
  X ← (if (0 <? pd.count_null X)%nat then pd.fillna_mean X else Some X);
  let encoders := {| enc_model := le_model; enc_repair_type := le_repair |} in
  Some (X, y, encoders, feature_cols).

(** The rows of a table whose [needs_repair] is [True], as named columns
    (their index labels left out); [None] without such a column. *)
Definition repair_rows (df : pd.DataFrame)
    : option (list (string * list pd.cell)) :=
  needs_repair ← pd.getitem df "needs_repair";
  Some (pd.columns (pd.filter_rows df (List.map pd.eq_True needs_repair))).

(** Two outcomes of feature preparation that differ at most in the index
    labels of the feature matrix. *)
Definition prepared_alike
    (r1 r2 : option (pd.DataFrame * list pd.cell * encoders * list string))
    : Prop :=
  match r1, r2 with
  | Some (X1, y1, e1, f1), Some (X2, y2, e2, f2) =>
      pd.same_data X1 X2 /\ y1 = y2 /\ e1 = e2 /\ f1 = f2
  | None, None => True
  | _, _ => False
  end.

(** What the training scripts leave on disk. *)
Inductive artifact (model_t onnx_t : Type) : Type :=
| PickledModel (m : model_t)
| PickledEncoders (e : encoders)
| PickledFeatures (names : list string)
| OnnxFile (graph : onnx_t).
Arguments PickledModel {model_t onnx_t} m.
Arguments PickledEncoders {model_t onnx_t} e.
Arguments PickledFeatures {model_t onnx_t} names.
Arguments OnnxFile {model_t onnx_t} graph.

Section Training.
(** scikit-learn and skl2onnx, as the scripts call them:
    [fit params X y] fits a [GradientBoostingRegressor] built with the
    keyword arguments [params] on [X] and [y];
    [train_test_split n] gives the train and test positions chosen among
    [n] rows for [test_size=0.2, random_state=42];
    [convert_sklearn m k] is the exported graph of [m] for [k] inputs. *)
Context {model_t onnx_t : Type}.
Variable fit : list (string * Q) -> list (list Q) -> list Q -> option model_t.
Variable train_test_split : nat -> option (list nat * list nat).
Variable convert_sklearn : model_t -> nat -> onnx_t.

Definition take_rows {A : Type} (positions : list nat) (l : list A)
    : option (list A) :=
  mapM (fun p => l !! p) positions.

(** Lines 55-126 of repairecost.py; the printed report is left out. *)
Definition train_simplified_repair_model (df : pd.DataFrame)
    (model_dir : string)
    : option (model_t * encoders * list string
              * list (string * artifact model_t onnx_t)) :=
  '(X, y, encoders, feature_cols) ← prepare_simplified_repair_data df;
  X ← pd.to_matrix X;
  y ← pd.numbers y;
  '(train, test) ← train_test_split (length X);
  X_train ← take_rows train X;
  y_train ← take_rows train y;
  model ← fit [ ("n_estimators", 250); ("max_depth", 8);
                ("learning_rate", 0.08); ("min_samples_split", 8);
                ("min_samples_leaf", 4); ("subsample", 0.85);
                ("random_state", 42) ]%string X_train y_train;
  Some (model, encoders, feature_cols,
        [ (model_dir +:+ "/simple_repair_cost_model.pkl", PickledModel model);
          (model_dir +:+ "/simple_repair_cost_encoders.pkl",
           PickledEncoders encoders);
          (model_dir +:+ "/simple_repair_cost_features.pkl",
           PickledFeatures feature_cols) ]%string).

(** train_simplified_model.py, lines 12-70: [csv] is the frame read from
    the dataset file, the result is the files written. *)
Definition train_and_convert (csv : pd.DataFrame)
    : option (list (string * artifact model_t onnx_t)) :=
  let df := csv in
  needs_repair ← pd.getitem df "needs_repair";
  let df_repair := pd.filter_rows df (List.map pd.eq_True needs_repair) in
  models ← pd.getitem df_repair "model" ≫= pd.strings;
  let '(le_model, codes) := LabelEncoder.fit_transform models in
  codes ← codes;
  let df_repair := pd.setitem df_repair "model_encoded" (LabelEncoder.cells codes) in
  repairs ← pd.getitem df_repair "repair_type" ≫= pd.strings;
  let '(le_repair, codes) := LabelEncoder.fit_transform repairs in
  codes ← codes;
  let df_repair :=
    pd.setitem df_repair "repair_type_encoded" (LabelEncoder.cells codes) in
  let feature_cols :=
    [ "age_years"; "mileage_km"; "battery_health_percent";
      "battery_capacity_kwh"; "model_encoded"; "repair_type_encoded" ]%string in
  X ← pd.select df_repair feature_cols;
  y ← pd.getitem df_repair "out_of_pocket_cost_lkr";
  X ← (if (0 <? pd.count_null X)%nat then pd.fillna_mean X else Some X);
  X ← pd.to_matrix X;
  y ← pd.numbers y;
  model ← fit [ ("n_estimators", 200); ("max_depth", 10);
                ("learning_rate", 0.1); ("random_state", 42) ]%string X y;
  let onnx_model := convert_sklearn model (length feature_cols) in
  Some [ ("models/repair_cost_out_of_pocket_model.pkl", PickledModel model);
         ("models/repair_cost_out_of_pocket_features.pkl",
          PickledFeatures feature_cols);
         ("ONNXmodels/repair_cost_model.onnx", OnnxFile onnx_model) ]%string.

End Training.

(** Lines 129-183 of repairecost.py.  The result pairs the returned value
    ([None] when an exception escapes) with the lines printed. *)
Definition predict_repair_cost (model : list Q -> Q) (encoders : encoders)
    (feature_cols : list string)
    (age_years : Q) (mileage_km : Z) (battery_health : Q)
    (battery_capacity : Z) (model_name repair_type : string)
    : option Q * list string :=
  let input_data :=
    [ ("age_years", pd.CNum age_years);
      ("mileage_km", pd.CNum (inject_Z mileage_km));
      ("battery_health_percent", pd.CNum battery_health);
      ("battery_capacity_kwh", pd.CNum (inject_Z battery_capacity)) ]%string in
  let df := pd.of_dict input_data in
  let '(df, out1) :=
    match LabelEncoder.transform (enc_model encoders) [model_name] ≫= head with
    | Some code =>
        (pd.setitem_scalar df "model_encoded"
           (pd.CNum (inject_Z (Z.of_nat code))), [])
    | None =>
        (pd.setitem_scalar df "model_encoded" (pd.CNum 0),
         ["⚠️  Unknown model '" +:+ model_name +:+ "', using default"]%string)
    end in
  let '(df, out2) :=
    match LabelEncoder.transform (enc_repair_type encoders) [repair_type]
          ≫= head with
    | Some code =>
        (pd.setitem_scalar df "repair_type_encoded"
           (pd.CNum (inject_Z (Z.of_nat code))), [])
    | None =>
        (pd.setitem_scalar df "repair_type_encoded" (pd.CNum 0),
         ["⚠️  Unknown repair type '" +:+ repair_type +:+ "', using default"]%string)
    end in
  (df ← pd.select df feature_cols;
   X ← pd.to_matrix df;
   features ← X !! 0%nat;
   let prediction := model features in
   Some (Py.max 0 prediction),
   out1 ++ out2).

(** The feature list [prepare_simplified_repair_data] returns and
    training saves. *)
Definition trained_feature_cols : list string :=
  [ "age_years"; "mileage_km"; "battery_health_percent";
    "battery_capacity_kwh"; "model_encoded"; "repair_type_encoded" ]%string.

Definition unknown_model_warning (model_name : string) : string :=
  "⚠️  Unknown model '" +:+ model_name +:+ "', using default".

Definition unknown_repair_type_warning (repair_type : string) : string :=
  "⚠️  Unknown repair type '" +:+ repair_type +:+ "', using default".

End RepairCost.

(** ** A random source that replays a script

    [source script] is a generator whose seeding installs [script], a list
    of raw values; each sampler consumes one value and maps it into its
    range.  It is used to run the generator on concrete draws. *)

Module Scripted.

Definition frac (x : Q) : Q := x - inject_Z (Qfloor x).

Definition next (g : list Q) : Q * list Q :=
  match g with
  | [] => (0, [])
  | x :: g' => (x, g')
  end.

Definition source (script : list Q) : RandomState (list Q) := {|
  rs_seed := fun _ => script;
  rs_uniform := fun lo hi g =>
    let '(x, g') := next g in (lo + (hi - lo) * frac x, g');
  rs_normal := fun loc scale g =>
    let '(x, g') := next g in (loc + scale * x, g');
  rs_beta := fun a b g =>
    let '(x, g') := next g in (frac x, g');
  rs_index := fun k g =>
    let '(x, g') := next g in
    (Z.to_nat (Qfloor (frac x * inject_Z (Z.of_nat k))), g')
|}.

(** Raw values for one iteration of the battery generator: every draw at
    the bottom of its range, no noise, and the calendar rate at
    [2 + 1/3] percent a year. *)
Definition young_vehicle : list Q := replicate 12 0 ++ [1 # 3].

(** Raw values for one iteration whose mileage noise is one standard
    deviation below zero on the youngest, least driven vehicle. *)
Definition noisy_odometer : list Q := [0; 0; -1].

End Scripted.

(** ** Two small repair tables

    The same two repairs (rows where [needs_repair] is [True]) among
    different other rows: [table_a] has them first and last of three
    rows, [table_b] in the middle of four. *)

Module Tables.

Definition table (needs_repair : list bool) (models repairs : list string)
    (ages kms healths kwhs costs : list Q) : pd.DataFrame :=
  {| pd.index := seq 0 (length needs_repair);
     pd.columns :=
       [ ("needs_repair", List.map pd.CBool needs_repair);
         ("model", List.map pd.CStr models);
         ("repair_type", List.map pd.CStr repairs);
         ("age_years", List.map pd.CNum ages);
         ("mileage_km", List.map pd.CNum kms);
         ("battery_health_percent", List.map pd.CNum healths);
         ("battery_capacity_kwh", List.map pd.CNum kwhs);
         ("out_of_pocket_cost_lkr", List.map pd.CNum costs) ]%string |}.

Definition table_a : pd.DataFrame :=
  table [true; false; true]
    ["Nissan Leaf"; "BYD Atto 3"; "Tesla Model 3"]%string
    ["Battery Replacement"; "Inspection"; "Motor Repair"]%string
    [7; 1; 4] [85000; 9000; 55000] [65; 97; 78] [40; 60; 75]
    [950000; 0; 320000].

Definition table_b : pd.DataFrame :=
  table [false; true; true; false]
    ["MG ZS EV"; "Nissan Leaf"; "Tesla Model 3"; "BMW i3"]%string
    ["Inspection"; "Battery Replacement"; "Motor Repair"; "Tyre Change"]%string
    [2; 7; 4; 3] [20000; 85000; 55000; 30000] [92; 65; 78; 88]
    [51; 40; 75; 42] [0; 950000; 320000; 0].

(** A stand-in for the library: the "fitted model" is the training data
    itself, the split keeps every row for training, the exported graph is
    the model and its input width. *)
Definition fit (params : list (string * Q)) (X : list (list Q)) (y : list Q)
    : option (list (list Q) * list Q) := Some (X, y).
Definition train_test_split (n : nat) : option (list nat * list nat) :=
  Some (seq 0 n, []).
Definition convert_sklearn (m : list (list Q) * list Q) (k : nat)
    : (list (list Q) * list Q) * nat := (m, k).

End Tables.

(** ** The statements of the specification, written from its words

    These definitions follow the specification, not the code; the
    properties below compare them with the code. *)

Module Spec.

(** "clamp to [[lo, hi]]" *)
Definition clamp (lo hi x : Q) : Q :=
  if Py.Qltb x lo then lo else if Py.Qltb hi x then hi else x.

(** Step 11: 100 minus the five degradation terms, plus the noise. *)
Definition health (age_years : Q) (battery_cycles : Z)
    (fast_charge_ratio temp dod mileage u noise : Q) : Q :=
  let calendar := age_years * u in
  let cycle :=
    inject_Z battery_cycles * (if Py.Qltb dod 0.5 then 0.01 else 0.015) * dod in
  let fast_charge := fast_charge_ratio * inject_Z battery_cycles * 0.005 in
  let thermal :=
    if Py.Qltb 35 temp then (temp - 35) * age_years * 0.3
    else if Py.Qltb temp 10 then (10 - temp) * age_years * 0.15
    else 0 in
  let high_mileage :=
    if Py.Qltb 100000 mileage then (mileage - 100000) / 10000 * 0.5 else 0 in
  100.0 - calendar - cycle - fast_charge - thermal - high_mileage + noise.

(** Step 10: the candidate capacities of a model name, by substring match
    in priority order. *)
Definition candidates (model : string) : list Z :=
  if Py.contains "Tesla" model then [50; 75; 100]%Z
  else if Py.contains "Nissan Leaf" model then [40; 62]%Z
  else if Py.contains "Rivian" model then [135; 180]%Z
  else [50; 60; 75; 82]%Z.

End Spec.

(** ** What one iteration of the generator loop establishes *)

Module Iteration.
Import BatteryHealth.

(** The relations between the values of an iteration that follow from the
    order of its statements and the ranges of its draws. *)
Record established (l : locals) : Prop := {
  age_range : 0.1 <= l_age_years l /\ l_age_years l < 10;
  annual_range : 8000 <= l_annual_mileage l /\ l_annual_mileage l < 25000;
  mileage_eq :
    l_mileage l = l_age_years l * l_annual_mileage l + l_noise_km l;
  temperature_range :
    15 <= l_avg_temperature_c l /\ l_avg_temperature_c l < 40;
  dod_range :
    0.3 <= l_avg_depth_of_discharge l /\ l_avg_depth_of_discharge l < 0.9;
  efficiency_range :
    0.80 <= l_charging_efficiency l /\ l_charging_efficiency l <= 0.98;
  model_in : In (l_model l) ev_models;
  capacity_in : In (l_battery_capacity_kwh l) (Spec.candidates (l_model l));
  u_range : 2 <= l_u l /\ l_u l < 3;
  calendar_eq : l_calendar_degradation l = l_age_years l * l_u l;
  health_eq :
    l_battery_health l =
    clamp_health
      (health_before_clamp (l_age_years l) (l_battery_cycles l)
         (l_fast_charge_ratio l) (l_avg_temperature_c l)
         (l_avg_depth_of_discharge l) (l_mileage l) (l_u l) (l_noise l))
}.

End Iteration.

(** ** batteryHealth.py: training (lines 150-198) *)

Module BatteryTraining.
Import BatteryHealth.

(** What the script leaves under [models/]. *)
Inductive artifact (model_t : Type) : Type :=
| PickledModel (m : model_t)
| PickledLabelEncoder (le : LabelEncoder.t)
| PickledFeatures (names : list string).
Arguments PickledModel {model_t} m.
Arguments PickledLabelEncoder {model_t} le.
Arguments PickledFeatures {model_t} names.

Section Training.
(** scikit-learn, as the script calls it: [fit params X y] fits a
    [GradientBoostingRegressor] built with the keyword arguments [params];
    [train_test_split n] gives the train and test positions chosen among
    [n] rows for [test_size=0.2, random_state=42]. *)
Context {model_t : Type}.
Variable fit : list (string * Q) -> list (list Q) -> list Q -> option model_t.
Variable train_test_split : nat -> option (list nat * list nat).

(** The frame is the caller's; the printed report is left out. *)
Definition train_battery_health_model (df : loc)
    : HeapM (model_t * LabelEncoder.t * list string
             * list (string * artifact model_t)) :=
  '(X, y, le_model, feature_cols) ← prepare_battery_health_data df;
  X ← lift (pd.to_matrix X);
  y ← lift (pd.numbers y);
  '(train, test) ← lift (train_test_split (length X));
  X_train ← lift (RepairCost.take_rows train X);
  y_train ← lift (RepairCost.take_rows train y);
  model ← lift (fit [ ("n_estimators", 300); ("max_depth", 6);
                      ("learning_rate", 0.05); ("min_samples_split", 10);
                      ("min_samples_leaf", 4); ("subsample", 0.8);
                      ("random_state", 42) ]%string X_train y_train);
  mret (model, le_model, feature_cols,
        [ ("models/battery_health_model.pkl", PickledModel model);
          ("models/battery_health_label_encoder.pkl",
           PickledLabelEncoder le_model);
          ("models/battery_health_features.pkl",
           PickledFeatures feature_cols) ]%string).

End Training.

End BatteryTraining.

(** ** conver.py: export of the saved repair-cost model *)

Module Conver.

Section Conver.
Context {model_t onnx_t : Type}.
Variable convert_sklearn : model_t -> nat -> onnx_t.

(** [joblib.dump] calls in order: a later write to a path replaces the
    earlier one. *)
Definition save (files : list (string * RepairCost.artifact model_t onnx_t))
    (disk : gmap string (RepairCost.artifact model_t onnx_t))
    : gmap string (RepairCost.artifact model_t onnx_t) :=
  List.fold_left (fun d kv => <[kv.1 := kv.2]> d) files disk.

(** Lines 7-23: load the model and the feature list saved by
    repairecost.py, convert, write the graph.  [None] when a file is
    missing or does not hold what its name says. *)
Definition conver (disk : gmap string (RepairCost.artifact model_t onnx_t))
    : option (gmap string (RepairCost.artifact model_t onnx_t)) :=
  model ← (disk !! "models/simple_repair_cost_model.pkl"%string) ≫=
           (fun a => match a with
                     | RepairCost.PickledModel m => Some m
                     | _ => None
                     end);
  feature_cols ← (disk !! "models/simple_repair_cost_features.pkl"%string) ≫=
                  (fun a => match a with
                            | RepairCost.PickledFeatures names => Some names
                            | _ => None
                            end);
  let onnx_model := convert_sklearn model (length feature_cols) in
  Some (<["ONNXmodels/repair_cost_model.onnx"%string :=
            RepairCost.OnnxFile onnx_model]> disk).

End Conver.

End Conver.

(** ** Derived forms used in the statements below *)

Module Derived.
Import BatteryHealth.

(** More of what one iteration establishes: the unclamped charging
    efficiency, the internal resistance and the cycle count in terms of
    the draws they come from. *)
Record detailed (l : locals) : Prop := {
  efficiency_eq : exists e : Q,
    (-0.02 <= e /\ e < 0.01) /\
    l_charging_efficiency l =
    Py.max 0.80 (Py.min 0.98 (0.95 - l_age_years l * 0.008 + e));
  resistance_eq : exists n : Q,
    (0 <= n /\ n < 1) /\
    l_internal_resistance_mohm l = 2.0 + l_age_years l * 0.8 + n;
  cycles_eq : exists n : Q,
    l_battery_cycles l = Py.int (l_mileage l / 300 + n)
}.

(** The eleven features of a generated row, in the order of the trained
    feature list, [code] being the code of its model. *)
Definition feature_row (r : row) (code : nat) : list Q :=
  [ age_years r; inject_Z (mileage r); inject_Z (battery_cycles r);
    fast_charge_ratio r; avg_temperature_c r; avg_depth_of_discharge r;
    voltage r; internal_resistance_mohm r; charging_efficiency r;
    inject_Z (battery_capacity_kwh r); inject_Z (Z.of_nat code) ].

(** The twelve column names of a generated table, in order. *)
Definition generated_columns : list string :=
  [ "model"; "age_years"; "mileage"; "battery_cycles"; "fast_charge_ratio";
    "avg_temperature_c"; "avg_depth_of_discharge"; "voltage";
    "internal_resistance_mohm"; "charging_efficiency";
    "battery_capacity_kwh"; "battery_health_percent" ]%string.

End Derived.

(** ** The generator over any arithmetic

    The modules above compute on exact rationals.  Where a statement
    depends on the very values the interpreter computes, the generator is
    read here over an arbitrary carrier [F] of floats: the same
    statements in the same order, every literal, operator and built-in of
    the source being an operation of the carrier.  Nothing is assumed of
    these operations (they need not be associative, and a sum need not be
    exact); a statement that needs a property of them says so.
    [Float.exact] is the exact arithmetic used above. *)

Module Float.

Class Arith (F : Type) : Type := {
  (** the float denoted by a numeric literal *)
  lit : Q -> F;
  (** an [int] converted for an operation whose other operand is a float *)
  of_int : Z -> F;
  (** [x + y], [x - y], [x * y], [x / y] *)
  add : F -> F -> F;
  sub : F -> F -> F;
  mul : F -> F -> F;
  div : F -> F -> F;
  (** [x < y] *)
  ltb : F -> F -> bool;
  (** [round(x, ndigits)] *)
  round : F -> nat -> F;
  (** [int(x)] *)
  int : F -> Z
}.

(** [numpy.random] with samples in the carrier. *)
Class RandomSource (F G : Type) : Type := {
  seed : Z -> G;
  uniform : F -> F -> State G F;
  normal : F -> F -> State G F;
  beta : F -> F -> State G F;
  index : nat -> State G nat
}.

Declare Scope arith_scope.
#[local] Infix "+" := add : arith_scope.
#[local] Infix "-" := sub : arith_scope.
#[local] Infix "*" := mul : arith_scope.
#[local] Infix "/" := div : arith_scope.
#[local] Open Scope arith_scope.

Record row {F : Type} : Type := Row {
  model : string;
  age_years : F;
  mileage : Z;
  battery_cycles : Z;
  fast_charge_ratio : F;
  avg_temperature_c : F;
  avg_depth_of_discharge : F;
  voltage : F;
  internal_resistance_mohm : F;
  charging_efficiency : F;
  battery_capacity_kwh : Z;
  battery_health_percent : F
}.
Arguments row : clear implicits.

Record locals {F : Type} : Type := Locals {
  l_age_years : F;
  l_annual_mileage : F;
  l_noise_km : F;
  l_mileage : F;
  l_battery_cycles : Z;
  l_fast_charge_ratio : F;
  l_avg_temperature_c : F;
  l_avg_depth_of_discharge : F;
  l_voltage : F;
  l_internal_resistance_mohm : F;
  l_charging_efficiency : F;
  l_model : string;
  l_battery_capacity_kwh : Z;
  l_u : F;
  l_calendar_degradation : F;
  l_noise : F;
  l_battery_health : F
}.
Arguments locals : clear implicits.

Section Generator.
Context {F : Type} {A : Arith F}.

(** [min(a, b)] and [max(a, b)]: the first argument unless the second is
    strictly smaller (larger). *)
Definition min (a b : F) : F := if ltb b a then b else a.
Definition max (a b : F) : F := if ltb a b then b else a.

(** Lines 73-101. *)
Definition health_before_clamp
    (age_years : F) (battery_cycles : Z) (fast_charge_ratio : F)
    (avg_temperature_c avg_depth_of_discharge mileage u noise : F) : F :=
  let battery_health := lit 100.0 in
  let calendar_degradation := age_years * u in
  let battery_health := battery_health - calendar_degradation in
  let cycle_factor :=
    if ltb avg_depth_of_discharge (lit 0.5) then lit 0.01 else lit 0.015 in
  let cycle_degradation :=
    of_int battery_cycles * cycle_factor * avg_depth_of_discharge in
  let battery_health := battery_health - cycle_degradation in
  let fast_charge_degradation :=
    fast_charge_ratio * of_int battery_cycles * lit 0.005 in
  let battery_health := battery_health - fast_charge_degradation in
  let battery_health :=
    if ltb (lit 35) avg_temperature_c then
      battery_health - (avg_temperature_c - lit 35) * age_years * lit 0.3
    else if ltb avg_temperature_c (lit 10) then
      battery_health - (lit 10 - avg_temperature_c) * age_years * lit 0.15
    else battery_health in
  let battery_health :=
    if ltb (lit 100000) mileage then
      battery_health - (mileage - lit 100000) / lit 10000 * lit 0.5
    else battery_health in
  battery_health + noise.

(** Line 104. *)
Definition clamp_health (battery_health : F) : F :=
  max (lit 40) (min (lit 100) battery_health).

(** Lines 106-119. *)
Definition row_of_locals (l : locals F) : row F := {|
  model := l_model l;
  age_years := round (l_age_years l) 2;
  mileage := int (l_mileage l);
  battery_cycles := l_battery_cycles l;
  fast_charge_ratio := round (l_fast_charge_ratio l) 3;
  avg_temperature_c := round (l_avg_temperature_c l) 1;
  avg_depth_of_discharge := round (l_avg_depth_of_discharge l) 3;
  voltage := round (l_voltage l) 2;
  internal_resistance_mohm := round (l_internal_resistance_mohm l) 2;
  charging_efficiency := round (l_charging_efficiency l) 3;
  battery_capacity_kwh := l_battery_capacity_kwh l;
  battery_health_percent := round (l_battery_health l) 2
|}.

(** The specification's step 11, from its words: 100.0 minus, in order,
    the calendar, cycle, fast-charge, thermal and high-mileage terms, plus
    the noise; a term that does not apply is 0. *)
Definition claimed_health (age_years : F) (battery_cycles : Z)
    (fast_charge_ratio temp dod mileage u noise : F) : F :=
  let calendar := age_years * u in
  let cycle :=
    of_int battery_cycles
    * (if ltb dod (lit 0.5) then lit 0.01 else lit 0.015) * dod in
  let fast_charge := fast_charge_ratio * of_int battery_cycles * lit 0.005 in
  let thermal :=
    if ltb (lit 35) temp then (temp - lit 35) * age_years * lit 0.3
    else if ltb temp (lit 10) then (lit 10 - temp) * age_years * lit 0.15
    else lit 0 in
  let high_mileage :=
    if ltb (lit 100000) mileage
    then (mileage - lit 100000) / lit 10000 * lit 0.5 else lit 0 in
  lit 100.0 - calendar - cycle - fast_charge - thermal - high_mileage + noise.

Context {G : Type} {R : RandomSource F G}.

Definition choice {B : Type} `{Inhabited B} (a : list B) : State G B :=
  i ← index (length a); mret (a !!! i).

(** Lines 60-68. *)
Definition choose_model_and_capacity : State G (string * Z) :=
  model ← choice BatteryHealth.ev_models;
  battery_capacity_kwh ←
    (if Py.contains "Tesla" model then choice [50; 75; 100]%Z
     else if Py.contains "Nissan Leaf" model then choice [40; 62]%Z
     else if Py.contains "Rivian" model then choice [135; 180]%Z
     else choice [50; 60; 75; 82]%Z);
  mret (model, battery_capacity_kwh).

(** Lines 29-104, draws in source order. *)
Definition iteration : State G (locals F) :=
  age_years ← uniform (lit 0.1) (lit 10);
  let age_months := age_years * lit 12 in
  annual_mileage ← uniform (lit 8000) (lit 25000);
  noise_km ← normal (lit 0) (lit 2000);
  let mileage := age_years * annual_mileage + noise_km in
  noise_cycles ← normal (lit 0) (lit 50);
  let battery_cycles := int (mileage / lit 300 + noise_cycles) in
  fast_charge_ratio ←
    (if ltb age_years (lit 3) then beta (lit 2) (lit 5)
     else beta (lit 1.5) (lit 4));
  avg_temperature_c ← uniform (lit 15) (lit 40);
  avg_depth_of_discharge ← uniform (lit 0.3) (lit 0.9);
  noise_v ← normal (lit 0) (lit 5);
  let voltage := lit 400 - age_years * lit 1.5 + noise_v in
  let base_resistance := lit 2.0 + age_years * lit 0.8 in
  noise_r ← uniform (lit 0) (lit 1);
  let internal_resistance_mohm := base_resistance + noise_r in
  noise_e ← uniform (lit (-0.02)) (lit 0.01);
  let charging_efficiency := lit 0.95 - age_years * lit 0.008 + noise_e in
  let charging_efficiency :=
    max (lit 0.80) (min (lit 0.98) charging_efficiency) in
  mc ← choose_model_and_capacity;
  u ← uniform (lit 2) (lit 3);
  noise ← normal (lit 0) (lit 2);
  let battery_health :=
    health_before_clamp age_years battery_cycles fast_charge_ratio
      avg_temperature_c avg_depth_of_discharge mileage u noise in
  let battery_health := clamp_health battery_health in
  mret {|
    l_age_years := age_years;
    l_annual_mileage := annual_mileage;
    l_noise_km := noise_km;
    l_mileage := mileage;
    l_battery_cycles := battery_cycles;
    l_fast_charge_ratio := fast_charge_ratio;
    l_avg_temperature_c := avg_temperature_c;
    l_avg_depth_of_discharge := avg_depth_of_discharge;
    l_voltage := voltage;
    l_internal_resistance_mohm := internal_resistance_mohm;
    l_charging_efficiency := charging_efficiency;
    l_model := mc.1;
    l_battery_capacity_kwh := mc.2;
    l_u := u;
    l_calendar_degradation := age_years * u;
    l_noise := noise;
    l_battery_health := battery_health
  |}.

(** Lines 27-119. *)
Fixpoint loop (n : nat) (data : list (row F)) : State G (list (row F)) :=
  match n with
  | O => mret data
  | S n' => l ← iteration; loop n' (data ++ [row_of_locals l])
  end.

(** [np.random.seed(s)] *)
Definition reseed (s : Z) : State G unit := fun _ => (tt, seed s).

(** Lines 17-119. *)
Definition generate_rows (n_samples : Z) : State G (list (row F)) :=
  _ ← reseed 42;
  loop (Z.to_nat n_samples) [].

End Generator.

(** The exact arithmetic of the modules above, and a random state as a
    source of exact samples. *)
#[global] Instance exact : Arith Q := {|
  lit := fun q => q;
  of_int := inject_Z;
  add := Qplus;
  sub := Qminus;
  mul := Qmult;
  div := Qdiv;
  ltb := Py.Qltb;
  round := Py.round;
  int := Py.int
|}.

Definition source_of {G : Type} (R : RandomState G) : RandomSource Q G := {|
  seed := rs_seed;
  uniform := rs_uniform;
  normal := rs_normal;
  beta := rs_beta;
  index := rs_index
|}.

(** The scripted random source, as a source of exact samples. *)
Definition replay (script : list Q) : RandomSource Q (list Q) :=
  source_of (Scripted.source script).

Definition to_row (r : row Q) : BatteryHealth.row := {|
  BatteryHealth.model := model r;
  BatteryHealth.age_years := age_years r;
  BatteryHealth.mileage := mileage r;
  BatteryHealth.battery_cycles := battery_cycles r;
  BatteryHealth.fast_charge_ratio := fast_charge_ratio r;
  BatteryHealth.avg_temperature_c := avg_temperature_c r;
  BatteryHealth.avg_depth_of_discharge := avg_depth_of_discharge r;
  BatteryHealth.voltage := voltage r;
  BatteryHealth.internal_resistance_mohm := internal_resistance_mohm r;
  BatteryHealth.charging_efficiency := charging_efficiency r;
  BatteryHealth.battery_capacity_kwh := battery_capacity_kwh r;
  BatteryHealth.battery_health_percent := battery_health_percent r
|}.

End Float.

(** * Properties *)

(** ** Python numerics *)

Lemma Qltb_lt (x y : Q) : Py.Qltb x y = true <-> x < y.
Proof.
  unfold Py.Qltb. rewrite negb_true_iff.
  destruct (Qle_bool y x) eqn:E.
  - apply Qle_bool_iff in E. split; [discriminate | intros; lra].
  - split; [intros _ | reflexivity].
    destruct (Qlt_le_dec x y) as [?|H]; [assumption|].
    apply Qle_bool_iff in H. congruence.
Qed.

Lemma Qltb_ge (x y : Q) : Py.Qltb x y = false <-> y <= x.
Proof.
  rewrite <- not_true_iff_false, Qltb_lt. split; intros; lra.
Qed.

Ltac case_Qltb :=
  match goal with
  | |- context [Py.Qltb ?x ?y] =>
      let E := fresh "E" in
      destruct (Py.Qltb x y) eqn:E;
      [apply Qltb_lt in E | apply Qltb_ge in E]
  end.

Lemma py_min_le_l (a b : Q) : Py.min a b <= a.
Proof. unfold Py.min. case_Qltb; lra. Qed.

Lemma py_min_le_r (a b : Q) : Py.min a b <= b.
Proof. unfold Py.min. case_Qltb; lra. Qed.

Lemma py_max_ge_l (a b : Q) : a <= Py.max a b.
Proof. unfold Py.max. case_Qltb; lra. Qed.

Lemma py_max_ge_r (a b : Q) : b <= Py.max a b.
Proof. unfold Py.max. case_Qltb; lra. Qed.

Lemma py_max_le (a b c : Q) : a <= c -> b <= c -> Py.max a b <= c.
Proof. unfold Py.max. case_Qltb; lra. Qed.

(** A clamp [max(lo, min(hi, x))] with [lo <= hi] lands in [[lo, hi]]. *)
Lemma py_clamp_range (lo hi x : Q) :
  lo <= hi -> lo <= Py.max lo (Py.min hi x) /\ Py.max lo (Py.min hi x) <= hi.
Proof.
  intros Hlh. split; [apply py_max_ge_l|].
  apply py_max_le; [assumption | apply py_min_le_l].
Qed.

(** A clamp is monotone. *)
Lemma py_clamp_mono (lo hi x y : Q) :
  x <= y -> Py.max lo (Py.min hi x) <= Py.max lo (Py.min hi y).
Proof.
  intros Hxy. unfold Py.min.
  do 2 case_Qltb; unfold Py.max; repeat case_Qltb; lra.
Qed.

#[global] Instance py_min_proper : Proper (Qeq ==> Qeq ==> Qeq) Py.min.
Proof.
  intros a a' Ha b b' Hb. unfold Py.min.
  repeat case_Qltb; lra.
Qed.

#[global] Instance py_max_proper : Proper (Qeq ==> Qeq ==> Qeq) Py.max.
Proof.
  intros a a' Ha b b' Hb. unfold Py.max.
  repeat case_Qltb; lra.
Qed.

Lemma round_half_even_floor (x : Q) :
  (Qfloor x <= Py.round_half_even x <= Qfloor x + 1)%Z.
Proof.
  unfold Py.round_half_even.
  repeat case_Qltb; try destruct (Z.even _); lia.
Qed.

Lemma round_half_even_Z (k : Z) : Py.round_half_even (inject_Z k) = k.
Proof.
  unfold Py.round_half_even. rewrite Qfloor_Z.
  case_Qltb; [reflexivity | lra].
Qed.

#[global] Instance round_half_even_proper :
  Proper (Qeq ==> eq) Py.round_half_even.
Proof.
  intros x y Hxy. unfold Py.round_half_even.
  rewrite (Qfloor_comp _ _ Hxy).
  repeat case_Qltb; try reflexivity; lra.
Qed.

(** Rounding to the nearest integer is monotone. *)
Lemma round_half_even_mono (x y : Q) :
  x <= y -> (Py.round_half_even x <= Py.round_half_even y)%Z.
Proof.
  intros Hxy.
  pose proof (Qfloor_resp_le _ _ Hxy) as Hf.
  destruct (Z.eq_dec (Qfloor x) (Qfloor y)) as [Heq|Hne].
  - unfold Py.round_half_even. rewrite Heq.
    repeat case_Qltb; try destruct (Z.even _); try lia; lra.
  - pose proof (round_half_even_floor x). pose proof (round_half_even_floor y).
    lia.
Qed.

Lemma pow10_pos (n : nat) : 0 < Py.pow10 n.
Proof.
  unfold Py.pow10. change 0 with (inject_Z 0). rewrite <- Zlt_Qlt.
  apply Z.pow_pos_nonneg; lia.
Qed.


(** [round(x, n)] is monotone in [x]. *)
Lemma py_round_mono (x y : Q) (n : nat) :
  x <= y -> Py.round x n <= Py.round y n.
Proof.
  intros Hxy. unfold Py.round.
  pose proof (pow10_pos n) as Hp.
  apply Qmult_le_compat_r.
  - rewrite <- Zle_Qle. apply round_half_even_mono.
    apply Qmult_le_compat_r; lra.
  - apply Qlt_le_weak, Qinv_lt_0_compat, Hp.
Qed.

(** A number with at most [n] decimals is left alone by [round(_, n)]. *)
Lemma py_round_decimal (k : Z) (n : nat) :
  Py.round (inject_Z k / Py.pow10 n) n == inject_Z k / Py.pow10 n.
Proof.
  unfold Py.round. pose proof (pow10_pos n) as Hp.
  assert (E : inject_Z k / Py.pow10 n * Py.pow10 n == inject_Z k)
    by (field; lra).
  rewrite (round_half_even_proper _ _ E), round_half_even_Z. reflexivity.
Qed.

(** Rounding keeps a value between two bounds that have at most [n]
    decimals themselves. *)
Lemma py_round_range (lo hi : Z) (x : Q) (n : nat) :
  inject_Z lo / Py.pow10 n <= x -> x <= inject_Z hi / Py.pow10 n ->
  inject_Z lo / Py.pow10 n <= Py.round x n /\
  Py.round x n <= inject_Z hi / Py.pow10 n.
Proof.
  intros Hlo Hhi. split.
  - rewrite <- (py_round_decimal lo n). now apply py_round_mono.
  - rewrite <- (py_round_decimal hi n). now apply py_round_mono.
Qed.

(** [int(x)] is non-negative exactly when [x] is above [-1]. *)
Lemma py_int_nonneg (x : Q) : (0 <= Py.int x)%Z <-> -1 < x.
Proof.
  unfold Py.int. case_Qltb.
  - unfold Qceiling.
    pose proof (Qfloor_le (- x)). pose proof (Qlt_floor (- x)) as Hlt.
    rewrite inject_Z_plus in Hlt. change (inject_Z 1) with 1 in Hlt.
    split.
    + intros Hz. assert (Qfloor (- x) <= 0)%Z as Hz' by lia.
      rewrite Zle_Qle in Hz'. change (inject_Z 0) with 0 in Hz'. lra.
    + intros Hx. assert (inject_Z (Qfloor (- x)) < inject_Z 1) as Hz
        by (change (inject_Z 1) with 1; lra).
      rewrite <- Zlt_Qlt in Hz. lia.
  - split; [intros _; lra | intros _].
    change 0%Z with (Qfloor 0). now apply Qfloor_resp_le.
Qed.

(** ** The scripted random source is a lawful generator *)

Lemma frac_range (x : Q) : 0 <= Scripted.frac x /\ Scripted.frac x < 1.
Proof.
  unfold Scripted.frac.
  pose proof (Qfloor_le x). pose proof (Qlt_floor x) as Hlt.
  rewrite inject_Z_plus in Hlt. change (inject_Z 1) with 1 in Hlt.
  split; lra.
Qed.

Lemma scripted_laws (script : list Q) : RandomStateLaws (Scripted.source script).
Proof.
  split.
  - intros lo hi g Hlt. simpl. destruct (Scripted.next g) as [x g']. simpl.
    pose proof (frac_range x) as [H0 H1].
    assert (0 <= (hi - lo) * Scripted.frac x) by (apply Qmult_le_0_compat; lra).
    assert ((hi - lo) * Scripted.frac x < (hi - lo) * 1)
      by (apply Qmult_lt_l; lra).
    split; lra.
  - intros k g Hk. cbn [rs_index Scripted.source].
    destruct (Scripted.next g) as [x g']. cbn [fst].
    pose proof (frac_range x) as [H0 H1].
    generalize dependent (Scripted.frac x). intros f H0 H1.
    remember (inject_Z (Z.of_nat k)) as q eqn:Eq.
    assert (Hq : 0 < q).
    { subst q. change 0 with (inject_Z 0). rewrite <- Zlt_Qlt. lia. }
    assert (Hlo : 0 <= f * q) by (apply Qmult_le_0_compat; lra).
    assert (Hhi : f * q < 1 * q) by (apply Qmult_lt_r; lra).
    apply (Qfloor_resp_le 0) in Hlo. change (Qfloor 0) with 0%Z in Hlo.
    assert (Hf : inject_Z (Qfloor (f * q)) < q).
    { pose proof (Qfloor_le (f * q)). lra. }
    rewrite Eq in Hf at 2. rewrite <- Zlt_Qlt in Hf. lia.
Qed.

(** ** The generator *)

Section GeneratorFacts.
Context {G : Type} {R : RandomState G}.
Import BatteryHealth.

(** The loop only appends rows built by its body. *)
Lemma loop_rows (n : nat) : forall (data : list row) (g : G) (r : row),
  In r (loop n data g).1 ->
  In r data \/ exists g', r = row_of_locals (iteration g').1.
Proof.
  induction n as [|n IH]; intros data g r Hin.
  - left. exact Hin.
  - cbn [loop] in Hin. unfold mbind, state_bind in Hin.
    destruct (iteration g) as [l g1] eqn:El.
    apply IH in Hin as [Hin | Hin]; [|right; exact Hin].
    apply in_app_or in Hin as [Hin | [<- | []]]; [left; exact Hin|].
    right. exists g. now rewrite El.
Qed.

(** The loop appends one row per iteration. *)
Lemma loop_length (n : nat) : forall (data : list row) (g : G),
  length (loop n data g).1 = (length data + n)%nat.
Proof.
  induction n as [|n IH]; intros data g.
  - cbn. lia.
  - cbn [loop]. unfold mbind, state_bind.
    destruct (iteration g) as [l g1].
    rewrite IH, length_app. cbn. lia.
Qed.

Lemma generate_rows_iteration (n_samples : Z) (g : G) (r : row) :
  In r (generate_rows n_samples g).1 ->
  exists g', r = row_of_locals (iteration g').1.
Proof.
  unfold generate_rows, mbind, state_bind, np_random.seed.
  intros Hin. apply loop_rows in Hin as [[] | Hin]. exact Hin.
Qed.

Lemma choice_In {A : Type} `{Inhabited A} {L : RandomStateLaws R}
    (a : list A) (g : G) :
  a <> [] -> In (np_random.choice a g).1 a.
Proof.
  intros Hne. unfold np_random.choice, mbind, state_bind, mret, state_ret.
  pose proof (rs_index_range (length a) g) as Hlt.
  destruct (rs_index (length a) g) as [i g1]. cbn [fst] in *.
  apply list_elem_of_In, list_elem_of_lookup_total_2, Hlt.
  destruct a; [congruence | cbn; lia].
Qed.

Lemma choose_model_and_capacity_In {L : RandomStateLaws R} (g : G) :
  let mc := (choose_model_and_capacity g).1 in
  In mc.1 ev_models /\ In mc.2 (Spec.candidates mc.1).
Proof.
  unfold choose_model_and_capacity, mbind, state_bind, mret, state_ret.
  pose proof (choice_In ev_models g ltac:(discriminate)) as Hm.
  destruct (np_random.choice ev_models g) as [m g1]. cbn [fst] in Hm.
  unfold Spec.candidates.
  destruct (Py.contains "Tesla" m) eqn:E1;
    [|destruct (Py.contains "Nissan Leaf" m) eqn:E2;
      [|destruct (Py.contains "Rivian" m) eqn:E3]].
  all: match goal with
       | |- context [np_random.choice ?a ?g'] =>
           pose proof (choice_In a g' ltac:(discriminate)) as Hc;
           destruct (np_random.choice a g') as [c g2]
       end.
  all: cbv beta iota zeta delta [fst snd] in *.
  all: rewrite E1, ?E2, ?E3; split; assumption.
Qed.

(** Stepping through the draws of the loop body, outermost first. *)
Ltac draw_uniform :=
  match goal with
  | |- context [np_random.uniform ?lo ?hi ?g] =>
      let H := fresh "Hu" in
      assert (H := rs_uniform_range lo hi g ltac:(lra));
      change (np_random.uniform lo hi g) with (rs_uniform lo hi g);
      destruct (rs_uniform lo hi g) as [? ?];
      cbn [fst] in H
  end.

Ltac draw_other :=
  match goal with
  | |- context [np_random.normal ?m ?s ?g] =>
      destruct (np_random.normal m s g) as [? ?]
  | |- context [np_random.beta ?a ?b ?g] =>
      destruct (np_random.beta a b g) as [? ?]
  end.

Lemma iteration_established {L : RandomStateLaws R} (g : G) :
  Iteration.established (iteration g).1.
Proof.
  unfold iteration, mbind, state_bind, mret, state_ret.
  do 2 draw_uniform. do 2 draw_other.
  case_Qltb; draw_other.
  all: do 2 draw_uniform; draw_other; do 2 draw_uniform.
  all: match goal with
       | |- context [choose_model_and_capacity ?g'] =>
           pose proof (choose_model_and_capacity_In g') as Hmc;
           destruct (choose_model_and_capacity g') as [[m c] ?];
           cbv beta iota zeta delta [fst snd] in Hmc
       end.
  all: draw_uniform; draw_other.
  all: cbv beta iota zeta delta [fst snd].
  all: split; cbn [l_age_years l_annual_mileage l_noise_km l_mileage
                   l_battery_cycles l_fast_charge_ratio l_avg_temperature_c
                   l_avg_depth_of_discharge l_charging_efficiency l_model
                   l_battery_capacity_kwh l_u l_calendar_degradation
                   l_noise l_battery_health];
       try reflexivity; try tauto.
  all: apply py_clamp_range; lra.
Qed.

End GeneratorFacts.

(** The code's clamp and degradation formula agree with the
    specification's. *)
Lemma clamp_health_spec (x : Q) :
  BatteryHealth.clamp_health x == Spec.clamp 40 100 x.
Proof.
  unfold BatteryHealth.clamp_health, Spec.clamp, Py.min.
  case_Qltb; unfold Py.max; repeat case_Qltb; lra.
Qed.

Lemma health_before_clamp_spec
    (age : Q) (cycles : Z) (fcr temp dod mileage u noise : Q) :
  BatteryHealth.health_before_clamp age cycles fcr temp dod mileage u noise ==
  Spec.health age cycles fcr temp dod mileage u noise.
Proof.
  unfold BatteryHealth.health_before_clamp, Spec.health.
  cbv zeta. repeat case_Qltb; ring.
Qed.

Lemma clamped_health_spec
    (age : Q) (cycles : Z) (fcr temp dod mileage u noise : Q) :
  BatteryHealth.clamp_health
    (BatteryHealth.health_before_clamp age cycles fcr temp dod mileage u noise) ==
  Spec.clamp 40 100 (Spec.health age cycles fcr temp dod mileage u noise).
Proof.
  rewrite <- clamp_health_spec. unfold BatteryHealth.clamp_health.
  rewrite health_before_clamp_spec. reflexivity.
Qed.

Lemma py_round_bounds (lo hi : Q) (klo khi : Z) (x : Q) (n : nat) :
  lo == inject_Z klo / Py.pow10 n -> hi == inject_Z khi / Py.pow10 n ->
  lo <= x -> x <= hi ->
  lo <= Py.round x n /\ Py.round x n <= hi.
Proof.
  intros Elo Ehi Hlo Hhi. rewrite Elo, Ehi in *.
  now apply py_round_range.
Qed.

(** ** The claims about the generator *)

(** C1.  The generator is deterministic given [n_samples]: it installs the
    fixed seed 42 before drawing anything, so two calls with the same
    [n_samples] return identical tables (and leave the random state in the
    same place) whatever state NumPy's global generator was in before each
    call, in particular when the second call follows the first. *)
Theorem generate_deterministic
    (G : Type) (R : RandomState G) (n_samples : Z) (g1 g2 : G) :
  BatteryHealth.generate_realistic_battery_data n_samples g1 =
  BatteryHealth.generate_realistic_battery_data n_samples g2
  /\ (let '(table1, g') :=
        BatteryHealth.generate_realistic_battery_data n_samples g1 in
      (BatteryHealth.generate_realistic_battery_data n_samples g').1 = table1).
Proof.
  unfold BatteryHealth.generate_realistic_battery_data,
    BatteryHealth.generate_rows, np_random.seed, mbind, state_bind.
  split; [reflexivity|].
  destruct (BatteryHealth.loop (Z.to_nat n_samples) [] (rs_seed 42)) as [data g'].
  reflexivity.
Qed.

(** C3.  In every row of a generated table the bounded fields are within
    their clamp ranges: [40 <= battery_health_percent <= 100],
    [0.80 <= charging_efficiency <= 0.98] and
    [0.3 <= avg_depth_of_discharge <= 0.9]. *)
Theorem bounded_fields_in_range
    (G : Type) (R : RandomState G) (L : RandomStateLaws R)
    (n_samples : Z) (g : G) (r : BatteryHealth.row) :
  In r (BatteryHealth.generate_rows n_samples g).1 ->
  (40 <= BatteryHealth.battery_health_percent r /\
   BatteryHealth.battery_health_percent r <= 100) /\
  (0.80 <= BatteryHealth.charging_efficiency r /\
   BatteryHealth.charging_efficiency r <= 0.98) /\
  (0.3 <= BatteryHealth.avg_depth_of_discharge r /\
   BatteryHealth.avg_depth_of_discharge r <= 0.9).
Proof.
  intros Hin. apply generate_rows_iteration in Hin as [g' ->].
  destruct (iteration_established g') as [_ _ _ _ Hdod Heff _ _ _ _ Hbh].
  cbn [BatteryHealth.row_of_locals BatteryHealth.battery_health_percent
       BatteryHealth.charging_efficiency BatteryHealth.avg_depth_of_discharge].
  repeat split.
  - eapply (py_round_bounds 40 100 4000 10000); try reflexivity.
    all: rewrite Hbh; apply py_clamp_range; lra.
  - eapply (py_round_bounds 40 100 4000 10000); try reflexivity.
    all: rewrite Hbh; apply py_clamp_range; lra.
  - eapply (py_round_bounds 0.80 0.98 800 980); try reflexivity; tauto.
  - eapply (py_round_bounds 0.80 0.98 800 980); try reflexivity; tauto.
  - eapply (py_round_bounds 0.3 0.9 300 900); try reflexivity; lra.
  - eapply (py_round_bounds 0.3 0.9 300 900); try reflexivity; lra.
Qed.

Lemma bounded_fields_in_range_witness :
  let R := Scripted.source Scripted.young_vehicle in
  let r :=
    BatteryHealth.row_of_locals (BatteryHealth.iteration (R := R) (rs_seed 42)).1 in
  In r (BatteryHealth.generate_rows (R := R) 1 []).1 /\
  (40 <= BatteryHealth.battery_health_percent r /\
   BatteryHealth.battery_health_percent r <= 100) /\
  (0.80 <= BatteryHealth.charging_efficiency r /\
   BatteryHealth.charging_efficiency r <= 0.98) /\
  (0.3 <= BatteryHealth.avg_depth_of_discharge r /\
   BatteryHealth.avg_depth_of_discharge r <= 0.9).
Proof.
  intros R r.
  assert (Hin : In r (BatteryHealth.generate_rows (R := R) 1 []).1).
  { left. vm_compute. reflexivity. }
  split; [exact Hin|].
  exact (bounded_fields_in_range _ R (scripted_laws _) 1 [] r Hin).
Defined.


(** C5.  In every row of a generated table [battery_capacity_kwh] is one
    of the candidates of the row's [model] under the substring lookup in
    priority order (Tesla, then Nissan Leaf, then Rivian, then the
    default set), and [model] is one of the eleven catalogue names. *)
Theorem capacity_from_model_candidates
    (G : Type) (R : RandomState G) (L : RandomStateLaws R)
    (n_samples : Z) (g : G) (r : BatteryHealth.row) :
  In r (BatteryHealth.generate_rows n_samples g).1 ->
  In (BatteryHealth.battery_capacity_kwh r)
     (Spec.candidates (BatteryHealth.model r)) /\
  In (BatteryHealth.model r) BatteryHealth.ev_models.
Proof.
  intros Hin. apply generate_rows_iteration in Hin as [g' ->].
  destruct (iteration_established g') as [_ _ _ _ _ _ Hm Hc _ _ _].
  split; assumption.
Qed.

Lemma capacity_from_model_candidates_witness :
  let R := Scripted.source Scripted.young_vehicle in
  let r :=
    BatteryHealth.row_of_locals (BatteryHealth.iteration (R := R) (rs_seed 42)).1 in
  In r (BatteryHealth.generate_rows (R := R) 1 []).1 /\
  In (BatteryHealth.battery_capacity_kwh r)
     (Spec.candidates (BatteryHealth.model r)) /\
  In (BatteryHealth.model r) BatteryHealth.ev_models.
Proof.
  intros R r.
  assert (Hin : In r (BatteryHealth.generate_rows (R := R) 1 []).1).
  { left. vm_compute. reflexivity. }
  split; [exact Hin|].
  exact (capacity_from_model_candidates _ R (scripted_laws _) 1 [] r Hin).
Defined.

(** ** The generator over any arithmetic *)

Section FloatFacts.
Context {F : Type} {A : Float.Arith F} {G : Type} {R : Float.RandomSource F G}.

Lemma float_loop_rows (n : nat) :
  forall (data : list (Float.row F)) (g : G) (r : Float.row F),
  In r (Float.loop n data g).1 ->
  In r data \/ exists g', r = Float.row_of_locals (Float.iteration g').1.
Proof.
  induction n as [|n IH]; intros data g r Hin.
  - left. exact Hin.
  - cbn [Float.loop] in Hin. unfold mbind, state_bind in Hin.
    destruct (Float.iteration g) as [l g1] eqn:El.
    apply IH in Hin as [Hin | Hin]; [|right; exact Hin].
    apply in_app_or in Hin as [Hin | [<- | []]]; [left; exact Hin|].
    right. exists g. now rewrite El.
Qed.

Lemma float_generate_rows_iteration (n_samples : Z) (g : G) (r : Float.row F) :
  In r (Float.generate_rows n_samples g).1 ->
  exists g', r = Float.row_of_locals (Float.iteration g').1.
Proof.
  unfold Float.generate_rows, mbind, state_bind, Float.reseed.
  intros Hin. apply float_loop_rows in Hin as [[] | Hin]. exact Hin.
Qed.

Ltac float_draw :=
  match goal with
  | |- context [Float.uniform ?lo ?hi ?g] =>
      destruct (Float.uniform lo hi g) as [? ?] eqn:?
  | |- context [Float.normal ?m ?s ?g] =>
      destruct (Float.normal m s g) as [? ?] eqn:?
  | |- context [Float.beta ?a ?b ?g] =>
      destruct (Float.beta a b g) as [? ?] eqn:?
  | |- context [Float.choose_model_and_capacity ?g] =>
      destruct (Float.choose_model_and_capacity g) as [[? ?] ?] eqn:?
  end.

Ltac float_drawn :=
  match goal with
  | E : ?m ?g = (?x, _) |- exists g' : _, ?x = (?m g').1 =>
      exists g; rewrite E; reflexivity
  end.

(** The values of an iteration in terms of its draws: which sampler each
    comes from, and how the mileage and the health are computed. *)
Lemma float_iteration_values (g : G) :
  let l := (Float.iteration g).1 in
  (exists g1 : G,
     Float.l_age_years l =
     (Float.uniform (Float.lit 0.1) (Float.lit 10) g1).1) /\
  (exists g1 : G,
     Float.l_annual_mileage l =
     (Float.uniform (Float.lit 8000) (Float.lit 25000) g1).1) /\
  (exists g1 : G,
     Float.l_noise_km l = (Float.normal (Float.lit 0) (Float.lit 2000) g1).1) /\
  Float.l_mileage l =
    Float.add (Float.mul (Float.l_age_years l) (Float.l_annual_mileage l))
      (Float.l_noise_km l) /\
  (exists g1 : G,
     Float.l_u l = (Float.uniform (Float.lit 2) (Float.lit 3) g1).1) /\
  (exists g1 : G,
     Float.l_noise l = (Float.normal (Float.lit 0) (Float.lit 2) g1).1) /\
  Float.l_battery_health l =
    Float.clamp_health
      (Float.health_before_clamp (Float.l_age_years l)
         (Float.l_battery_cycles l) (Float.l_fast_charge_ratio l)
         (Float.l_avg_temperature_c l) (Float.l_avg_depth_of_discharge l)
         (Float.l_mileage l) (Float.l_u l) (Float.l_noise l)).
Proof.
  unfold Float.iteration, mbind, state_bind, mret, state_ret.
  do 4 float_draw.
  match goal with
  | |- context [if Float.ltb ?x ?y then _ else _] => destruct (Float.ltb x y)
  end.
  all: repeat float_draw.
  all: cbn [fst Float.l_age_years Float.l_annual_mileage Float.l_noise_km
            Float.l_mileage Float.l_u Float.l_noise Float.l_battery_health
            Float.l_battery_cycles Float.l_fast_charge_ratio
            Float.l_avg_temperature_c Float.l_avg_depth_of_discharge].
  all: repeat split; try reflexivity; float_drawn.
Qed.

(** The statements of lines 73-101 compute the claim's formula: the
    operations are the same in the same order, but for the subtraction of
    a zero term. *)
Lemma float_health_before_clamp_claimed
    (sub_zero : forall x : F, Float.sub x (Float.lit 0) = x)
    (age : F) (cycles : Z) (fcr temp dod mileage u noise : F) :
  Float.health_before_clamp age cycles fcr temp dod mileage u noise =
  Float.claimed_health age cycles fcr temp dod mileage u noise.
Proof.
  unfold Float.health_before_clamp, Float.claimed_health. cbv zeta.
  destruct (Float.ltb (Float.lit 35) temp);
    [|destruct (Float.ltb temp (Float.lit 10))];
    destruct (Float.ltb (Float.lit 100000) mileage);
    rewrite ?sub_zero; reflexivity.
Qed.

End FloatFacts.

(** The exact arithmetic has the two properties the statements below ask
    of an arithmetic. *)
Lemma exact_sub_zero (x : Q) :
  Float.sub x (Float.lit 0) = x.
Proof.
  destruct x as [n d]. cbn [Float.sub Float.lit Float.exact].
  unfold Qminus, Qplus, Qopp. cbn [Qnum Qden Z.opp].
  rewrite Z.mul_1_r, Z.mul_0_l, Z.add_0_r, Pos.mul_1_r. reflexivity.
Qed.

Lemma exact_int_sign (x : Q) :
  (0 <= Float.int x)%Z <-> Float.ltb (Float.lit (-1)) x = true.
Proof.
  cbn [Float.int Float.ltb Float.lit Float.exact].
  rewrite py_int_nonneg, Qltb_lt. reflexivity.
Qed.

(** Over the exact arithmetic, the generator of this section is the
    generator of [BatteryHealth]. *)
Section FloatExact.
Context {G : Type} {R : RandomState G}.

Lemma exact_iteration (g : G) :
  let lg := Float.iteration (R := Float.source_of R) g in
  Float.to_row (Float.row_of_locals lg.1) =
    BatteryHealth.row_of_locals (BatteryHealth.iteration g).1 /\
  lg.2 = (BatteryHealth.iteration g).2.
Proof.
  unfold Float.iteration, BatteryHealth.iteration,
    Float.choose_model_and_capacity, BatteryHealth.choose_model_and_capacity,
    Float.choice, np_random.choice, np_random.uniform, np_random.normal,
    np_random.beta, mbind, state_bind, mret, state_ret.
  cbn [Float.uniform Float.normal Float.beta Float.index Float.source_of
       Float.lit Float.ltb Float.exact].
  repeat match goal with
  | |- context [rs_uniform ?lo ?hi ?g] =>
      destruct (rs_uniform lo hi g) as [? ?]
  | |- context [rs_normal ?m ?s ?g] =>
      destruct (rs_normal m s g) as [? ?]
  | |- context [rs_beta ?a ?b ?g] =>
      destruct (rs_beta a b g) as [? ?]
  | |- context [rs_index ?k ?g] =>
      destruct (rs_index k g) as [? ?]
  | |- context [if ?c then _ else _] => destruct c
  end.
  all: split; reflexivity.
Qed.

Lemma exact_loop (n : nat) : forall (data : list (Float.row Q)) (g : G),
  List.map Float.to_row
    (Float.loop (R := Float.source_of R) n data g).1 =
  (BatteryHealth.loop n (List.map Float.to_row data) g).1.
Proof.
  induction n as [|n IH]; intros data g.
  - reflexivity.
  - cbn [Float.loop BatteryHealth.loop]. unfold mbind, state_bind.
    pose proof (exact_iteration g) as [Hrow Hg]. cbv zeta in Hrow, Hg.
    destruct (Float.iteration g) as [l g1].
    destruct (BatteryHealth.iteration g) as [l' g1'].
    cbn [fst snd] in Hrow, Hg. subst g1'.
    rewrite IH, map_app. cbn [List.map]. now rewrite Hrow.
Qed.

Lemma exact_generate_rows (n_samples : Z) (g : G) :
  List.map Float.to_row
    (Float.generate_rows (R := Float.source_of R) n_samples g).1 =
  (BatteryHealth.generate_rows n_samples g).1.
Proof.
  unfold Float.generate_rows, BatteryHealth.generate_rows, Float.reseed,
    np_random.seed, mbind, state_bind.
  apply exact_loop.
Qed.

End FloatExact.

(** C4, as stated, fails: with a lawful random source whose first draws
    are the youngest vehicle (0.1 years), the lowest annual usage
    (8000 km) and a mileage noise of -2000 km, the single generated row
    has [mileage = -1200]. *)
Lemma mileage_negative_counterexample :
  let R := Scripted.source Scripted.noisy_odometer in
  RandomStateLaws R /\
  List.map BatteryHealth.mileage (BatteryHealth.generate_rows (R := R) 1 []).1
  = [(-1200)%Z].
Proof.
  split; [apply scripted_laws | vm_compute; reflexivity].
Qed.

(** C4, amended.  In every row of a generated table [mileage] is
    [int(age_years * annual_mileage + noise)] for the iteration's draws
    [age_years] from [uniform(0.1, 10)], [annual_mileage] from
    [uniform(8000, 25000)] and [noise] from [normal(0, 2000)], the product
    and the sum being the interpreter's own: no bound is applied between
    the sum and the row.  Since [int] truncates toward zero
    ([int(x) >= 0] exactly when [x > -1]), [mileage >= 0] holds exactly
    when that sum is above [-1], and the mileage is negative otherwise. *)
Theorem mileage_truncated_in_any_arithmetic
    (F : Type) (A : Float.Arith F) (G : Type) (R : Float.RandomSource F G)
    (int_sign : forall x : F,
       (0 <= Float.int x)%Z <-> Float.ltb (Float.lit (-1)) x = true)
    (n_samples : Z) (g : G) (r : Float.row F) :
  In r (Float.generate_rows n_samples g).1 ->
  exists g' : G,
    let l := (Float.iteration g').1 in
    let age := Float.l_age_years l in
    let annual := Float.l_annual_mileage l in
    let noise := Float.l_noise_km l in
    let km := Float.add (Float.mul age annual) noise in
    r = Float.row_of_locals l /\
    (exists g1 : G, age = (Float.uniform (Float.lit 0.1) (Float.lit 10) g1).1) /\
    (exists g1 : G,
       annual = (Float.uniform (Float.lit 8000) (Float.lit 25000) g1).1) /\
    (exists g1 : G,
       noise = (Float.normal (Float.lit 0) (Float.lit 2000) g1).1) /\
    Float.mileage r = Float.int km /\
    ((0 <= Float.mileage r)%Z <-> Float.ltb (Float.lit (-1)) km = true).
Proof.
  intros Hin. apply float_generate_rows_iteration in Hin as [g' ->].
  exists g'. cbv zeta.
  destruct (float_iteration_values g') as (Hage & Hannual & Hnoise & Hkm & _).
  cbn [Float.row_of_locals Float.mileage]. rewrite Hkm.
  split; [reflexivity|]. split; [exact Hage|]. split; [exact Hannual|].
  split; [exact Hnoise|]. split; [reflexivity|]. apply int_sign.
Qed.

Lemma mileage_truncated_in_any_arithmetic_witness :
  let R := Float.replay Scripted.noisy_odometer in
  let r :=
    Float.row_of_locals (Float.iteration (R := R) Scripted.noisy_odometer).1 in
  In r (Float.generate_rows (R := R) 1 []).1 /\
  Float.mileage r = (-1200)%Z /\
  exists g' : list Q,
    let l := (Float.iteration (R := R) g').1 in
    let age := Float.l_age_years l in
    let annual := Float.l_annual_mileage l in
    let noise := Float.l_noise_km l in
    let km := Float.add (Float.mul age annual) noise in
    r = Float.row_of_locals l /\
    (exists g1 : list Q,
       age = (Float.uniform (Float.lit 0.1) (Float.lit 10) g1).1) /\
    (exists g1 : list Q,
       annual = (Float.uniform (Float.lit 8000) (Float.lit 25000) g1).1) /\
    (exists g1 : list Q,
       noise = (Float.normal (Float.lit 0) (Float.lit 2000) g1).1) /\
    Float.mileage r = Float.int km /\
    ((0 <= Float.mileage r)%Z <-> Float.ltb (Float.lit (-1)) km = true).
Proof.
  intros R r.
  assert (Hin : In r (Float.generate_rows (R := R) 1 []).1).
  { left. vm_compute. reflexivity. }
  split; [exact Hin|]. split; [vm_compute; reflexivity|].
  exact (mileage_truncated_in_any_arithmetic
           Q Float.exact _ R exact_int_sign 1 [] r Hin).
Defined.

(** C2, as stated, fails: the stored [battery_health_percent] is not the
    clamped value itself.  On the single row generated from
    [Scripted.young_vehicle] the clamp of the formula is [99.7606...]
    (calendar term [0.1 * (2 + 1/3)], cycle term [2 * 0.01 * 0.3]) while
    the row holds [99.76]; this is so whether the formula is read on the
    iteration's own values or on the fields stored in the row. *)
Lemma health_percent_not_the_clamp_counterexample :
  let R := Scripted.source Scripted.young_vehicle in
  let l := (BatteryHealth.iteration (R := R) (rs_seed 42)).1 in
  let r := BatteryHealth.row_of_locals l in
  RandomStateLaws R /\
  (BatteryHealth.generate_rows (R := R) 1 []).1 = [r] /\
  BatteryHealth.battery_health_percent r == 99.76 /\
  ~ BatteryHealth.battery_health_percent r ==
    Spec.clamp 40 100
      (Spec.health (BatteryHealth.l_age_years l) (BatteryHealth.l_battery_cycles l)
         (BatteryHealth.l_fast_charge_ratio l) (BatteryHealth.l_avg_temperature_c l)
         (BatteryHealth.l_avg_depth_of_discharge l) (BatteryHealth.l_mileage l)
         (BatteryHealth.l_u l) (BatteryHealth.l_noise l)) /\
  ~ BatteryHealth.battery_health_percent r ==
    Spec.clamp 40 100
      (Spec.health (BatteryHealth.age_years r) (BatteryHealth.battery_cycles r)
         (BatteryHealth.fast_charge_ratio r) (BatteryHealth.avg_temperature_c r)
         (BatteryHealth.avg_depth_of_discharge r)
         (inject_Z (BatteryHealth.mileage r))
         (BatteryHealth.l_u l) (BatteryHealth.l_noise l)).
Proof.
  split; [apply scripted_laws|].
  split; [vm_compute; reflexivity|].
  repeat split; vm_compute; congruence.
Qed.

(** C2, amended.  In every row of a generated table
    [battery_health_percent] is [round(x, 2)] where [x] is the clamp
    [max(40, min(100, h))] and [h] is 100.0 minus, in order, the
    calendar, cycle, fast-charge, thermal and high-mileage terms of the
    claim, plus the noise, with the calendar rate drawn from
    [uniform(2, 3)] and the noise from [normal(0, 2)]: each operation is
    the interpreter's own, taken in the order written, on the iteration's
    values before they are rounded (or truncated) into the row.  The
    claim subtracts a zero term where the code skips the subtraction; the
    two agree because subtracting the literal 0 changes nothing. *)
Theorem health_percent_rounded_clamp_in_any_arithmetic
    (F : Type) (A : Float.Arith F) (G : Type) (R : Float.RandomSource F G)
    (sub_zero : forall x : F, Float.sub x (Float.lit 0) = x)
    (n_samples : Z) (g : G) (r : Float.row F) :
  In r (Float.generate_rows n_samples g).1 ->
  exists g' : G,
    let l := (Float.iteration g').1 in
    r = Float.row_of_locals l /\
    (exists g1 : G,
       Float.l_u l = (Float.uniform (Float.lit 2) (Float.lit 3) g1).1) /\
    (exists g1 : G,
       Float.l_noise l = (Float.normal (Float.lit 0) (Float.lit 2) g1).1) /\
    Float.battery_health_percent r =
    Float.round
      (Float.max (Float.lit 40)
         (Float.min (Float.lit 100)
            (Float.claimed_health (Float.l_age_years l)
               (Float.l_battery_cycles l) (Float.l_fast_charge_ratio l)
               (Float.l_avg_temperature_c l)
               (Float.l_avg_depth_of_discharge l) (Float.l_mileage l)
               (Float.l_u l) (Float.l_noise l)))) 2.
Proof.
  intros Hin. apply float_generate_rows_iteration in Hin as [g' ->].
  exists g'. cbv zeta.
  destruct (float_iteration_values g') as (_ & _ & _ & _ & Hu & Hnoise & Hbh).
  cbn [Float.row_of_locals Float.battery_health_percent]. rewrite Hbh.
  split; [reflexivity|]. split; [exact Hu|]. split; [exact Hnoise|].
  rewrite (float_health_before_clamp_claimed sub_zero). reflexivity.
Qed.

Lemma health_percent_rounded_clamp_in_any_arithmetic_witness :
  let R := Float.replay Scripted.young_vehicle in
  let r :=
    Float.row_of_locals (Float.iteration (R := R) Scripted.young_vehicle).1 in
  In r (Float.generate_rows (R := R) 1 []).1 /\
  Float.battery_health_percent r == 99.76 /\
  exists g' : list Q,
    let l := (Float.iteration (R := R) g').1 in
    r = Float.row_of_locals l /\
    (exists g1 : list Q,
       Float.l_u l = (Float.uniform (Float.lit 2) (Float.lit 3) g1).1) /\
    (exists g1 : list Q,
       Float.l_noise l = (Float.normal (Float.lit 0) (Float.lit 2) g1).1) /\
    Float.battery_health_percent r =
    Float.round
      (Float.max (Float.lit 40)
         (Float.min (Float.lit 100)
            (Float.claimed_health (Float.l_age_years l)
               (Float.l_battery_cycles l) (Float.l_fast_charge_ratio l)
               (Float.l_avg_temperature_c l)
               (Float.l_avg_depth_of_discharge l) (Float.l_mileage l)
               (Float.l_u l) (Float.l_noise l)))) 2.
Proof.
  intros R r.
  assert (Hin : In r (Float.generate_rows (R := R) 1 []).1).
  { left. vm_compute. reflexivity. }
  split; [exact Hin|]. split; [vm_compute; reflexivity|].
  exact (health_percent_rounded_clamp_in_any_arithmetic
           Q Float.exact _ R exact_sub_zero 1 [] r Hin).
Defined.


(** C8.  With every other value and both draws held fixed, a larger
    [age_years] never gives a larger health: the value before the clamp
    is non-increasing in [age_years] (the calendar rate [u] is drawn from
    [[2, 3)], so it is not negative), and so are the clamped value and
    the rounded value stored in the row. *)
Theorem health_monotone_in_age
    (age1 age2 : Q) (cycles : Z) (fcr temp dod mileage u noise : Q) :
  0 <= u -> age1 <= age2 ->
  let before age :=
    BatteryHealth.health_before_clamp age cycles fcr temp dod mileage u noise in
  before age2 <= before age1 /\
  BatteryHealth.clamp_health (before age2) <=
    BatteryHealth.clamp_health (before age1) /\
  Py.round (BatteryHealth.clamp_health (before age2)) 2 <=
    Py.round (BatteryHealth.clamp_health (before age1)) 2.
Proof.
  intros Hu Hage before.
  assert (Hbefore : before age2 <= before age1).
  { unfold before, BatteryHealth.health_before_clamp. cbv zeta.
    assert (Hcal : age1 * u <= age2 * u) by (apply Qmult_le_compat_r; lra).
    assert (Hhot : 35 < temp -> (temp - 35) * age1 <= (temp - 35) * age2)
      by (intros; apply Qmult_le_l; lra).
    assert (Hcold : temp < 10 -> (10 - temp) * age1 <= (10 - temp) * age2)
      by (intros; apply Qmult_le_l; lra).
    repeat case_Qltb;
      try specialize (Hhot ltac:(assumption));
      try specialize (Hcold ltac:(assumption)); lra. }
  split; [exact Hbefore|].
  assert (Hclamp : BatteryHealth.clamp_health (before age2) <=
                   BatteryHealth.clamp_health (before age1))
    by (apply py_clamp_mono, Hbefore).
  split; [exact Hclamp | apply py_round_mono, Hclamp].
Qed.

Lemma health_monotone_in_age_witness :
  let before age :=
    BatteryHealth.health_before_clamp age 1500 0.6 38 0.9 120000 2.5 0 in
  before 6 <= before 5 /\
  BatteryHealth.clamp_health (before 6) <= BatteryHealth.clamp_health (before 5) /\
  Py.round (BatteryHealth.clamp_health (before 6)) 2 <=
    Py.round (BatteryHealth.clamp_health (before 5)) 2.
Proof.
  apply (health_monotone_in_age 5 6 1500 0.6 38 0.9 120000 2.5 0); lra.
Defined.


(** ** The predictors *)

Lemma transform_one (le : LabelEncoder.t) (s : string) :
  LabelEncoder.transform le [s] =
  (fun k => [k]) <$> LabelEncoder.position s (LabelEncoder.classes_ le).
Proof.
  unfold LabelEncoder.transform. cbn.
  destruct (LabelEncoder.position s (LabelEncoder.classes_ le)); reflexivity.
Qed.

(** The battery-health predictor on a dictionary of the script's shape and
    the trained feature list: the model code is the label's position, or
    0 when the label was not seen in training; nothing is printed. *)
Lemma predict_battery_health_eq (model : list Q -> Q) (le : LabelEncoder.t)
    (a m c f t d v r e k : Q) (s : string) :
  BatteryHealth.predict_battery_health model le
    BatteryHealth.trained_feature_cols
    (BatteryHealth.input_data a m c f t d v r e k s) =
  (Some (Py.max 0 (Py.min 100 (model
     [a; m; c; f; t; d; v; r; e; k;
      LabelEncoder.code_or_default le s]))), []).
Proof.
  unfold BatteryHealth.predict_battery_health.
  cbn [BatteryHealth.input_data pd.of_dict List.map fst snd pd.getitem
       pd.columns pd.lookup_column String.eqb Ascii.eqb Bool.eqb mbind
       option_bind pd.strings mapM].
  cbn -[LabelEncoder.transform Py.max Py.min].
  rewrite transform_one. unfold LabelEncoder.code_or_default.
  destruct (LabelEncoder.position s (LabelEncoder.classes_ le)); reflexivity.
Qed.

(** The repair-cost predictor on the trained feature list: each code is
    the label's position, or 0 with a printed warning when the label was
    not seen in training. *)
Lemma predict_repair_cost_eq (model : list Q -> Q) (enc : RepairCost.encoders)
    (age : Q) (km : Z) (health : Q) (kwh : Z) (model_name repair_type : string) :
  RepairCost.predict_repair_cost model enc RepairCost.trained_feature_cols
    age km health kwh model_name repair_type =
  (Some (Py.max 0 (model
     [age; inject_Z km; health; inject_Z kwh;
      LabelEncoder.code_or_default (RepairCost.enc_model enc) model_name;
      LabelEncoder.code_or_default (RepairCost.enc_repair_type enc) repair_type])),
   LabelEncoder.warning_if_unseen (RepairCost.enc_model enc) model_name
     (RepairCost.unknown_model_warning model_name) ++
   LabelEncoder.warning_if_unseen (RepairCost.enc_repair_type enc) repair_type
     (RepairCost.unknown_repair_type_warning repair_type)).
Proof.
  unfold RepairCost.predict_repair_cost, LabelEncoder.code_or_default,
    LabelEncoder.warning_if_unseen.
  rewrite !transform_one.
  destruct (LabelEncoder.position model_name _);
    destruct (LabelEncoder.position repair_type _); reflexivity.
Qed.

(** C6, evaluated where the code departs from it.  Both predictors
    substitute code 0 for a label the encoder has not seen and return a
    prediction, but only the repair-cost predictor prints a warning: for
    an encoder fitted on two models and the script's first test vehicle
    renamed to an unseen model, [predict_battery_health] returns the
    clamped prediction for code 0 with nothing printed, while
    [predict_repair_cost] on the same unseen model returns its prediction
    for code 0 and prints the warning. *)
Theorem unseen_model_battery_predictor_silent (model : list Q -> Q) :
  let le := LabelEncoder.fit ["Tesla Model 3"; "Nissan Leaf"]%string in
  LabelEncoder.transform le ["Lucid Air"%string] = None /\
  BatteryHealth.predict_battery_health model le
    BatteryHealth.trained_feature_cols
    (BatteryHealth.input_data 3 45000 800 0.35 32 0.7 380 4.5 0.92 75 "Lucid Air")
  = (Some (Py.max 0 (Py.min 100
       (model [3; 45000; 800; 0.35; 32; 0.7; 380; 4.5; 0.92; 75; 0]))), []) /\
  RepairCost.predict_repair_cost model
    {| RepairCost.enc_model := le;
       RepairCost.enc_repair_type := LabelEncoder.fit ["Motor Repair"%string] |}
    RepairCost.trained_feature_cols 4 55000 78 75 "Lucid Air" "Motor Repair"
  = (Some (Py.max 0 (model [4; 55000; 78; 75; 0; 0])),
     [RepairCost.unknown_model_warning "Lucid Air"]).
Proof.
  intros le. split; [reflexivity|]. split.
  - rewrite predict_battery_health_eq. reflexivity.
  - rewrite predict_repair_cost_eq. reflexivity.
Qed.

(** C7.  Whatever the fitted models compute and whatever the calls are
    given, a value returned by the battery-health predictor lies in
    [[0, 100]] and a value returned by the repair-cost predictor is not
    negative. *)
Theorem predictions_clamped
    (health_model : list Q -> Q) (le : LabelEncoder.t)
    (health_features : list string) (input_data : list (string * pd.cell))
    (cost_model : list Q -> Q) (enc : RepairCost.encoders)
    (cost_features : list string)
    (age : Q) (km : Z) (health : Q) (kwh : Z) (model_name repair_type : string)
    (v w : Q) (out1 out2 : list string) :
  BatteryHealth.predict_battery_health health_model le health_features
    input_data = (Some v, out1) ->
  RepairCost.predict_repair_cost cost_model enc cost_features
    age km health kwh model_name repair_type = (Some w, out2) ->
  (0 <= v /\ v <= 100) /\ 0 <= w.
Proof.
  unfold BatteryHealth.predict_battery_health, RepairCost.predict_repair_cost.
  intros Hv Hw. split.
  - injection Hv as Hv _. apply bind_Some in Hv as (df1 & _ & Hv).
    apply bind_Some in Hv as (df2 & _ & Hv).
    apply bind_Some in Hv as (X & _ & Hv).
    apply bind_Some in Hv as (row & _ & Hv).
    injection Hv as <-. apply py_clamp_range. lra.
  - destruct (LabelEncoder.transform (RepairCost.enc_model enc) _ ≫= head);
      destruct (LabelEncoder.transform (RepairCost.enc_repair_type enc) _ ≫= head).
    all: injection Hw as Hw _; apply bind_Some in Hw as (df1 & _ & Hw);
      apply bind_Some in Hw as (X & _ & Hw);
      apply bind_Some in Hw as (row & _ & Hw);
      injection Hw as <-; apply py_max_ge_l.
Qed.

(** The script's first test vehicle under a model that answers 250, and
    its third repair example under a model that answers -5. *)
Lemma predictions_clamped_witness :
  BatteryHealth.predict_battery_health (fun _ => 250)
    (LabelEncoder.fit ["Tesla Model 3"; "Nissan Leaf"]%string)
    BatteryHealth.trained_feature_cols
    (BatteryHealth.input_data 3 45000 800 0.35 32 0.7 380 4.5 0.92 75
       "Tesla Model 3") = (Some 100, []) /\
  ((0 <= 100 /\ 100 <= 100) /\ 0 <= 0).
Proof.
  split; [vm_compute; reflexivity|].
  apply (predictions_clamped
           (fun _ => 250)
           (LabelEncoder.fit ["Tesla Model 3"; "Nissan Leaf"]%string)
           BatteryHealth.trained_feature_cols
           (BatteryHealth.input_data 3 45000 800 0.35 32 0.7 380 4.5 0.92 75
              "Tesla Model 3")
           (fun _ => -5)
           {| RepairCost.enc_model :=
                LabelEncoder.fit ["Tesla Model 3"; "Nissan Leaf"]%string;
              RepairCost.enc_repair_type :=
                LabelEncoder.fit ["Motor Repair"%string] |}
           RepairCost.trained_feature_cols
           4 55000 78 75 "Tesla Model 3" "Motor Repair" 100 0 [] []).
  - vm_compute. reflexivity.
  - vm_compute. reflexivity.
Defined.


(** ** Label encoding *)

Lemma position_cons (s x : string) (l : list string) :
  LabelEncoder.position s (x :: l) =
  if String.eqb s x then Some 0%nat else S <$> LabelEncoder.position s l.
Proof. reflexivity. Qed.

Lemma position_insert_label (s x : string) (l : list string) :
  is_Some (LabelEncoder.position s l) ->
  is_Some (LabelEncoder.position s (LabelEncoder.insert_label x l)).
Proof.
  induction l as [|y l IH]; intros Hs; [destruct Hs; discriminate|].
  cbn [LabelEncoder.insert_label].
  destruct (String.eqb x y) eqn:Exy; [exact Hs|].
  destruct (String.ltb x y).
  - rewrite position_cons.
    destruct (String.eqb s x); [eauto|].
    destruct Hs as [k ->]. eauto.
  - rewrite position_cons in *.
    destruct (String.eqb s y); [eauto|].
    destruct (LabelEncoder.position s l) eqn:E; [|destruct Hs; discriminate].
    destruct (IH ltac:(eauto)) as [k ->]. eauto.
Qed.

Lemma position_insert_label_same (s : string) (l : list string) :
  is_Some (LabelEncoder.position s (LabelEncoder.insert_label s l)).
Proof.
  induction l as [|y l IH]; cbn [LabelEncoder.insert_label].
  - rewrite position_cons, String.eqb_refl. eauto.
  - destruct (String.eqb s y) eqn:Esy.
    + rewrite position_cons, Esy. eauto.
    + destruct (String.ltb s y); rewrite position_cons.
      * rewrite String.eqb_refl. eauto.
      * rewrite Esy. destruct IH as [k ->]. eauto.
Qed.

Lemma position_unique (s : string) (y : list string) :
  In s y -> is_Some (LabelEncoder.position s (LabelEncoder.unique y)).
Proof.
  induction y as [|x y IH]; intros Hin; [destruct Hin|].
  cbn [LabelEncoder.unique fold_right].
  destruct Hin as [-> | Hin].
  - apply position_insert_label_same.
  - apply position_insert_label, IH, Hin.
Qed.

(** [fit_transform] never meets an unseen label. *)
Lemma fit_transform_total (y : list string) :
  is_Some (LabelEncoder.fit_transform y).2.
Proof.
  unfold LabelEncoder.fit_transform, LabelEncoder.transform. cbn [snd].
  apply mapM_is_Some, Forall_forall. intros s Hs.
  apply position_unique, list_elem_of_In, Hs.
Qed.

(** ** Column assignment *)

Lemma lookup_assign_eq (name : string) (values : list pd.cell)
    (cols : list (string * list pd.cell)) :
  pd.lookup_column name (pd.assign_column name values cols) = Some values.
Proof.
  induction cols as [|[k v] cols IH]; cbn.
  - now rewrite String.eqb_refl.
  - destruct (String.eqb k name) eqn:E; cbn; rewrite E; [reflexivity | exact IH].
Qed.

Lemma lookup_assign_ne (name other : string) (values : list pd.cell)
    (cols : list (string * list pd.cell)) :
  other <> name ->
  pd.lookup_column other (pd.assign_column name values cols) =
  pd.lookup_column other cols.
Proof.
  intros Hne. apply String.eqb_neq in Hne.
  induction cols as [|[k v] cols IH]; cbn.
  - rewrite String.eqb_sym, Hne. reflexivity.
  - destruct (String.eqb k name) eqn:E; cbn.
    + apply String.eqb_eq in E as ->.
      rewrite String.eqb_sym, Hne. reflexivity.
    + destruct (String.eqb k other); [reflexivity | exact IH].
Qed.

(** Assigning a column keeps the names and the order of the columns that
    were there, and puts a new name last. *)
Lemma assign_column_names (name : string) (values : list pd.cell)
    (cols : list (string * list pd.cell)) :
  List.map fst (pd.assign_column name values cols) =
  match pd.lookup_column name cols with
  | Some _ => List.map fst cols
  | None => List.map fst cols ++ [name]
  end.
Proof.
  induction cols as [|[k v] cols IH]; cbn; [reflexivity|].
  destruct (String.eqb k name) eqn:E; cbn; [reflexivity|].
  rewrite IH. destruct (pd.lookup_column name cols); reflexivity.
Qed.

(** ** Feature preparation *)

(** A generated table has no [model_encoded] column of its own. *)
Lemma generated_frame_lacks_model_encoded (data : list BatteryHealth.row) :
  pd.getitem (BatteryHealth.frame_of_rows data) "model_encoded" = None.
Proof. destruct data; reflexivity. Qed.

(** C9.  [prepare_battery_health_data] updates the caller's frame in
    place: after the call the location the caller passed holds the same
    frame with the column [model_encoded] set to the label codes of its
    [model] column, every other column, the index and every other frame
    of the heap being unchanged; when the frame had no such column
    before, it is appended after the others and every column that was
    there is unchanged.  This is so even when the call then raises on a
    missing feature column.  The returned feature matrix and target are
    read from the updated frame. *)
Theorem prepare_adds_model_encoded
    (h : BatteryHealth.heap) (df : BatteryHealth.loc) (frame : pd.DataFrame)
    (labels : list string) :
  h !! df = Some frame ->
  pd.getitem frame "model" ≫= pd.strings = Some labels ->
  exists codes : list nat,
    LabelEncoder.transform (LabelEncoder.fit labels) labels = Some codes /\
    let frame' := pd.setitem frame "model_encoded" (LabelEncoder.cells codes) in
    let result := BatteryHealth.prepare_battery_health_data df h in
    result.2 = <[df := frame']> h /\
    result.2 !! df = Some frame' /\
    (forall other : BatteryHealth.loc, other <> df -> result.2 !! other = h !! other) /\
    pd.getitem frame' "model_encoded" = Some (LabelEncoder.cells codes) /\
    (forall name : string, name <> "model_encoded"%string ->
       pd.getitem frame' name = pd.getitem frame name) /\
    (pd.getitem frame "model_encoded" = None ->
       (forall (name : string) (col : list pd.cell),
          pd.getitem frame name = Some col -> pd.getitem frame' name = Some col) /\
       List.map fst (pd.columns frame') =
       List.map fst (pd.columns frame) ++ ["model_encoded"%string]) /\
    pd.index frame' = pd.index frame /\
    result.1 =
      (X ← pd.select frame' BatteryHealth.trained_feature_cols;
       y ← pd.getitem frame' "battery_health_percent";
       Some (X, y, LabelEncoder.fit labels, BatteryHealth.trained_feature_cols)).
Proof.
  intros Hdf Hlabels.
  destruct (fit_transform_total labels) as [codes Hcodes].
  cbn [LabelEncoder.fit_transform snd] in Hcodes.
  exists codes. split; [exact Hcodes|]. cbv zeta.
  apply bind_Some in Hlabels as (col & Hcol & Hstr).
  assert (Hrun :
    BatteryHealth.prepare_battery_health_data df h =
    (X ← pd.select (pd.setitem frame "model_encoded" (LabelEncoder.cells codes))
           BatteryHealth.trained_feature_cols;
     y ← pd.getitem (pd.setitem frame "model_encoded" (LabelEncoder.cells codes))
           "battery_health_percent";
     Some (X, y, LabelEncoder.fit labels, BatteryHealth.trained_feature_cols),
     <[df := pd.setitem frame "model_encoded" (LabelEncoder.cells codes)]> h)).
  { unfold BatteryHealth.prepare_battery_health_data, mbind, BatteryHealth.heap_bind,
      BatteryHealth.read, BatteryHealth.lift, BatteryHealth.write,
      LabelEncoder.fit_transform.
    rewrite Hdf, Hcol, Hstr, Hcodes, lookup_insert_eq.
    fold BatteryHealth.trained_feature_cols.
    destruct (pd.select _ _) as [X|]; [|reflexivity].
    destruct (pd.getitem _ "battery_health_percent") as [y|]; reflexivity. }
  rewrite Hrun. cbn [fst snd].
  split; [reflexivity|].
  split; [apply lookup_insert_eq|].
  split; [intros other Hne; now apply lookup_insert_ne|].
  split; [apply lookup_assign_eq|].
  split; [intros name Hne; now apply lookup_assign_ne|].
  split; [|split; reflexivity].
  intros Hnew. split.
  - intros name col' Hname. unfold pd.getitem, pd.setitem. cbn [pd.columns].
    rewrite lookup_assign_ne; [exact Hname|].
    intros ->. congruence.
  - unfold pd.setitem. cbn [pd.columns].
    rewrite assign_column_names. unfold pd.getitem in Hnew. now rewrite Hnew.
Qed.

Lemma prepare_adds_model_encoded_witness :
  let frame :=
    BatteryHealth.frame_of_rows
      (BatteryHealth.generate_rows
         (R := Scripted.source Scripted.young_vehicle) 2 []).1 in
  let h : BatteryHealth.heap := {[ 1%positive := frame ]} in
  h !! 1%positive = Some frame /\
  exists codes : list nat,
    LabelEncoder.transform
      (LabelEncoder.fit ["Tesla Model 3"; "Tesla Model 3"]%string)
      ["Tesla Model 3"; "Tesla Model 3"]%string = Some codes /\
    let frame' := pd.setitem frame "model_encoded" (LabelEncoder.cells codes) in
    let result := BatteryHealth.prepare_battery_health_data 1%positive h in
    result.2 = <[1%positive := frame']> h /\
    result.2 !! 1%positive = Some frame' /\
    (forall other : BatteryHealth.loc,
       other <> 1%positive -> result.2 !! other = h !! other) /\
    pd.getitem frame' "model_encoded" = Some (LabelEncoder.cells codes) /\
    (forall name : string, name <> "model_encoded"%string ->
       pd.getitem frame' name = pd.getitem frame name) /\
    (pd.getitem frame "model_encoded" = None ->
       (forall (name : string) (col : list pd.cell),
          pd.getitem frame name = Some col -> pd.getitem frame' name = Some col) /\
       List.map fst (pd.columns frame') =
       List.map fst (pd.columns frame) ++ ["model_encoded"%string]) /\
    pd.index frame' = pd.index frame /\
    result.1 =
      (X ← pd.select frame' BatteryHealth.trained_feature_cols;
       y ← pd.getitem frame' "battery_health_percent";
       Some (X, y, LabelEncoder.fit ["Tesla Model 3"; "Tesla Model 3"]%string,
             BatteryHealth.trained_feature_cols)).
Proof.
  intros frame h.
  assert (Hdf : h !! 1%positive = Some frame) by apply lookup_singleton_eq.
  split; [exact Hdf|].
  apply (prepare_adds_model_encoded h 1%positive frame _ Hdf).
  vm_compute. reflexivity.
Defined.


(** ** Repair-cost training *)

Lemma keep_length {A B : Type} (mask : list bool) (l1 : list A) (l2 : list B) :
  length l1 = length l2 -> length (pd.keep mask l1) = length (pd.keep mask l2).
Proof.
  revert l1 l2. induction mask as [|b mask IH]; intros [|x l1] [|y l2] Hlen;
    try discriminate; try reflexivity.
  cbn in *. destruct b; cbn; auto.
Qed.

Lemma lookup_column_map (f : list pd.cell -> list pd.cell) (name : string)
    (cols : list (string * list pd.cell)) :
  pd.lookup_column name (List.map (fun kv => (kv.1, f kv.2)) cols) =
  f <$> pd.lookup_column name cols.
Proof.
  induction cols as [|[k v] cols IH]; cbn; [reflexivity|].
  destruct (String.eqb k name); [reflexivity | exact IH].
Qed.

Lemma lookup_column_In (name : string) (cols : list (string * list pd.cell))
    (v : list pd.cell) :
  pd.lookup_column name cols = Some v -> In (name, v) cols.
Proof.
  induction cols as [|[k w] cols IH]; cbn; [discriminate|].
  destruct (String.eqb k name) eqn:E.
  - apply String.eqb_eq in E as ->. intros [= ->]. now left.
  - intros H. right. now apply IH.
Qed.

(** The filtered copies of two well-formed tables that agree on their
    repair rows hold the same data. *)
Lemma filtered_same_data (df1 df2 : pd.DataFrame) (nr1 nr2 : list pd.cell) :
  pd.well_formed df1 -> pd.well_formed df2 ->
  pd.getitem df1 "needs_repair" = Some nr1 ->
  pd.getitem df2 "needs_repair" = Some nr2 ->
  pd.columns (pd.filter_rows df1 (List.map pd.eq_True nr1)) =
  pd.columns (pd.filter_rows df2 (List.map pd.eq_True nr2)) ->
  pd.same_data (pd.filter_rows df1 (List.map pd.eq_True nr1))
               (pd.filter_rows df2 (List.map pd.eq_True nr2)).
Proof.
  intros Hwf1 Hwf2 H1 H2 Hcols. split; [exact Hcols|].
  cbn [pd.filter_rows pd.index pd.columns] in *.
  assert (Hnr : pd.keep (List.map pd.eq_True nr1) nr1 =
                pd.keep (List.map pd.eq_True nr2) nr2).
  { apply (f_equal (pd.lookup_column "needs_repair")) in Hcols.
    rewrite !lookup_column_map in Hcols. unfold pd.getitem in H1, H2.
    rewrite H1, H2 in Hcols. now injection Hcols. }
  assert (Hlen : forall df nr, pd.well_formed df ->
            pd.getitem df "needs_repair" = Some nr ->
            length nr = length (pd.index df)).
  { intros df nr Hwf Hget. apply lookup_column_In in Hget.
    unfold pd.well_formed in Hwf. rewrite Forall_forall in Hwf.
    apply list_elem_of_In in Hget. exact (Hwf _ Hget). }
  rewrite <- (keep_length _ nr1 (pd.index df1) (Hlen _ _ Hwf1 H1)).
  rewrite <- (keep_length _ nr2 (pd.index df2) (Hlen _ _ Hwf2 H2)).
  now rewrite Hnr.
Qed.

(** What is computed from the filtered copy depends on its data only. *)
Lemma prepare_alike (df1 df2 : pd.DataFrame) :
  pd.well_formed df1 -> pd.well_formed df2 ->
  RepairCost.repair_rows df1 = RepairCost.repair_rows df2 ->
  RepairCost.prepared_alike
    (RepairCost.prepare_simplified_repair_data df1)
    (RepairCost.prepare_simplified_repair_data df2).
Proof.
  intros Hwf1 Hwf2 Hrows.
  unfold RepairCost.repair_rows in Hrows.
  unfold RepairCost.prepare_simplified_repair_data.
  destruct (pd.getitem df1 "needs_repair") as [nr1|] eqn:H1;
    destruct (pd.getitem df2 "needs_repair") as [nr2|] eqn:H2;
    cbn [mbind option_bind] in *; try discriminate; [|exact I].
  injection Hrows as Hcols.
  pose proof (filtered_same_data _ _ _ _ Hwf1 Hwf2 H1 H2 Hcols) as Hsame.
  revert Hsame.
  generalize (pd.filter_rows df1 (List.map pd.eq_True nr1)).
  generalize (pd.filter_rows df2 (List.map pd.eq_True nr2)).
  clear. intros [i2 cols2] [i1 cols1] [Hc Hl]. cbn [pd.columns pd.index] in Hc, Hl.
  subst cols2.
  unfold pd.getitem, pd.setitem, pd.select, pd.fillna_mean, pd.count_null,
    pd.getitem.
  cbn [pd.columns pd.index].
  destruct (pd.lookup_column "model" cols1 ≫= pd.strings) as [models|];
    cbn [mbind option_bind]; [|exact I].
  destruct (LabelEncoder.fit_transform models) as [le_model [codes|]];
    cbn [mbind option_bind]; [|exact I].
  destruct (pd.lookup_column "repair_type" _ ≫= pd.strings) as [repairs|];
    cbn [mbind option_bind]; [|exact I].
  destruct (LabelEncoder.fit_transform repairs) as [le_repair [codes'|]];
    cbn [mbind option_bind]; [|exact I].
  destruct (mapM _ _) as [cols|]; cbn [mbind option_bind]; [|exact I].
  destruct (pd.lookup_column "out_of_pocket_cost_lkr" _) as [y|];
    cbn [mbind option_bind pd.columns pd.index]; [|exact I].
  destruct (0 <? _)%nat; [destruct (mapM _ cols) as [cols'|]|];
    cbn [mbind option_bind]; try exact I.
  all: repeat split; assumption.
Qed.

Lemma to_matrix_same_data (a b : pd.DataFrame) :
  pd.same_data a b -> pd.to_matrix a = pd.to_matrix b.
Proof.
  intros [Hc Hl]. unfold pd.to_matrix. now rewrite Hc, Hl.
Qed.

(** The export script repeats the preparation of the training script. *)
Lemma train_and_convert_prepare {model_t onnx_t : Type}
    (fit : list (string * Q) -> list (list Q) -> list Q -> option model_t)
    (convert_sklearn : model_t -> nat -> onnx_t) (csv : pd.DataFrame) :
  RepairCost.train_and_convert fit convert_sklearn csv =
  '(X, y, _, feature_cols) ← RepairCost.prepare_simplified_repair_data csv;
  X ← pd.to_matrix X;
  y ← pd.numbers y;
  model ← fit [ ("n_estimators", 200); ("max_depth", 10);
                ("learning_rate", 0.1); ("random_state", 42) ]%string X y;
  Some [ ("models/repair_cost_out_of_pocket_model.pkl",
          RepairCost.PickledModel model);
         ("models/repair_cost_out_of_pocket_features.pkl",
          RepairCost.PickledFeatures feature_cols);
         ("ONNXmodels/repair_cost_model.onnx",
          RepairCost.OnnxFile (convert_sklearn model (length feature_cols))) ]%string.
Proof.
  unfold RepairCost.train_and_convert, RepairCost.prepare_simplified_repair_data.
  destruct (pd.getitem csv "needs_repair") as [nr|];
    cbn [mbind option_bind]; [|reflexivity].
  destruct (pd.getitem _ "model" ≫= pd.strings) as [models|];
    cbn [mbind option_bind]; [|reflexivity].
  destruct (LabelEncoder.fit_transform models) as [le_model [codes|]];
    cbn [mbind option_bind]; [|reflexivity].
  destruct (pd.getitem _ "repair_type" ≫= pd.strings) as [repairs|];
    cbn [mbind option_bind]; [|reflexivity].
  destruct (LabelEncoder.fit_transform repairs) as [le_repair [codes'|]];
    cbn [mbind option_bind]; [|reflexivity].
  cbn [app].
  destruct (pd.select _ _) as [X|]; cbn [mbind option_bind]; [|reflexivity].
  destruct (pd.getitem _ "out_of_pocket_cost_lkr") as [y|];
    cbn [mbind option_bind]; [|reflexivity].
  destruct (if (0 <? pd.count_null X)%nat then _ else _) as [X'|];
    cbn [mbind option_bind]; reflexivity.
Qed.

(** C10.  Training sees the repair rows only: for two well-formed tables
    that agree on their [needs_repair == True] rows (same columns, same
    values, same order), the training script returns the same fitted
    model, encoders and feature list and saves the same files, and the
    export script writes the same model, feature list and exported
    graph, whatever the library's [fit], [train_test_split] and
    [convert_sklearn] compute. *)
Theorem training_depends_on_repair_rows {model_t onnx_t : Type}
    (fit : list (string * Q) -> list (list Q) -> list Q -> option model_t)
    (train_test_split : nat -> option (list nat * list nat))
    (convert_sklearn : model_t -> nat -> onnx_t)
    (df1 df2 : pd.DataFrame) (model_dir : string) :
  pd.well_formed df1 -> pd.well_formed df2 ->
  RepairCost.repair_rows df1 = RepairCost.repair_rows df2 ->
  RepairCost.train_simplified_repair_model (onnx_t := onnx_t)
    fit train_test_split df1 model_dir =
  RepairCost.train_simplified_repair_model fit train_test_split df2 model_dir /\
  RepairCost.train_and_convert fit convert_sklearn df1 =
  RepairCost.train_and_convert fit convert_sklearn df2.
Proof.
  intros Hwf1 Hwf2 Hrows.
  pose proof (prepare_alike df1 df2 Hwf1 Hwf2 Hrows) as Halike.
  rewrite !train_and_convert_prepare.
  unfold RepairCost.train_simplified_repair_model.
  destruct (RepairCost.prepare_simplified_repair_data df1)
    as [[[[X1 y1] e1] f1]|];
    destruct (RepairCost.prepare_simplified_repair_data df2)
      as [[[[X2 y2] e2] f2]|];
    cbn [RepairCost.prepared_alike] in Halike; try contradiction;
    [|split; reflexivity].
  destruct Halike as (HX & -> & -> & ->).
  cbn [mbind option_bind]. rewrite (to_matrix_same_data X1 X2 HX).
  split; reflexivity.
Qed.

Lemma training_depends_on_repair_rows_witness :
  RepairCost.repair_rows Tables.table_a = RepairCost.repair_rows Tables.table_b /\
  Tables.table_a <> Tables.table_b /\
  RepairCost.train_simplified_repair_model
    (onnx_t := (list (list Q) * list Q) * nat)
    Tables.fit Tables.train_test_split Tables.table_a "models" =
  RepairCost.train_simplified_repair_model
    Tables.fit Tables.train_test_split Tables.table_b "models" /\
  RepairCost.train_and_convert Tables.fit Tables.convert_sklearn Tables.table_a =
  RepairCost.train_and_convert Tables.fit Tables.convert_sklearn Tables.table_b.
Proof.
  assert (Hrows : RepairCost.repair_rows Tables.table_a =
                  RepairCost.repair_rows Tables.table_b)
    by (vm_compute; reflexivity).
  split; [exact Hrows|]. split; [discriminate|].
  apply training_depends_on_repair_rows; [| |exact Hrows].
  - repeat constructor.
  - repeat constructor.
Defined.


(** * Further properties of the scripts *)

(** ** The generator: shape of the table *)

Lemma loop_from_data {G : Type} {R : RandomState G} (n : nat) :
  forall (data : list BatteryHealth.row) (g : G),
    BatteryHealth.loop n data g =
    (data ++ (BatteryHealth.loop n [] g).1, (BatteryHealth.loop n [] g).2).
Proof.
  induction n as [|n IH]; intros data g.
  - cbn. now rewrite app_nil_r.
  - cbn [BatteryHealth.loop]. unfold mbind, state_bind.
    destruct (BatteryHealth.iteration g) as [l g1].
    rewrite (IH (data ++ _)), (IH ([] ++ _)). cbn [fst snd app].
    now rewrite <- app_assoc.
Qed.

Lemma loop_add {G : Type} {R : RandomState G} (a b : nat) :
  forall (g : G),
    (BatteryHealth.loop (a + b) [] g).1 =
    (BatteryHealth.loop a [] g).1 ++
    (BatteryHealth.loop b [] (BatteryHealth.loop a [] g).2).1.
Proof.
  induction a as [|a IH]; intros g.
  - reflexivity.
  - cbn [Nat.add BatteryHealth.loop]. unfold mbind, state_bind.
    destruct (BatteryHealth.iteration g) as [l g1].
    rewrite (loop_from_data (a + b)), (loop_from_data a). cbn [fst snd].
    rewrite IH. now rewrite app_assoc.
Qed.

Lemma frame_of_rows_well_formed (data : list BatteryHealth.row) :
  pd.well_formed (BatteryHealth.frame_of_rows data) /\
  pd.index (BatteryHealth.frame_of_rows data) = seq 0 (length data).
Proof.
  destruct data as [|r data]; [split; [constructor | reflexivity]|].
  split; [|reflexivity].
  unfold pd.well_formed, BatteryHealth.frame_of_rows.
  cbn [pd.columns pd.index].
  repeat constructor; cbn [snd]; now rewrite length_map, length_seq.
Qed.

(** The loop runs once per requested row. *)
Lemma generate_rows_length {G : Type} {R : RandomState G} (n_samples : Z) (g : G) :
  length (BatteryHealth.generate_rows n_samples g).1 = Z.to_nat n_samples.
Proof.
  unfold BatteryHealth.generate_rows, mbind, state_bind, np_random.seed.
  now rewrite loop_length.
Qed.

(** X1.  The generated table has exactly [n_samples] rows (none for a
    negative count), indexed 0, 1, ...; every column has one cell per
    row; a non-empty table has the twelve named columns in the order of
    the dictionary, and an empty one has no column at all. *)
Theorem generated_table_shape
    (G : Type) (R : RandomState G) (n_samples : Z) (g : G) :
  let frame := (BatteryHealth.generate_realistic_battery_data n_samples g).1 in
  length (BatteryHealth.generate_rows n_samples g).1 = Z.to_nat n_samples /\
  pd.index frame = seq 0 (Z.to_nat n_samples) /\
  pd.well_formed frame /\
  List.map fst (pd.columns frame) =
    (if (0 <? n_samples)%Z then Derived.generated_columns else []).
Proof.
  cbv zeta.
  pose proof (generate_rows_length n_samples g) as Hlen.
  unfold BatteryHealth.generate_realistic_battery_data, mbind, state_bind,
    mret, state_ret.
  destruct (BatteryHealth.generate_rows n_samples g) as [data g'].
  cbn [fst] in *.
  destruct (frame_of_rows_well_formed data) as [Hwf Hidx].
  split; [exact Hlen|]. split; [now rewrite Hidx, Hlen|]. split; [exact Hwf|].
  destruct data as [|r data]; cbn [length] in Hlen.
  - destruct (Z.ltb_spec 0 n_samples); [lia | reflexivity].
  - destruct (Z.ltb_spec 0 n_samples); [reflexivity | lia].
Qed.

(** X2.  Asking for more rows only extends the table: the table
    generated for a count is the beginning of the table generated for any
    larger count, whatever the random state was before either call. *)
Theorem generated_table_prefix
    (G : Type) (R : RandomState G) (n n' : Z) (g g' : G) :
  (n <= n')%Z ->
  exists rest : list BatteryHealth.row,
    (BatteryHealth.generate_rows n' g').1 =
    (BatteryHealth.generate_rows n g).1 ++ rest /\
    length rest = (Z.to_nat n' - Z.to_nat n)%nat.
Proof.
  intros Hle.
  unfold BatteryHealth.generate_rows, mbind, state_bind, np_random.seed.
  replace (Z.to_nat n') with (Z.to_nat n + (Z.to_nat n' - Z.to_nat n))%nat by lia.
  rewrite loop_add. eexists. split; [reflexivity|].
  rewrite loop_length. cbn. lia.
Qed.

Lemma generated_table_prefix_witness :
  let R := Scripted.source Scripted.young_vehicle in
  exists rest : list BatteryHealth.row,
    (BatteryHealth.generate_rows (R := R) 3 []).1 =
    (BatteryHealth.generate_rows (R := R) 1 [0]).1 ++ rest /\
    length rest = (Z.to_nat 3 - Z.to_nat 1)%nat.
Proof.
  intros R.
  apply (generated_table_prefix _ R 1 3 [0] []). lia.
Defined.

(** ** The generator: what the ranges of the draws imply *)

Ltac step_uniform :=
  match goal with
  | |- context [np_random.uniform ?lo ?hi ?g] =>
      let H := fresh "Hu" in
      assert (H := rs_uniform_range lo hi g ltac:(lra));
      change (np_random.uniform lo hi g) with (rs_uniform lo hi g);
      destruct (rs_uniform lo hi g) as [? ?];
      cbn [fst] in H
  end.

Ltac step_sample :=
  match goal with
  | |- context [np_random.normal ?m ?s ?g] =>
      destruct (np_random.normal m s g) as [? ?]
  | |- context [np_random.beta ?a ?b ?g] =>
      destruct (np_random.beta a b g) as [? ?]
  | |- context [BatteryHealth.choose_model_and_capacity ?g] =>
      destruct (BatteryHealth.choose_model_and_capacity g) as [[? ?] ?]
  end.

Lemma iteration_detailed {G : Type} {R : RandomState G}
    {L : RandomStateLaws R} (g : G) :
  Derived.detailed (BatteryHealth.iteration g).1.
Proof.
  unfold BatteryHealth.iteration, mbind, state_bind, mret, state_ret.
  do 2 step_uniform. do 2 step_sample.
  case_Qltb; step_sample.
  all: do 2 step_uniform; step_sample; do 2 step_uniform; step_sample.
  all: step_uniform; step_sample.
  all: cbv beta iota zeta delta [fst snd].
  all: split; cbn [BatteryHealth.l_age_years BatteryHealth.l_mileage
                   BatteryHealth.l_battery_cycles
                   BatteryHealth.l_internal_resistance_mohm
                   BatteryHealth.l_charging_efficiency];
       eexists; try split; try reflexivity; tauto.
Qed.

(** Every generated row comes from an iteration with both sets of facts. *)
Lemma generated_row_facts {G : Type} {R : RandomState G}
    {L : RandomStateLaws R} (n_samples : Z) (g : G) (r : BatteryHealth.row) :
  In r (BatteryHealth.generate_rows n_samples g).1 ->
  exists g' : G,
    r = BatteryHealth.row_of_locals (BatteryHealth.iteration g').1 /\
    Iteration.established (BatteryHealth.iteration g').1 /\
    Derived.detailed (BatteryHealth.iteration g').1.
Proof.
  intros Hin. apply generate_rows_iteration in Hin as [g' ->].
  exists g'. split; [reflexivity|].
  split; [apply iteration_established | apply iteration_detailed].
Qed.



(** X4.  The cold-weather case of the thermal term (lines 92-94) is never
    taken by the generator: the temperature is drawn from [[15, 40)]
    (line 43), so the test [avg_temperature_c < 10] of line 92 fails in
    every iteration. *)
Theorem cold_stress_never_applied
    (G : Type) (R : RandomState G) (L : RandomStateLaws R)
    (n_samples : Z) (g : G) (r : BatteryHealth.row) :
  In r (BatteryHealth.generate_rows n_samples g).1 ->
  exists g' : G,
    let l := (BatteryHealth.iteration g').1 in
    r = BatteryHealth.row_of_locals l /\
    (15 <= BatteryHealth.l_avg_temperature_c l /\
     BatteryHealth.l_avg_temperature_c l < 40) /\
    Py.Qltb (BatteryHealth.l_avg_temperature_c l) 10 = false.
Proof.
  intros Hin. apply generated_row_facts in Hin as (g' & -> & He & _).
  destruct He as [_ _ _ Htemp _ _ _ _ _ _ _].
  exists g'. cbv zeta. split; [reflexivity|].
  split; [exact Htemp|]. apply Qltb_ge; lra.
Qed.

Lemma cold_stress_never_applied_witness :
  let R := Scripted.source Scripted.young_vehicle in
  let r :=
    BatteryHealth.row_of_locals (BatteryHealth.iteration (R := R) (rs_seed 42)).1 in
  exists g' : list Q,
    let l := (BatteryHealth.iteration (R := R) g').1 in
    r = BatteryHealth.row_of_locals l /\
    (15 <= BatteryHealth.l_avg_temperature_c l /\
     BatteryHealth.l_avg_temperature_c l < 40) /\
    Py.Qltb (BatteryHealth.l_avg_temperature_c l) 10 = false.
Proof.
  intros R r.
  apply (cold_stress_never_applied _ R (scripted_laws _) 1 []).
  left. vm_compute. reflexivity.
Defined.

(** X5.  In every row of a generated table [age_years] is between 0.1
    and 10, [avg_temperature_c] between 15 and 40, and
    [internal_resistance_mohm] between 2.08 and 11 (two milliohm, plus
    0.8 a year, plus less than one of noise). *)
Theorem age_temperature_resistance_in_range
    (G : Type) (R : RandomState G) (L : RandomStateLaws R)
    (n_samples : Z) (g : G) (r : BatteryHealth.row) :
  In r (BatteryHealth.generate_rows n_samples g).1 ->
  (0.1 <= BatteryHealth.age_years r /\ BatteryHealth.age_years r <= 10) /\
  (15 <= BatteryHealth.avg_temperature_c r /\
   BatteryHealth.avg_temperature_c r <= 40) /\
  (2.08 <= BatteryHealth.internal_resistance_mohm r /\
   BatteryHealth.internal_resistance_mohm r <= 11).
Proof.
  intros Hin. apply generated_row_facts in Hin as (g' & -> & He & Hd).
  destruct He as [Hage _ _ Htemp _ _ _ _ _ _ _].
  destruct Hd as [_ (n & Hn & Hres) _].
  cbn [BatteryHealth.row_of_locals BatteryHealth.age_years
       BatteryHealth.avg_temperature_c BatteryHealth.internal_resistance_mohm].
  split; [|split].
  - apply (py_round_bounds 0.1 10 10 1000); try reflexivity; lra.
  - apply (py_round_bounds 15 40 150 400); try reflexivity; lra.
  - rewrite Hres.
    apply (py_round_bounds 2.08 11 208 1100); try reflexivity; lra.
Qed.

Lemma age_temperature_resistance_in_range_witness :
  let R := Scripted.source Scripted.young_vehicle in
  let r :=
    BatteryHealth.row_of_locals (BatteryHealth.iteration (R := R) (rs_seed 42)).1 in
  (0.1 <= BatteryHealth.age_years r /\ BatteryHealth.age_years r <= 10) /\
  (15 <= BatteryHealth.avg_temperature_c r /\
   BatteryHealth.avg_temperature_c r <= 40) /\
  (2.08 <= BatteryHealth.internal_resistance_mohm r /\
   BatteryHealth.internal_resistance_mohm r <= 11).
Proof.
  intros R r.
  apply (age_temperature_resistance_in_range _ R (scripted_laws _) 1 []).
  left. vm_compute. reflexivity.
Defined.

(** ** The generator: precision of the stored fields *)






(** ** The degradation formula: usage never helps *)

Lemma cycle_rate_mono (d1 d2 : Q) :
  0 <= d1 -> d1 <= d2 ->
  0 <= (if Py.Qltb d1 0.5 then 0.01 else 0.015) * d1 /\
  (if Py.Qltb d1 0.5 then 0.01 else 0.015) * d1 <=
  (if Py.Qltb d2 0.5 then 0.01 else 0.015) * d2.
Proof.
  intros H0 Hle. repeat case_Qltb; split; lra.
Qed.

Lemma high_mileage_penalty_mono (m1 m2 : Q) :
  m1 <= m2 ->
  (if Py.Qltb 100000 m1 then (m1 - 100000) / 10000 * 0.5 else 0) <=
  (if Py.Qltb 100000 m2 then (m2 - 100000) / 10000 * 0.5 else 0).
Proof.
  intros Hle.
  assert (E : forall m : Q,
            (m - 100000) / 10000 * 0.5 == (m - 100000) * (1 # 20000))
    by (intros m; field).
  repeat case_Qltb; rewrite ?E; lra.
Qed.

(** X7.  More use never gives a better health: with the age, the
    temperature and both draws held fixed, the value before the clamp
    (and so the clamped and the stored value) does not increase when the
    cycle count, the fast-charge ratio, the depth of discharge and the
    mileage grow, as long as the first three are not negative. *)
Theorem health_monotone_in_usage
    (age : Q) (cycles1 cycles2 : Z) (fcr1 fcr2 temp dod1 dod2 : Q)
    (mileage1 mileage2 u noise : Q) :
  (0 <= cycles1 <= cycles2)%Z ->
  0 <= fcr1 -> fcr1 <= fcr2 ->
  0 <= dod1 -> dod1 <= dod2 ->
  mileage1 <= mileage2 ->
  let before1 :=
    BatteryHealth.health_before_clamp age cycles1 fcr1 temp dod1 mileage1 u noise in
  let before2 :=
    BatteryHealth.health_before_clamp age cycles2 fcr2 temp dod2 mileage2 u noise in
  before2 <= before1 /\
  BatteryHealth.clamp_health before2 <= BatteryHealth.clamp_health before1 /\
  Py.round (BatteryHealth.clamp_health before2) 2 <=
    Py.round (BatteryHealth.clamp_health before1) 2.
Proof.
  intros [Hc0 Hc] Hf0 Hf Hd0 Hd Hm before1 before2.
  assert (Hbefore : before2 <= before1).
  { unfold before1, before2.
    rewrite !health_before_clamp_spec. unfold Spec.health. cbv zeta.
    rewrite Zle_Qle in Hc0, Hc. change (inject_Z 0) with 0 in Hc0.
    destruct (cycle_rate_mono dod1 dod2 Hd0 Hd) as [Hr0 Hr].
    pose proof (high_mileage_penalty_mono mileage1 mileage2 Hm) as Hpen.
    assert (Hcycle :
      inject_Z cycles1 * (if Py.Qltb dod1 0.5 then 0.01 else 0.015) * dod1 <=
      inject_Z cycles2 * (if Py.Qltb dod2 0.5 then 0.01 else 0.015) * dod2).
    { rewrite <- !Qmult_assoc. apply Qmult_le_compat_nonneg; split; assumption. }
    assert (Hfast : fcr1 * inject_Z cycles1 <= fcr2 * inject_Z cycles2)
      by (apply Qmult_le_compat_nonneg; split; assumption).
    revert Hcycle Hpen. 
    generalize (inject_Z cycles1 * (if Py.Qltb dod1 0.5 then 0.01 else 0.015) * dod1).
    generalize (inject_Z cycles2 * (if Py.Qltb dod2 0.5 then 0.01 else 0.015) * dod2).
    generalize (if Py.Qltb 100000 mileage1
                then (mileage1 - 100000) / 10000 * 0.5 else 0).
    generalize (if Py.Qltb 100000 mileage2
                then (mileage2 - 100000) / 10000 * 0.5 else 0).
    intros p2 p1 c2 c1 Hcycle Hpen. lra. }
  split; [exact Hbefore|].
  assert (Hclamp : BatteryHealth.clamp_health before2 <=
                   BatteryHealth.clamp_health before1)
    by (apply py_clamp_mono, Hbefore).
  split; [exact Hclamp | apply py_round_mono, Hclamp].
Qed.

Lemma health_monotone_in_usage_witness :
  let before1 :=
    BatteryHealth.health_before_clamp 5 800 0.35 32 0.4 45000 2.5 0 in
  let before2 :=
    BatteryHealth.health_before_clamp 5 1500 0.6 32 0.9 120000 2.5 0 in
  before2 <= before1 /\
  BatteryHealth.clamp_health before2 <= BatteryHealth.clamp_health before1 /\
  Py.round (BatteryHealth.clamp_health before2) 2 <=
    Py.round (BatteryHealth.clamp_health before1) 2.
Proof.
  apply (health_monotone_in_usage 5 800 1500 0.35 0.6 32 0.4 0.9 45000 120000 2.5 0);
    try lra.
  lia.
Defined.

(** ** The generator: capacities on the catalogue *)

(** X8.  On the eleven catalogue names the three keywords never overlap,
    so the order of the tests does not matter for generated rows: a
    "Tesla Model 3" row has capacity 50, 75 or 100, a "Nissan Leaf" row
    40 or 62, a "Rivian R1T" row 135 or 180, and every other row 50, 60,
    75 or 82; in all cases the capacity is between 40 and 180. *)
Theorem capacity_by_catalogue_model
    (G : Type) (R : RandomState G) (L : RandomStateLaws R)
    (n_samples : Z) (g : G) (r : BatteryHealth.row) :
  In r (BatteryHealth.generate_rows n_samples g).1 ->
  let m := BatteryHealth.model r in
  let c := BatteryHealth.battery_capacity_kwh r in
  In c (if String.eqb m "Tesla Model 3" then [50; 75; 100]
        else if String.eqb m "Nissan Leaf" then [40; 62]
        else if String.eqb m "Rivian R1T" then [135; 180]
        else [50; 60; 75; 82])%Z /\
  (40 <= c <= 180)%Z /\
  Py.contains "Tesla" m && Py.contains "Nissan Leaf" m = false /\
  Py.contains "Tesla" m && Py.contains "Rivian" m = false /\
  Py.contains "Nissan Leaf" m && Py.contains "Rivian" m = false.
Proof.
  intros Hin. apply generated_row_facts in Hin as (g' & -> & He & _).
  destruct He as [_ _ _ _ _ _ Hm Hc _ _ _].
  cbn [BatteryHealth.row_of_locals BatteryHealth.model
       BatteryHealth.battery_capacity_kwh]. cbv zeta.
  revert Hm Hc.
  generalize (BatteryHealth.l_model (BatteryHealth.iteration g').1).
  generalize (BatteryHealth.l_battery_capacity_kwh (BatteryHealth.iteration g').1).
  intros c m Hm Hc.
  cbn [In BatteryHealth.ev_models] in Hm.
  repeat (destruct Hm as [<- | Hm]); [.. | destruct Hm].
  all: vm_compute in Hc; vm_compute String.eqb; vm_compute Py.contains;
    cbn [andb]; split; [|split; [|repeat split]].
  all: try (repeat (destruct Hc as [<- | Hc]); [.. | destruct Hc]; lia).
  all: cbn [In]; tauto.
Qed.

Lemma capacity_by_catalogue_model_witness :
  let R := Scripted.source Scripted.young_vehicle in
  let r :=
    BatteryHealth.row_of_locals (BatteryHealth.iteration (R := R) (rs_seed 42)).1 in
  let m := BatteryHealth.model r in
  let c := BatteryHealth.battery_capacity_kwh r in
  In c (if String.eqb m "Tesla Model 3" then [50; 75; 100]
        else if String.eqb m "Nissan Leaf" then [40; 62]
        else if String.eqb m "Rivian R1T" then [135; 180]
        else [50; 60; 75; 82])%Z /\
  (40 <= c <= 180)%Z /\
  Py.contains "Tesla" m && Py.contains "Nissan Leaf" m = false /\
  Py.contains "Tesla" m && Py.contains "Rivian" m = false /\
  Py.contains "Nissan Leaf" m && Py.contains "Rivian" m = false.
Proof.
  intros R r.
  apply (capacity_by_catalogue_model _ R (scripted_laws _) 1 []).
  left. vm_compute. reflexivity.
Defined.

(** ** Labels and their codes *)

Lemma position_is_Some_In (s : string) (l : list string) :
  is_Some (LabelEncoder.position s l) <-> In s l.
Proof.
  induction l as [|x l IH].
  - split; [intros [k Hk]; discriminate | intros []].
  - rewrite position_cons. destruct (String.eqb s x) eqn:E.
    + apply String.eqb_eq in E as ->. split; [now left | eauto].
    + apply String.eqb_neq in E. rewrite fmap_is_Some, IH.
      split; [now right | intros [Hx | Hl]; [congruence | exact Hl]].
Qed.

Lemma position_lookup (s : string) (l : list string) (k : nat) :
  LabelEncoder.position s l = Some k -> l !! k = Some s.
Proof.
  revert k. induction l as [|x l IH]; intros k; [discriminate|].
  rewrite position_cons. destruct (String.eqb s x) eqn:E.
  - apply String.eqb_eq in E as ->. now intros [= <-].
  - destruct (LabelEncoder.position s l) as [j|]; [|discriminate].
    intros [= <-]. cbn. now apply IH.
Qed.

Lemma In_insert_label (s x : string) (l : list string) :
  In s (LabelEncoder.insert_label x l) <-> s = x \/ In s l.
Proof.
  induction l as [|y l IH]; cbn [LabelEncoder.insert_label].
  - cbn. intuition congruence.
  - destruct (String.eqb x y) eqn:E.
    + apply String.eqb_eq in E as ->. cbn. intuition congruence.
    + destruct (String.ltb x y); cbn in *; [intuition congruence|].
      rewrite IH. intuition congruence.
Qed.

Lemma In_unique (s : string) (y : list string) :
  In s (LabelEncoder.unique y) <-> In s y.
Proof.
  induction y as [|x y IH]; [reflexivity|].
  cbn [LabelEncoder.unique fold_right]. rewrite In_insert_label.
  fold (LabelEncoder.unique y). rewrite IH. cbn. intuition congruence.
Qed.

(** A label is known to a fitted encoder exactly when it occurs in
    the column the encoder was fitted on: [transform] returns a code for
    it then, and raises otherwise; the code it returns is the position of
    the label among the classes, below their number. *)
Lemma transform_succeeds_iff_seen (y : list string) (s : string) :
  (is_Some (LabelEncoder.transform (LabelEncoder.fit y) [s]) <-> In s y) /\
  (forall k : nat,
     LabelEncoder.transform (LabelEncoder.fit y) [s] = Some [k] ->
     LabelEncoder.classes_ (LabelEncoder.fit y) !! k = Some s /\
     (k < length (LabelEncoder.classes_ (LabelEncoder.fit y)))%nat).
Proof.
  rewrite transform_one. split.
  - rewrite fmap_is_Some, position_is_Some_In. apply In_unique.
  - intros k Hk.
    destruct (LabelEncoder.position s _) as [j|] eqn:Hj; [|discriminate].
    injection Hk as <-. apply position_lookup in Hj.
    split; [exact Hj | now apply lookup_lt_Some in Hj].
Qed.

(** Encoding a column and decoding the codes through the classes
    gives the column back, and two labels get the same code only when
    they are the same label. *)
Lemma fit_transform_decodes (y : list string) :
  exists codes : list nat,
    (LabelEncoder.fit_transform y).2 = Some codes /\
    List.map (fun k => LabelEncoder.classes_ (LabelEncoder.fit y) !! k) codes =
    List.map Some y /\
    length codes = length y /\
    (forall (i j : nat) (s t : string) (k : nat),
       y !! i = Some s -> y !! j = Some t ->
       codes !! i = Some k -> codes !! j = Some k -> s = t).
Proof.
  destruct (fit_transform_total y) as [codes Hcodes].
  exists codes. split; [exact Hcodes|].
  cbn [LabelEncoder.fit_transform snd] in Hcodes.
  unfold LabelEncoder.transform in Hcodes. apply mapM_Some in Hcodes.
  assert (Hdec : forall i s k, y !! i = Some s -> codes !! i = Some k ->
            LabelEncoder.classes_ (LabelEncoder.fit y) !! k = Some s).
  { intros i s k Hs Hk.
    destruct (Forall2_lookup_l _ _ _ _ _ Hcodes Hs) as (k' & Hk' & Hpos).
    rewrite Hk in Hk'. injection Hk' as <-. now apply position_lookup. }
  split; [|split].
  - clear Hdec. cbn [LabelEncoder.fit LabelEncoder.classes_] in *.
    generalize dependent (LabelEncoder.unique y). intros cl Hcodes.
    induction Hcodes as [|s k y' codes' Hpos _ IH]; [reflexivity|].
    cbn [List.map]. rewrite IH. f_equal. now apply position_lookup.
  - symmetry. exact (Forall2_length _ _ _ Hcodes).
  - intros i j s t k Hs Ht Hi Hj.
    pose proof (Hdec _ _ _ Hs Hi) as H1. pose proof (Hdec _ _ _ Ht Hj) as H2.
    congruence.
Qed.

Lemma string_compare_lt_trans (s1 s2 s3 : string) :
  String.compare s1 s2 = Lt -> String.compare s2 s3 = Lt ->
  String.compare s1 s3 = Lt.
Proof.
  revert s2 s3. induction s1 as [|a s1 IH]; intros [|b s2] [|c s3];
    cbn; try discriminate; try reflexivity.
  unfold Ascii.compare.
  destruct (N.compare_spec (Ascii.N_of_ascii a) (Ascii.N_of_ascii b)) as [Eab|Lab|Gab];
    destruct (N.compare_spec (Ascii.N_of_ascii b) (Ascii.N_of_ascii c)) as [Ebc|Lbc|Gbc];
    try discriminate; intros H12 H23.
  - rewrite Eab, Ebc, N.compare_refl. eapply IH; eassumption.
  - rewrite Eab. now apply N.compare_lt_iff in Lbc as ->.
  - rewrite <- Ebc. now apply N.compare_lt_iff in Lab as ->.
  - assert (Lac : (Ascii.N_of_ascii a < Ascii.N_of_ascii c)%N) by lia.
    now apply N.compare_lt_iff in Lac as ->.
Qed.

Lemma string_ltb_trans (s1 s2 s3 : string) :
  String.ltb s1 s2 = true -> String.ltb s2 s3 = true -> String.ltb s1 s3 = true.
Proof.
  unfold String.ltb.
  destruct (String.compare s1 s2) eqn:E12; try discriminate.
  destruct (String.compare s2 s3) eqn:E23; try discriminate.
  now rewrite (string_compare_lt_trans _ _ _ E12 E23).
Qed.

Lemma string_ltb_total (s x : string) :
  String.eqb s x = false -> String.ltb s x = false -> String.ltb x s = true.
Proof.
  unfold String.ltb. intros Hne Hlt. rewrite String.compare_antisym.
  destruct (String.compare s x) eqn:E; try discriminate; [|reflexivity].
  apply String.compare_eq_iff in E. apply String.eqb_neq in Hne. congruence.
Qed.

Lemma string_ltb_irrefl (s : string) : String.ltb s s = false.
Proof.
  unfold String.ltb.
  destruct (String.compare s s) eqn:E; try reflexivity.
  pose proof (String.compare_antisym s s) as H. rewrite E in H. discriminate.
Qed.

Lemma insert_label_sorted (s : string) (l : list string) :
  StronglySorted (fun a b => String.ltb a b = true) l ->
  StronglySorted (fun a b => String.ltb a b = true) (LabelEncoder.insert_label s l).
Proof.
  induction l as [|x l IH]; intros Hs; cbn [LabelEncoder.insert_label].
  - repeat constructor.
  - destruct (String.eqb s x) eqn:E; [exact Hs|].
    apply StronglySorted_inv in Hs as [Hl Hx].
    destruct (String.ltb s x) eqn:Elt.
    + constructor; [constructor; assumption|].
      constructor; [exact Elt|].
      rewrite List.Forall_forall in *. intros z Hz.
      eapply string_ltb_trans; [exact Elt | exact (Hx z Hz)].
    + constructor; [apply IH, Hl|].
      rewrite List.Forall_forall in *. intros z Hz.
      apply In_insert_label in Hz as [-> | Hz]; [|exact (Hx z Hz)].
      now apply string_ltb_total.
Qed.

(** The classes of a fitted encoder are the distinct labels of the
    training column in strictly increasing order, so the default code 0
    the predictors fall back to stands for the smallest label seen in
    training. *)
Lemma classes_sorted_distinct (y : list string) :
  let classes := LabelEncoder.classes_ (LabelEncoder.fit y) in
  StronglySorted (fun a b => String.ltb a b = true) classes /\
  List.NoDup classes /\
  (forall s : string, In s classes <-> In s y) /\
  (forall s : string, In s y ->
     match classes with
     | [] => False
     | first :: _ => s = first \/ String.ltb first s = true
     end).
Proof.
  cbv zeta. cbn [LabelEncoder.fit LabelEncoder.classes_].
  assert (Hsorted : StronglySorted (fun a b => String.ltb a b = true)
                      (LabelEncoder.unique y)).
  { induction y as [|x y IH]; [constructor|].
    cbn [LabelEncoder.unique fold_right]. apply insert_label_sorted, IH. }
  split; [exact Hsorted|]. split; [|split; [intros s; apply In_unique|]].
  - induction Hsorted as [|x l Hl IH Hx]; constructor; [|exact IH].
    intros Hin. rewrite List.Forall_forall in Hx. specialize (Hx x Hin).
    now rewrite string_ltb_irrefl in Hx.
  - intros s Hs. apply In_unique in Hs.
    destruct Hsorted as [|x l Hl Hx]; [destruct Hs|].
    destruct Hs as [<- | Hs]; [now left | right].
    rewrite List.Forall_forall in Hx. exact (Hx s Hs).
Qed.

(** ** The predictors: fallback and failures *)

Lemma position_head (first : string) (rest : list string) :
  LabelEncoder.position first (first :: rest) = Some 0%nat.
Proof. now rewrite position_cons, String.eqb_refl. Qed.

(** X9.  An unseen label is treated as the first class: when the
    encoder has at least one class, both predictors return for an unseen
    vehicle model exactly the value they return for the first class of
    the model encoder, and the repair-cost predictor does the same for an
    unseen repair type. *)
Theorem unseen_label_predicted_as_first_class
    (health_model cost_model : list Q -> Q) (le : LabelEncoder.t)
    (enc : RepairCost.encoders)
    (a m c f t d v r e k : Q) (age : Q) (km : Z) (health : Q) (kwh : Z)
    (unseen repair_type first_model first_repair : string)
    (other_models other_repairs : list string) :
  LabelEncoder.classes_ le = first_model :: other_models ->
  LabelEncoder.classes_ (RepairCost.enc_model enc) = first_model :: other_models ->
  LabelEncoder.classes_ (RepairCost.enc_repair_type enc) =
    first_repair :: other_repairs ->
  ~ In unseen (first_model :: other_models) ->
  ~ In unseen (first_repair :: other_repairs) ->
  (BatteryHealth.predict_battery_health health_model le
     BatteryHealth.trained_feature_cols
     (BatteryHealth.input_data a m c f t d v r e k unseen)).1 =
  (BatteryHealth.predict_battery_health health_model le
     BatteryHealth.trained_feature_cols
     (BatteryHealth.input_data a m c f t d v r e k first_model)).1 /\
  (RepairCost.predict_repair_cost cost_model enc RepairCost.trained_feature_cols
     age km health kwh unseen repair_type).1 =
  (RepairCost.predict_repair_cost cost_model enc RepairCost.trained_feature_cols
     age km health kwh first_model repair_type).1 /\
  (RepairCost.predict_repair_cost cost_model enc RepairCost.trained_feature_cols
     age km health kwh first_model unseen).1 =
  (RepairCost.predict_repair_cost cost_model enc RepairCost.trained_feature_cols
     age km health kwh first_model first_repair).1.
Proof.
  intros Hle Hm Hr Hunseen_m Hunseen_r.
  assert (Hnone : forall l, ~ In unseen l -> LabelEncoder.position unseen l = None).
  { intros l Hl. destruct (LabelEncoder.position unseen l) eqn:E; [|reflexivity].
    exfalso. apply Hl, position_is_Some_In. eauto. }
  rewrite !predict_battery_health_eq, !predict_repair_cost_eq.
  unfold LabelEncoder.code_or_default. cbn [fst].
  rewrite Hle, Hm, Hr, !position_head, !Hnone by assumption.
  repeat split.
Qed.

Lemma unseen_label_predicted_as_first_class_witness :
  let le := LabelEncoder.fit ["Tesla Model 3"; "Nissan Leaf"]%string in
  let enc := {| RepairCost.enc_model := le;
                RepairCost.enc_repair_type :=
                  LabelEncoder.fit ["Motor Repair"; "Battery Replacement"]%string |} in
  let health_model : list Q -> Q := fun x => 100 - nth 10 x 0 * 7 in
  let cost_model : list Q -> Q := fun x => 1000 + nth 4 x 0 + nth 5 x 0 in
  (BatteryHealth.predict_battery_health health_model le
     BatteryHealth.trained_feature_cols
     (BatteryHealth.input_data 3 45000 800 0.35 32 0.7 380 4.5 0.92 75
        "Lucid Air")).1 =
  (BatteryHealth.predict_battery_health health_model le
     BatteryHealth.trained_feature_cols
     (BatteryHealth.input_data 3 45000 800 0.35 32 0.7 380 4.5 0.92 75
        "Nissan Leaf")).1 /\
  (RepairCost.predict_repair_cost cost_model enc RepairCost.trained_feature_cols
     4 55000 78 75 "Lucid Air" "Motor Repair").1 =
  (RepairCost.predict_repair_cost cost_model enc RepairCost.trained_feature_cols
     4 55000 78 75 "Nissan Leaf" "Motor Repair").1 /\
  (RepairCost.predict_repair_cost cost_model enc RepairCost.trained_feature_cols
     4 55000 78 75 "Nissan Leaf" "Lucid Air").1 =
  (RepairCost.predict_repair_cost cost_model enc RepairCost.trained_feature_cols
     4 55000 78 75 "Nissan Leaf" "Battery Replacement").1.
Proof.
  intros le enc health_model cost_model.
  apply (unseen_label_predicted_as_first_class health_model cost_model le enc
           3 45000 800 0.35 32 0.7 380 4.5 0.92 75 4 55000 78 75
           "Lucid Air" "Motor Repair" "Nissan Leaf" "Battery Replacement"
           ["Tesla Model 3"%string] ["Motor Repair"%string]);
    try reflexivity.
  - cbn. intuition discriminate.
  - cbn. intuition discriminate.
Defined.

Lemma lookup_column_absent (name : string) (cols : list (string * list pd.cell)) :
  ~ In name (List.map fst cols) -> pd.lookup_column name cols = None.
Proof.
  induction cols as [|[k v] cols IH]; cbn; [reflexivity|].
  intros Hn. destruct (String.eqb k name) eqn:E.
  - apply String.eqb_eq in E. tauto.
  - apply IH. tauto.
Qed.

Lemma lookup_column_present (name : string) (cols : list (string * list pd.cell)) :
  In name (List.map fst cols) -> is_Some (pd.lookup_column name cols).
Proof.
  induction cols as [|[k v] cols IH]; cbn; [intros []|].
  destruct (String.eqb k name) eqn:E; [eauto|].
  apply String.eqb_neq in E. intros [H | H]; [congruence | now apply IH].
Qed.

Lemma lookup_column_dropped (name dropped : string)
    (cols : list (string * list pd.cell)) :
  pd.lookup_column name
    (List.filter (fun kv => negb (String.eqb kv.1 dropped)) cols) =
  if String.eqb name dropped then None else pd.lookup_column name cols.
Proof.
  induction cols as [|[k v] cols IH]; cbn [List.filter pd.lookup_column fst].
  - now destruct (String.eqb name dropped).
  - destruct (String.eqb k dropped) eqn:Ekd; cbn [negb pd.lookup_column].
    + rewrite IH. destruct (String.eqb name dropped) eqn:End; [reflexivity|].
      destruct (String.eqb k name) eqn:Ekn; [|reflexivity].
      apply String.eqb_eq in Ekd, Ekn. apply String.eqb_neq in End. congruence.
    + destruct (String.eqb k name) eqn:Ekn.
      * apply String.eqb_eq in Ekn as ->. now rewrite Ekd.
      * exact IH.
Qed.

Lemma select_missing (df : pd.DataFrame) (names : list string) (name : string) :
  In name names -> pd.getitem df name = None -> pd.select df names = None.
Proof.
  intros Hin Hnone. unfold pd.select.
  assert (H : mapM (fun n => v ← pd.getitem df n; Some (n, v)) names = None).
  { apply mapM_None, Exists_exists. exists name.
    split; [now apply list_elem_of_In | now rewrite Hnone]. }
  now rewrite H.
Qed.

Lemma predict_after_fallback_missing_input
    (model : list Q -> Q) (feature_cols : list string)
    (input_data : list (string * pd.cell)) (vals : list pd.cell) :
  ~ In "model"%string (List.map fst input_data) \/
  (exists name : string,
     In name feature_cols /\
     (name = "model"%string \/
      (name <> "model_encoded"%string /\ ~ In name (List.map fst input_data)))) ->
  (input_df ← pd.drop (pd.setitem (pd.of_dict input_data) "model_encoded" vals)
                "model";
   input_df ← pd.select input_df feature_cols;
   X ← pd.to_matrix input_df;
   features ← X !! 0%nat;
   Some (Py.max 0 (Py.min 100 (model features)))) = None.
Proof.
  intros Hbad.
  set (df0 := pd.of_dict input_data).
  assert (Hcols : List.map fst (pd.columns df0) = List.map fst input_data).
  { unfold df0, pd.of_dict. cbn [pd.columns]. rewrite List.map_map.
    apply List.map_ext. reflexivity. }
  unfold pd.drop.
  assert (Hmodel : pd.getitem (pd.setitem df0 "model_encoded" vals) "model" =
                   pd.getitem df0 "model").
  { unfold pd.getitem, pd.setitem. cbn [pd.columns].
    apply lookup_assign_ne. discriminate. }
  rewrite Hmodel.
  destruct Hbad as [Hnomodel | (name & Hin & Hname)].
  - unfold pd.getitem. rewrite lookup_column_absent; [reflexivity|].
    now rewrite Hcols.
  - destruct (pd.getitem df0 "model") as [col|]; [|reflexivity].
    cbn [mbind option_bind].
    rewrite (select_missing _ feature_cols name Hin); [reflexivity|].
    unfold pd.getitem, pd.setitem. cbn [pd.columns pd.index].
    rewrite lookup_column_dropped.
    destruct Hname as [-> | [Hne Habsent]]; [reflexivity|].
    destruct (String.eqb name "model"); [reflexivity|].
    rewrite lookup_assign_ne by exact Hne.
    apply lookup_column_absent. now rewrite Hcols.
Qed.

(** X11.  The battery-health predictor fails, without printing, when the
    dictionary it is given has no ['model'] entry (the fallback code is
    assigned, then dropping the column raises), and when the feature list
    names ['model'] itself or a feature the dictionary does not have. *)
Theorem predict_battery_health_missing_input
    (model : list Q -> Q) (le : LabelEncoder.t) (feature_cols : list string)
    (input_data : list (string * pd.cell)) :
  ~ In "model"%string (List.map fst input_data) \/
  (exists name : string,
     In name feature_cols /\
     (name = "model"%string \/
      (name <> "model_encoded"%string /\ ~ In name (List.map fst input_data)))) ->
  BatteryHealth.predict_battery_health model le feature_cols input_data
  = (None, []).
Proof.
  intros Hbad. unfold BatteryHealth.predict_battery_health. f_equal.
  destruct (col ← pd.getitem (pd.of_dict input_data) "model";
            labels ← pd.strings col;
            LabelEncoder.transform le labels) as [codes|].
  - now apply predict_after_fallback_missing_input.
  - unfold pd.setitem_scalar. now apply predict_after_fallback_missing_input.
Qed.

Lemma predict_battery_health_missing_input_witness :
  BatteryHealth.predict_battery_health (fun _ => 90)
    (LabelEncoder.fit ["Tesla Model 3"%string])
    BatteryHealth.trained_feature_cols
    [("age_years", pd.CNum 3); ("mileage", pd.CNum 45000)]%string
  = (None, []).
Proof.
  apply predict_battery_health_missing_input.
  left. cbn. intuition discriminate.
Defined.

Lemma warning_if_unseen_cases (le : LabelEncoder.t) (s warning : string) :
  (LabelEncoder.warning_if_unseen le s warning = [] /\
   In s (LabelEncoder.classes_ le)) \/
  (LabelEncoder.warning_if_unseen le s warning = [warning] /\
   ~ In s (LabelEncoder.classes_ le)).
Proof.
  unfold LabelEncoder.warning_if_unseen.
  pose proof (position_is_Some_In s (LabelEncoder.classes_ le)) as H.
  destruct (LabelEncoder.position s (LabelEncoder.classes_ le)) as [k|].
  - left. split; [reflexivity | apply H; eauto].
  - right. split; [reflexivity|]. intros Hin. apply H in Hin as [k Hk].
    discriminate.
Qed.

(** X12.  Whatever the feature list and the inputs, the repair-cost
    predictor prints one warning for each of the two labels that its
    encoder has not seen, the model first, and nothing else; the lines
    are printed before the features are selected and the model is
    called. *)
Theorem predict_repair_cost_warnings
    (model : list Q -> Q) (enc : RepairCost.encoders)
    (feature_cols : list string)
    (age : Q) (km : Z) (health : Q) (kwh : Z) (model_name repair_type : string) :
  let out :=
    (RepairCost.predict_repair_cost model enc feature_cols
       age km health kwh model_name repair_type).2 in
  out =
    LabelEncoder.warning_if_unseen (RepairCost.enc_model enc) model_name
      (RepairCost.unknown_model_warning model_name) ++
    LabelEncoder.warning_if_unseen (RepairCost.enc_repair_type enc) repair_type
      (RepairCost.unknown_repair_type_warning repair_type) /\
  (In (RepairCost.unknown_model_warning model_name) out <->
   ~ In model_name (LabelEncoder.classes_ (RepairCost.enc_model enc))) /\
  (In (RepairCost.unknown_repair_type_warning repair_type) out <->
   ~ In repair_type (LabelEncoder.classes_ (RepairCost.enc_repair_type enc))) /\
  (length out <= 2)%nat /\
  (forall line : string, In line out ->
     line = RepairCost.unknown_model_warning model_name \/
     line = RepairCost.unknown_repair_type_warning repair_type).
Proof.
  assert (Hout :
    (RepairCost.predict_repair_cost model enc feature_cols
       age km health kwh model_name repair_type).2 =
    LabelEncoder.warning_if_unseen (RepairCost.enc_model enc) model_name
      (RepairCost.unknown_model_warning model_name) ++
    LabelEncoder.warning_if_unseen (RepairCost.enc_repair_type enc) repair_type
      (RepairCost.unknown_repair_type_warning repair_type)).
  { unfold RepairCost.predict_repair_cost, LabelEncoder.warning_if_unseen,
      LabelEncoder.transform.
    cbn [mapM].
    destruct (LabelEncoder.position model_name _);
      destruct (LabelEncoder.position repair_type _); reflexivity. }
  cbv zeta. rewrite Hout. split; [reflexivity|].
  assert (Hdiff : RepairCost.unknown_model_warning model_name <>
                  RepairCost.unknown_repair_type_warning repair_type).
  { unfold RepairCost.unknown_model_warning,
      RepairCost.unknown_repair_type_warning. cbn. intros H.
    repeat (injection H as _ H). discriminate. }
  destruct (warning_if_unseen_cases (RepairCost.enc_model enc) model_name
              (RepairCost.unknown_model_warning model_name)) as [[-> Hm] | [-> Hm]];
    destruct (warning_if_unseen_cases (RepairCost.enc_repair_type enc) repair_type
                (RepairCost.unknown_repair_type_warning repair_type))
      as [[-> Hr] | [-> Hr]].
  all: cbn [app In length]; repeat split; try lia; intuition congruence.
Qed.

(** X13.  A feature list that names anything but the six columns the
    repair-cost predictor builds makes it fail, after it has printed the
    same warnings as it prints with the trained feature list. *)
Theorem predict_repair_cost_unknown_feature
    (model : list Q -> Q) (enc : RepairCost.encoders)
    (feature_cols : list string) (name : string)
    (age : Q) (km : Z) (health : Q) (kwh : Z) (model_name repair_type : string) :
  In name feature_cols ->
  ~ In name RepairCost.trained_feature_cols ->
  RepairCost.predict_repair_cost model enc feature_cols
    age km health kwh model_name repair_type =
  (None,
   (RepairCost.predict_repair_cost model enc RepairCost.trained_feature_cols
      age km health kwh model_name repair_type).2).
Proof.
  intros Hin Hn. unfold RepairCost.predict_repair_cost.
  destruct (LabelEncoder.transform (RepairCost.enc_model enc) _ ≫= head);
    destruct (LabelEncoder.transform (RepairCost.enc_repair_type enc) _ ≫= head).
  all: cbn [snd]; f_equal.
  all: rewrite (select_missing _ feature_cols name Hin); [reflexivity|].
  all: apply lookup_column_absent; exact Hn.
Qed.

Lemma predict_repair_cost_unknown_feature_witness :
  RepairCost.predict_repair_cost (fun _ => 1000)
    {| RepairCost.enc_model := LabelEncoder.fit ["Nissan Leaf"%string];
       RepairCost.enc_repair_type := LabelEncoder.fit ["Motor Repair"%string] |}
    ["age_years"; "mileage"]%string 4 55000 78 75 "Lucid Air" "Motor Repair" =
  (None,
   (RepairCost.predict_repair_cost (fun _ => 1000)
      {| RepairCost.enc_model := LabelEncoder.fit ["Nissan Leaf"%string];
         RepairCost.enc_repair_type := LabelEncoder.fit ["Motor Repair"%string] |}
      RepairCost.trained_feature_cols
      4 55000 78 75 "Lucid Air" "Motor Repair").2).
Proof.
  apply (predict_repair_cost_unknown_feature _ _ _ "mileage"%string).
  - cbn. tauto.
  - cbn. intuition discriminate.
Defined.

(** ** Feature preparation for the battery-health model *)

(** How a call runs on a frame whose [model] column holds labels. *)
Lemma prepare_run (h : BatteryHealth.heap) (df : BatteryHealth.loc)
    (frame : pd.DataFrame) (labels : list string) (codes : list nat) :
  h !! df = Some frame ->
  pd.getitem frame "model" ≫= pd.strings = Some labels ->
  LabelEncoder.transform (LabelEncoder.fit labels) labels = Some codes ->
  let frame' := pd.setitem frame "model_encoded" (LabelEncoder.cells codes) in
  BatteryHealth.prepare_battery_health_data df h =
  (X ← pd.select frame' BatteryHealth.trained_feature_cols;
   y ← pd.getitem frame' "battery_health_percent";
   Some (X, y, LabelEncoder.fit labels, BatteryHealth.trained_feature_cols),
   <[df := frame']> h).
Proof.
  intros Hdf Hlabels Hcodes. cbv zeta.
  apply bind_Some in Hlabels as (col & Hcol & Hstr).
  unfold BatteryHealth.prepare_battery_health_data, mbind, BatteryHealth.heap_bind,
    BatteryHealth.read, BatteryHealth.lift, BatteryHealth.write,
    LabelEncoder.fit_transform.
  rewrite Hdf, Hcol, Hstr, Hcodes, lookup_insert_eq.
  fold BatteryHealth.trained_feature_cols.
  destruct (pd.select _ _) as [X|]; [|reflexivity].
  destruct (pd.getitem _ "battery_health_percent") as [y|]; reflexivity.
Qed.

(** How a call fails when there is no frame or no column of labels. *)
Lemma prepare_fail (h : BatteryHealth.heap) (df : BatteryHealth.loc) :
  (frame ← h !! df; pd.getitem frame "model" ≫= pd.strings) = None ->
  BatteryHealth.prepare_battery_health_data df h = (None, h).
Proof.
  intros Hnone.
  unfold BatteryHealth.prepare_battery_health_data, mbind, BatteryHealth.heap_bind,
    BatteryHealth.read, BatteryHealth.lift.
  destruct (h !! df) as [frame|]; [|reflexivity].
  cbn [mbind option_bind] in Hnone.
  destruct (pd.getitem frame "model") as [col|]; [|reflexivity].
  cbn [mbind option_bind] in Hnone. now rewrite Hnone.
Qed.

Lemma assign_column_twice (name : string) (v w : list pd.cell)
    (cols : list (string * list pd.cell)) :
  pd.assign_column name w (pd.assign_column name v cols) =
  pd.assign_column name w cols.
Proof.
  induction cols as [|[k c] cols IH]; cbn.
  - now rewrite String.eqb_refl.
  - destruct (String.eqb k name) eqn:E; cbn; rewrite E; [reflexivity|].
    now rewrite IH.
Qed.

(** X14.  Preparing the same frame twice is harmless: the second call
    returns what the first returned and leaves the caller's frame (and
    the rest of the heap) as the first call left it. *)
Theorem prepare_twice_same_result
    (h : BatteryHealth.heap) (df : BatteryHealth.loc) (frame : pd.DataFrame)
    (labels : list string) :
  h !! df = Some frame ->
  pd.getitem frame "model" ≫= pd.strings = Some labels ->
  let first := BatteryHealth.prepare_battery_health_data df h in
  BatteryHealth.prepare_battery_health_data df first.2 = first.
Proof.
  intros Hdf Hlabels. cbv zeta.
  destruct (fit_transform_total labels) as [codes Hcodes].
  cbn [LabelEncoder.fit_transform snd] in Hcodes.
  rewrite (prepare_run h df frame labels codes Hdf Hlabels Hcodes).
  cbn [snd].
  set (frame' := pd.setitem frame "model_encoded" (LabelEncoder.cells codes)).
  assert (Hlabels' : pd.getitem frame' "model" ≫= pd.strings = Some labels).
  { unfold frame', pd.getitem, pd.setitem. cbn [pd.columns].
    rewrite lookup_assign_ne by discriminate. exact Hlabels. }
  rewrite (prepare_run _ df frame' labels codes
             (lookup_insert_eq _ _ _) Hlabels' Hcodes).
  assert (Hsame : pd.setitem frame' "model_encoded" (LabelEncoder.cells codes)
                  = frame').
  { unfold frame', pd.setitem. cbn [pd.columns pd.index].
    now rewrite assign_column_twice. }
  cbv zeta. rewrite Hsame, insert_insert_eq. reflexivity.
Qed.

Lemma prepare_twice_same_result_witness :
  let frame :=
    BatteryHealth.frame_of_rows
      (BatteryHealth.generate_rows
         (R := Scripted.source Scripted.young_vehicle) 2 []).1 in
  let h : BatteryHealth.heap := {[ 1%positive := frame ]} in
  let first := BatteryHealth.prepare_battery_health_data 1%positive h in
  BatteryHealth.prepare_battery_health_data 1%positive first.2 = first.
Proof.
  intros frame h.
  apply (prepare_twice_same_result h 1%positive frame
           ["Tesla Model 3"; "Tesla Model 3"]%string).
  - apply lookup_singleton_eq.
  - vm_compute. reflexivity.
Defined.

(** A successful [df[names]] has exactly the named columns, with the
    values and the index of [df]. *)
Lemma select_Some (df X : pd.DataFrame) (names : list string) :
  pd.select df names = Some X ->
  List.map fst (pd.columns X) = names /\
  pd.index X = pd.index df /\
  (forall name : string, In name names -> pd.getitem X name = pd.getitem df name) /\
  Forall (fun kv => pd.getitem df kv.1 = Some kv.2) (pd.columns X).
Proof.
  unfold pd.select. intros H.
  apply bind_Some in H as (cols & Hcols & [= <-]). cbn [pd.columns pd.index].
  apply mapM_Some in Hcols.
  assert (Hall : Forall2 (fun name kv => kv.1 = name /\
                            pd.getitem df name = Some kv.2) names cols).
  { eapply Forall2_impl; [exact Hcols|]. cbn. intros name kv Hkv.
    apply bind_Some in Hkv as (v & Hv & [= <-]). now split. }
  clear Hcols. split; [|split; [reflexivity|split]].
  - induction Hall as [|name kv names cols [Hk _] _ IH]; [reflexivity|].
    cbn. now rewrite Hk, IH.
  - unfold pd.getitem at 1. cbn [pd.columns].
    induction Hall as [|n kv names cols [Hk Hv] _ IH]; intros name Hin;
      [destruct Hin|].
    destruct kv as [k v]. cbn in Hk, Hv. subst k. cbn [pd.lookup_column].
    destruct (String.eqb n name) eqn:E.
    + apply String.eqb_eq in E as ->. now rewrite Hv.
    + apply String.eqb_neq in E. destruct Hin as [Hin | Hin]; [congruence|].
      now apply IH.
  - induction Hall as [|name kv names cols [Hk Hv] _ IH]; constructor;
      [now rewrite Hk | exact IH].
Qed.

(** X15.  The prepared features do not leak the target: whenever
    [prepare_battery_health_data] returns, the feature matrix has exactly
    the eleven feature columns in their fixed order (the ten numeric
    features and [model_encoded]), each with the values the caller's
    frame holds after the call, neither [battery_health_percent] nor the
    raw [model] is among them, and the target returned is the frame's
    [battery_health_percent] column. *)
Theorem prepared_features_exclude_target
    (h : BatteryHealth.heap) (df : BatteryHealth.loc) (frame : pd.DataFrame)
    (X : pd.DataFrame) (y : list pd.cell) (le : LabelEncoder.t)
    (feature_cols : list string) :
  h !! df = Some frame ->
  (BatteryHealth.prepare_battery_health_data df h).1
    = Some (X, y, le, feature_cols) ->
  feature_cols = BatteryHealth.trained_feature_cols /\
  List.map fst (pd.columns X) = feature_cols /\
  ~ In "battery_health_percent"%string feature_cols /\
  ~ In "model"%string feature_cols /\
  pd.getitem frame "battery_health_percent" = Some y /\
  pd.index X = pd.index frame /\
  (exists frame' : pd.DataFrame,
     (BatteryHealth.prepare_battery_health_data df h).2 !! df = Some frame' /\
     forall name : string, In name feature_cols ->
       pd.getitem X name = pd.getitem frame' name) /\
  (forall name : string, In name BatteryHealth.base_feature_cols ->
     pd.getitem X name = pd.getitem frame name).
Proof.
  intros Hdf Hret.
  destruct (pd.getitem frame "model" ≫= pd.strings) as [labels|] eqn:Hlabels.
  2: { rewrite prepare_fail in Hret; [discriminate|].
       rewrite Hdf. exact Hlabels. }
  destruct (fit_transform_total labels) as [codes Hcodes].
  cbn [LabelEncoder.fit_transform snd] in Hcodes.
  rewrite (prepare_run h df frame labels codes Hdf Hlabels Hcodes) in *.
  cbn [fst snd] in *.
  apply bind_Some in Hret as (X' & HX & Hret).
  apply bind_Some in Hret as (y' & Hy & [= -> -> <- <-]).
  apply select_Some in HX as (Hnames & Hidx & Hvals & _).
  assert (Hbase : forall name, In name BatteryHealth.base_feature_cols ->
            name <> "model_encoded"%string).
  { intros name Hin ->. cbn in Hin. intuition discriminate. }
  split; [reflexivity|]. split; [exact Hnames|].
  split; [cbn; intuition discriminate|].
  split; [cbn; intuition discriminate|].
  split.
  { rewrite <- Hy. unfold pd.getitem, pd.setitem. cbn [pd.columns].
    symmetry. apply lookup_assign_ne. discriminate. }
  split; [exact Hidx|]. split.
  - eexists. split; [apply lookup_insert_eq | exact Hvals].
  - intros name Hin. rewrite Hvals.
    + unfold pd.getitem, pd.setitem. cbn [pd.columns].
      apply lookup_assign_ne. now apply Hbase.
    + unfold BatteryHealth.trained_feature_cols. apply in_or_app. now left.
Qed.

Lemma prepared_features_exclude_target_witness :
  let frame :=
    BatteryHealth.frame_of_rows
      (BatteryHealth.generate_rows
         (R := Scripted.source Scripted.young_vehicle) 1 []).1 in
  let h : BatteryHealth.heap := {[ 1%positive := frame ]} in
  exists (X : pd.DataFrame) (y : list pd.cell) (le : LabelEncoder.t)
         (feature_cols : list string),
    (BatteryHealth.prepare_battery_health_data 1%positive h).1
      = Some (X, y, le, feature_cols) /\
    List.map fst (pd.columns X) = feature_cols /\
    ~ In "battery_health_percent"%string feature_cols /\
    pd.getitem frame "battery_health_percent" = Some y.
Proof.
  intros frame h.
  destruct (BatteryHealth.prepare_battery_health_data 1%positive h).1
    as [[[[X y] le] fc]|] eqn:E; [|vm_compute in E; discriminate].
  exists X, y, le, fc. split; [reflexivity|].
  destruct (prepared_features_exclude_target h 1%positive frame X y le fc
              (lookup_singleton_eq _ _) E)
    as (_ & Hnames & Hno & _ & Hy & _).
  repeat split; assumption.
Defined.

(** ** From the generated table to the training matrix *)

Lemma numbers_map_CNum {A : Type} (f : A -> Q) (l : list A) :
  pd.numbers (List.map (fun r => pd.CNum (f r)) l) = Some (List.map f l).
Proof.
  unfold pd.numbers. apply mapM_Some.
  induction l as [|x l IH]; cbn; constructor; [reflexivity | exact IH].
Qed.

Lemma strings_map_CStr {A : Type} (f : A -> string) (l : list A) :
  pd.strings (List.map (fun r => pd.CStr (f r)) l) = Some (List.map f l).
Proof.
  unfold pd.strings. apply mapM_Some.
  induction l as [|x l IH]; cbn; constructor; [reflexivity | exact IH].
Qed.

(** Reading eleven columns row by row gives the feature rows back. *)
Lemma feature_matrix_rows (data : list BatteryHealth.row) :
  forall codes : list nat,
    length codes = length data ->
    List.map
      (fun i =>
         List.map (fun col => nth i col 0)
           [ List.map BatteryHealth.age_years data;
             List.map (fun r => inject_Z (BatteryHealth.mileage r)) data;
             List.map (fun r => inject_Z (BatteryHealth.battery_cycles r)) data;
             List.map BatteryHealth.fast_charge_ratio data;
             List.map BatteryHealth.avg_temperature_c data;
             List.map BatteryHealth.avg_depth_of_discharge data;
             List.map BatteryHealth.voltage data;
             List.map BatteryHealth.internal_resistance_mohm data;
             List.map BatteryHealth.charging_efficiency data;
             List.map (fun r => inject_Z (BatteryHealth.battery_capacity_kwh r)) data;
             List.map (fun k => inject_Z (Z.of_nat k)) codes ])
      (seq 0 (length data)) =
    zip_with Derived.feature_row data codes.
Proof.
  induction data as [|r data IH]; intros [|k codes] Hlen;
    try discriminate; [reflexivity|].
  cbn [length] in *. rewrite <- cons_seq, <- seq_shift.
  cbn [List.map zip_with]. f_equal.
  rewrite List.map_map. rewrite <- IH by congruence.
  apply List.map_ext. reflexivity.
Qed.

(** X17.  A generated table of at least one row always prepares: the
    feature matrix scikit-learn receives has one row per generated row,
    holding the row's ten numeric fields in the order of the feature list
    followed by the code of its model, and the target vector is the
    column of stored health percentages. *)
Theorem generated_table_prepares
    (G : Type) (R : RandomState G) (n_samples : Z) (g : G)
    (h : BatteryHealth.heap) (df : BatteryHealth.loc) :
  (0 < n_samples)%Z ->
  h !! df = Some (BatteryHealth.generate_realistic_battery_data n_samples g).1 ->
  let rows := (BatteryHealth.generate_rows n_samples g).1 in
  let le := LabelEncoder.fit (List.map BatteryHealth.model rows) in
  exists (X : pd.DataFrame) (y : list pd.cell) (codes : list nat),
    (BatteryHealth.prepare_battery_health_data df h).1
      = Some (X, y, le, BatteryHealth.trained_feature_cols) /\
    LabelEncoder.transform le (List.map BatteryHealth.model rows) = Some codes /\
    pd.to_matrix X = Some (zip_with Derived.feature_row rows codes) /\
    pd.numbers y = Some (List.map BatteryHealth.battery_health_percent rows).
Proof.
  intros Hpos Hdf. cbv zeta.
  pose proof (generate_rows_length n_samples g) as Hlen.
  revert Hdf.
  unfold BatteryHealth.generate_realistic_battery_data, mbind, state_bind,
    mret, state_ret.
  destruct (BatteryHealth.generate_rows n_samples g) as [rows g'].
  cbn [fst] in *. intros Hdf.
  destruct rows as [|r data]; [cbn in Hlen; lia|]. clear Hlen Hpos.
  set (rows := r :: data) in *.
  destruct (fit_transform_total (List.map BatteryHealth.model rows))
    as [codes Hcodes].
  cbn [LabelEncoder.fit_transform snd] in Hcodes.
  assert (Hlabels : pd.getitem (BatteryHealth.frame_of_rows rows) "model"
                    ≫= pd.strings = Some (List.map BatteryHealth.model rows)).
  { unfold rows. cbn -[List.map]. apply strings_map_CStr. }
  rewrite (prepare_run h df _ _ codes Hdf Hlabels Hcodes). cbn [fst].
  assert (Hclen : length codes = length rows).
  { unfold LabelEncoder.transform in Hcodes. apply mapM_Some in Hcodes.
    apply Forall2_length in Hcodes. now rewrite length_map in Hcodes. }
  eexists _, _, codes.
  split; [|split; [exact Hcodes|]].
  - unfold rows, BatteryHealth.frame_of_rows, pd.setitem, pd.select, pd.getitem.
    cbn -[List.map LabelEncoder.cells seq length LabelEncoder.fit].
    reflexivity.
  - split.
    + unfold pd.to_matrix, LabelEncoder.cells.
      cbn -[List.map seq length nth zip_with].
      repeat (rewrite !numbers_map_CNum;
              cbn -[List.map seq length nth zip_with]).
      rewrite length_seq. f_equal. now apply feature_matrix_rows.
    + apply numbers_map_CNum.
Qed.

Lemma generated_table_prepares_witness :
  let R := Scripted.source Scripted.young_vehicle in
  let frame := (BatteryHealth.generate_realistic_battery_data (R := R) 2 []).1 in
  let h : BatteryHealth.heap := {[ 1%positive := frame ]} in
  let rows := (BatteryHealth.generate_rows (R := R) 2 []).1 in
  let le := LabelEncoder.fit (List.map BatteryHealth.model rows) in
  exists (X : pd.DataFrame) (y : list pd.cell) (codes : list nat),
    (BatteryHealth.prepare_battery_health_data 1%positive h).1
      = Some (X, y, le, BatteryHealth.trained_feature_cols) /\
    LabelEncoder.transform le (List.map BatteryHealth.model rows) = Some codes /\
    pd.to_matrix X = Some (zip_with Derived.feature_row rows codes) /\
    pd.numbers y = Some (List.map BatteryHealth.battery_health_percent rows).
Proof.
  intros R frame h.
  apply (generated_table_prepares _ R 2 [] h 1%positive); [lia|].
  apply lookup_singleton_eq.
Defined.

(** ** Training the battery-health model *)

Lemma heap_bind_run {A B : Type} (m : BatteryHealth.HeapM A)
    (k : A -> BatteryHealth.HeapM B) (h : BatteryHealth.heap) :
  (m ≫= k) h =
  match m h with
  | (Some a, h') => k a h'
  | (None, h') => (None, h')
  end.
Proof. reflexivity. Qed.

(** A training call that returns went through a preparation that
    returned the same encoder and feature list. *)
Lemma train_battery_inv {model_t : Type}
    (fit : list (string * Q) -> list (list Q) -> list Q -> option model_t)
    (train_test_split : nat -> option (list nat * list nat))
    (h : BatteryHealth.heap) (df : BatteryHealth.loc)
    (model : model_t) (le : LabelEncoder.t) (feature_cols : list string)
    (files : list (string * BatteryTraining.artifact model_t)) :
  (BatteryTraining.train_battery_health_model fit train_test_split df h).1
    = Some (model, le, feature_cols, files) ->
  exists (X : pd.DataFrame) (y : list pd.cell),
    (BatteryHealth.prepare_battery_health_data df h).1
      = Some (X, y, le, feature_cols).
Proof.
  unfold BatteryTraining.train_battery_health_model.
  rewrite heap_bind_run.
  destruct (BatteryHealth.prepare_battery_health_data df h)
    as [[[[[X y] le'] fc]|] h']; [|discriminate].
  unfold BatteryHealth.lift.
  rewrite heap_bind_run. destruct (pd.to_matrix _); [|discriminate].
  rewrite heap_bind_run. destruct (pd.numbers _); [|discriminate].
  rewrite heap_bind_run.
  destruct (train_test_split _) as [[train test]|]; [|discriminate].
  rewrite heap_bind_run. destruct (RepairCost.take_rows train _); [|discriminate].
  rewrite heap_bind_run. destruct (RepairCost.take_rows train _); [|discriminate].
  rewrite heap_bind_run. destruct (fit _ _ _); [|discriminate].
  cbn. intros [= _ <- <- _]. eauto.
Qed.

(** X18.  Training goes through the caller's frame like preparation
    does: whatever the library's split and fit do, succeed or fail, the
    frame the caller passed holds [model_encoded] afterwards and nothing
    else in the heap has changed; and when training returns, the encoder
    is the one fitted on the frame's [model] column, the feature list is
    the eleven trained features, and the three files saved hold the
    returned model, that encoder and that list. *)
Theorem training_updates_caller_frame {model_t : Type}
    (fit : list (string * Q) -> list (list Q) -> list Q -> option model_t)
    (train_test_split : nat -> option (list nat * list nat))
    (h : BatteryHealth.heap) (df : BatteryHealth.loc) (frame : pd.DataFrame)
    (labels : list string) :
  h !! df = Some frame ->
  pd.getitem frame "model" ≫= pd.strings = Some labels ->
  exists codes : list nat,
    LabelEncoder.transform (LabelEncoder.fit labels) labels = Some codes /\
    let result :=
      BatteryTraining.train_battery_health_model fit train_test_split df h in
    result.2 =
      <[df := pd.setitem frame "model_encoded" (LabelEncoder.cells codes)]> h /\
    match result.1 with
    | Some (model, le_model, feature_cols, files) =>
        le_model = LabelEncoder.fit labels /\
        feature_cols = BatteryHealth.trained_feature_cols /\
        files =
          [ ("models/battery_health_model.pkl",
             BatteryTraining.PickledModel model);
            ("models/battery_health_label_encoder.pkl",
             BatteryTraining.PickledLabelEncoder le_model);
            ("models/battery_health_features.pkl",
             BatteryTraining.PickledFeatures feature_cols) ]%string
    | None => True
    end.
Proof.
  intros Hdf Hlabels.
  destruct (fit_transform_total labels) as [codes Hcodes].
  cbn [LabelEncoder.fit_transform snd] in Hcodes.
  exists codes. split; [exact Hcodes|]. cbv zeta.
  unfold BatteryTraining.train_battery_health_model.
  rewrite heap_bind_run.
  rewrite (prepare_run h df frame labels codes Hdf Hlabels Hcodes).
  destruct (X ← pd.select _ _; _) as [[[[X y] le] fc]|] eqn:Eprep;
    [|split; [reflexivity | exact I]].
  apply bind_Some in Eprep as (X' & _ & Eprep).
  apply bind_Some in Eprep as (y' & _ & [= -> -> <- <-]).
  unfold BatteryHealth.lift.
  rewrite heap_bind_run.
  destruct (pd.to_matrix _) as [Xm|]; [|split; [reflexivity | exact I]].
  rewrite heap_bind_run.
  destruct (pd.numbers _) as [yv|]; [|split; [reflexivity | exact I]].
  rewrite heap_bind_run.
  destruct (train_test_split (length Xm)) as [[train test]|];
    [|split; [reflexivity | exact I]].
  rewrite heap_bind_run.
  destruct (RepairCost.take_rows train Xm) as [X_train|];
    [|split; [reflexivity | exact I]].
  rewrite heap_bind_run.
  destruct (RepairCost.take_rows train yv) as [y_train|];
    [|split; [reflexivity | exact I]].
  rewrite heap_bind_run.
  destruct (fit _ X_train y_train) as [model|];
    [|split; [reflexivity | exact I]].
  cbn. repeat split.
Qed.

Lemma training_updates_caller_frame_witness :
  let frame :=
    BatteryHealth.frame_of_rows
      (BatteryHealth.generate_rows
         (R := Scripted.source Scripted.young_vehicle) 2 []).1 in
  let h : BatteryHealth.heap := {[ 1%positive := frame ]} in
  exists codes : list nat,
    LabelEncoder.transform
      (LabelEncoder.fit ["Tesla Model 3"; "Tesla Model 3"]%string)
      ["Tesla Model 3"; "Tesla Model 3"]%string = Some codes /\
    let result :=
      BatteryTraining.train_battery_health_model
        Tables.fit Tables.train_test_split 1%positive h in
    result.2 =
      <[1%positive :=
          pd.setitem frame "model_encoded" (LabelEncoder.cells codes)]> h /\
    match result.1 with
    | Some (model, le_model, feature_cols, files) =>
        le_model = LabelEncoder.fit ["Tesla Model 3"; "Tesla Model 3"]%string /\
        feature_cols = BatteryHealth.trained_feature_cols /\
        files =
          [ ("models/battery_health_model.pkl",
             BatteryTraining.PickledModel model);
            ("models/battery_health_label_encoder.pkl",
             BatteryTraining.PickledLabelEncoder le_model);
            ("models/battery_health_features.pkl",
             BatteryTraining.PickledFeatures feature_cols) ]%string
    | None => True
    end.
Proof.
  intros frame h.
  apply (training_updates_caller_frame Tables.fit Tables.train_test_split
           h 1%positive frame).
  - apply lookup_singleton_eq.
  - vm_compute. reflexivity.
Defined.

(** X19.  Without a column of labels nothing happens: when the frame has
    no [model] column, as the empty table generated for a count of zero
    or less, preparation and training both raise before touching the
    heap. *)
Theorem missing_model_column_leaves_heap {model_t : Type}
    (fit : list (string * Q) -> list (list Q) -> list Q -> option model_t)
    (train_test_split : nat -> option (list nat * list nat))
    (G : Type) (R : RandomState G) (n_samples : Z) (g : G)
    (h : BatteryHealth.heap) (df : BatteryHealth.loc) (frame : pd.DataFrame) :
  h !! df = Some frame ->
  pd.getitem frame "model" = None \/
  ((n_samples <= 0)%Z /\
   frame = (BatteryHealth.generate_realistic_battery_data n_samples g).1) ->
  BatteryHealth.prepare_battery_health_data df h = (None, h) /\
  BatteryTraining.train_battery_health_model fit train_test_split df h
    = (None, h).
Proof.
  intros Hdf Hcase.
  assert (Hnone : pd.getitem frame "model" = None).
  { destruct Hcase as [H | [Hn ->]]; [exact H|].
    pose proof (generate_rows_length n_samples g) as Hlen.
    unfold BatteryHealth.generate_realistic_battery_data, mbind, state_bind,
      mret, state_ret.
    destruct (BatteryHealth.generate_rows n_samples g) as [[|r data] g'];
      [reflexivity | cbn in Hlen; lia]. }
  assert (Hprep : BatteryHealth.prepare_battery_health_data df h = (None, h)).
  { apply prepare_fail. now rewrite Hdf; cbn [mbind option_bind]; rewrite Hnone. }
  split; [exact Hprep|].
  unfold BatteryTraining.train_battery_health_model.
  rewrite heap_bind_run. now rewrite Hprep.
Qed.

Lemma missing_model_column_leaves_heap_witness :
  let R := Scripted.source Scripted.young_vehicle in
  let frame := (BatteryHealth.generate_realistic_battery_data (R := R) 0 []).1 in
  let h : BatteryHealth.heap := {[ 1%positive := frame ]} in
  BatteryHealth.prepare_battery_health_data 1%positive h = (None, h) /\
  BatteryTraining.train_battery_health_model
    Tables.fit Tables.train_test_split 1%positive h = (None, h).
Proof.
  intros R frame h.
  apply (missing_model_column_leaves_heap Tables.fit Tables.train_test_split
           _ R 0 [] h 1%positive frame).
  - apply lookup_singleton_eq.
  - right. split; [lia | reflexivity].
Defined.

(** X20.  On a frame whose [model] column holds text, a training that
    returns gives back the encoder fitted on that column and the eleven
    trained feature names.  With them the predictor prints nothing, and a
    value it returns for a dictionary of the script's shape is the clamp
    to [[0, 100]] of the model's prediction for the ten numbers followed
    by the code of the vehicle's model: its position among the classes
    when that model occurs in the training frame, and 0 otherwise. *)
Theorem trained_battery_predictor_features {model_t : Type}
    (fit : list (string * Q) -> list (list Q) -> list Q -> option model_t)
    (train_test_split : nat -> option (list nat * list nat))
    (predict : model_t -> list Q -> Q)
    (h : BatteryHealth.heap) (df : BatteryHealth.loc) (frame : pd.DataFrame)
    (labels : list string)
    (model : model_t) (le : LabelEncoder.t) (feature_cols : list string)
    (files : list (string * BatteryTraining.artifact model_t))
    (a m c f t d v r e k : Q) (s : string) :
  h !! df = Some frame ->
  pd.getitem frame "model" ≫= pd.strings = Some labels ->
  (BatteryTraining.train_battery_health_model fit train_test_split df h).1
    = Some (model, le, feature_cols, files) ->
  le = LabelEncoder.fit labels /\
  feature_cols = BatteryHealth.trained_feature_cols /\
  forall (value : Q) (out : list string),
    BatteryHealth.predict_battery_health (predict model) le feature_cols
      (BatteryHealth.input_data a m c f t d v r e k s) = (Some value, out) ->
    out = [] /\
    exists code : Q,
      value =
        Py.max 0 (Py.min 100 (predict model [a; m; c; f; t; d; v; r; e; k; code])) /\
      (In s labels ->
       exists i : nat,
         LabelEncoder.classes_ le !! i = Some s /\ code = inject_Z (Z.of_nat i)) /\
      (~ In s labels -> code = 0).
Proof.
  intros Hdf Hlabels Htrain.
  apply train_battery_inv in Htrain as (X & y & Hprep).
  destruct (fit_transform_total labels) as [codes Hcodes].
  cbn [LabelEncoder.fit_transform snd] in Hcodes.
  rewrite (prepare_run h df frame labels codes Hdf Hlabels Hcodes) in Hprep.
  cbn [fst] in Hprep.
  apply bind_Some in Hprep as (X' & _ & Hprep).
  apply bind_Some in Hprep as (y' & _ & [= _ _ <- <-]).
  split; [reflexivity|]. split; [reflexivity|].
  intros value out. rewrite predict_battery_health_eq. intros [= <- <-].
  split; [reflexivity|].
  exists (LabelEncoder.code_or_default (LabelEncoder.fit labels) s).
  split; [reflexivity|].
  unfold LabelEncoder.code_or_default.
  pose proof (position_is_Some_In s
                (LabelEncoder.classes_ (LabelEncoder.fit labels))) as Hpos.
  cbn [LabelEncoder.fit LabelEncoder.classes_] in *.
  rewrite In_unique in Hpos.
  destruct (LabelEncoder.position s (LabelEncoder.unique labels)) as [i|] eqn:Ei.
  - split; [|intros Hn; exfalso; apply Hn, Hpos; eauto].
    intros _. exists i. split; [now apply position_lookup | reflexivity].
  - split; [|reflexivity].
    intros Hin. apply Hpos in Hin as [i Hi]. discriminate.
Qed.

Lemma trained_battery_predictor_features_witness :
  let frame :=
    BatteryHealth.frame_of_rows
      (BatteryHealth.generate_rows
         (R := Scripted.source Scripted.young_vehicle) 2 []).1 in
  let h : BatteryHealth.heap := {[ 1%positive := frame ]} in
  let le := LabelEncoder.fit ["Tesla Model 3"; "Tesla Model 3"]%string in
  let predict (x : list Q) := 90 + nth 10 x 0 in
  le = LabelEncoder.fit ["Tesla Model 3"; "Tesla Model 3"]%string /\
  BatteryHealth.trained_feature_cols = BatteryHealth.trained_feature_cols /\
  forall (value : Q) (out : list string),
    BatteryHealth.predict_battery_health predict le
      BatteryHealth.trained_feature_cols
      (BatteryHealth.input_data 3 45000 800 0.35 32 0.7 380 4.5 0.92 75
         "Tesla Model 3") = (Some value, out) ->
    out = [] /\
    exists code : Q,
      value =
        Py.max 0 (Py.min 100 (predict
          [3; 45000; 800; 0.35; 32; 0.7; 380; 4.5; 0.92; 75; code])) /\
      (In "Tesla Model 3"%string ["Tesla Model 3"; "Tesla Model 3"]%string ->
       exists i : nat,
         LabelEncoder.classes_ le !! i = Some "Tesla Model 3"%string /\
         code = inject_Z (Z.of_nat i)) /\
      (~ In "Tesla Model 3"%string ["Tesla Model 3"; "Tesla Model 3"]%string ->
       code = 0).
Proof.
  intros frame h le predict.
  eassert (E : (BatteryTraining.train_battery_health_model
                  Tables.fit Tables.train_test_split 1%positive h).1
               = Some (_, le, BatteryHealth.trained_feature_cols, _))
    by (vm_compute; reflexivity).
  exact (trained_battery_predictor_features Tables.fit Tables.train_test_split
           (fun _ => predict) h 1%positive frame
           ["Tesla Model 3"; "Tesla Model 3"]%string _ _ _ _
           3 45000 800 0.35 32 0.7 380 4.5 0.92 75 "Tesla Model 3"
           (lookup_singleton_eq _ _) eq_refl E).
Defined.

(** ** Repair-cost preparation, step by step *)

(** What a successful preparation went through. *)
Lemma prepare_simplified_inv (df X : pd.DataFrame) (y : list pd.cell)
    (enc : RepairCost.encoders) (feature_cols : list string) :
  RepairCost.prepare_simplified_repair_data df = Some (X, y, enc, feature_cols) ->
  exists (needs_repair : list pd.cell) (models repairs : list string)
         (mcodes rcodes : list nat) (X0 : pd.DataFrame),
    pd.getitem df "needs_repair" = Some needs_repair /\
    let d0 := pd.filter_rows df (List.map pd.eq_True needs_repair) in
    pd.getitem d0 "model" ≫= pd.strings = Some models /\
    LabelEncoder.transform (LabelEncoder.fit models) models = Some mcodes /\
    let d1 := pd.setitem d0 "model_encoded" (LabelEncoder.cells mcodes) in
    pd.getitem d1 "repair_type" ≫= pd.strings = Some repairs /\
    LabelEncoder.transform (LabelEncoder.fit repairs) repairs = Some rcodes /\
    let d2 := pd.setitem d1 "repair_type_encoded" (LabelEncoder.cells rcodes) in
    pd.select d2 RepairCost.trained_feature_cols = Some X0 /\
    pd.getitem d2 "out_of_pocket_cost_lkr" = Some y /\
    (if (0 <? pd.count_null X0)%nat then pd.fillna_mean X0 else Some X0) = Some X /\
    enc = {| RepairCost.enc_model := LabelEncoder.fit models;
             RepairCost.enc_repair_type := LabelEncoder.fit repairs |} /\
    feature_cols = RepairCost.trained_feature_cols.
Proof.
  unfold RepairCost.prepare_simplified_repair_data. intros H.
  apply bind_Some in H as (nr & Hnr & H).
  apply bind_Some in H as (models & Hmodels & H).
  unfold LabelEncoder.fit_transform in H.
  apply bind_Some in H as (mcodes & Hmcodes & H).
  apply bind_Some in H as (repairs & Hrepairs & H).
  apply bind_Some in H as (rcodes & Hrcodes & H).
  apply bind_Some in H as (X0 & HX0 & H).
  apply bind_Some in H as (y' & Hy & H).
  apply bind_Some in H as (X' & HX & [= <- <- <- <-]).
  exists nr, models, repairs, mcodes, rcodes, X0. cbv zeta.
  repeat split; assumption.
Qed.

Lemma keep_In {A : Type} (x : A) (mask : list bool) (l : list A) :
  In x (pd.keep mask l) <->
  exists i : nat, mask !! i = Some true /\ l !! i = Some x.
Proof.
  revert l. induction mask as [|b mask IH]; intros [|a l]; cbn [pd.keep].
  - split; [intros [] | intros (i & Hi & _); discriminate].
  - split; [intros [] | intros (i & Hi & _); discriminate].
  - split; [intros [] | intros (i & _ & Hi); destruct i; discriminate].
  - destruct b; cbn [In]; rewrite IH; split.
    + intros [<- | (i & Hm & Hl)]; [exists 0%nat | exists (S i)]; now split.
    + intros ([|i] & Hm & Hl); cbn in *; [left; congruence | right; eauto].
    + intros (i & Hm & Hl). exists (S i). now split.
    + intros ([|i] & Hm & Hl); cbn in *; [discriminate | eauto].
Qed.

Lemma strings_In (col : list pd.cell) (labels : list string) (s : string) :
  pd.strings col = Some labels -> (In s labels <-> In (pd.CStr s) col).
Proof.
  unfold pd.strings. intros H. apply mapM_Some in H.
  induction H as [|c l col labels Hc _ IH]; [reflexivity|].
  cbn [In]. rewrite IH. destruct c; try discriminate.
  injection Hc as <-. intuition congruence.
Qed.

(** X21.  The repair-cost encoders know exactly the labels of the repair
    rows: after preparation a vehicle model (or a repair type) has a code
    if and only if it labels some row of the table whose [needs_repair]
    is [True]; a label that only occurs in other rows is unknown to
    them. *)
Theorem encoders_know_repair_rows_only
    (df X : pd.DataFrame) (y : list pd.cell) (enc : RepairCost.encoders)
    (feature_cols : list string) :
  RepairCost.prepare_simplified_repair_data df = Some (X, y, enc, feature_cols) ->
  exists needs_repair model_col repair_col : list pd.cell,
    pd.getitem df "needs_repair" = Some needs_repair /\
    pd.getitem df "model" = Some model_col /\
    pd.getitem df "repair_type" = Some repair_col /\
    (forall s : string,
       In s (LabelEncoder.classes_ (RepairCost.enc_model enc)) <->
       exists i : nat,
         pd.eq_True <$> needs_repair !! i = Some true /\
         model_col !! i = Some (pd.CStr s)) /\
    (forall s : string,
       In s (LabelEncoder.classes_ (RepairCost.enc_repair_type enc)) <->
       exists i : nat,
         pd.eq_True <$> needs_repair !! i = Some true /\
         repair_col !! i = Some (pd.CStr s)).
Proof.
  intros H.
  apply prepare_simplified_inv in H
    as (nr & models & repairs & mcodes & rcodes & X0 & Hnr & Hm & _ & Hr & _ &
        _ & _ & _ & -> & _).
  cbv zeta in Hr.
  unfold pd.getitem, pd.setitem, pd.filter_rows in Hm, Hr.
  cbn [pd.columns pd.index] in Hm, Hr.
  rewrite lookup_assign_ne in Hr by discriminate.
  rewrite lookup_column_map in Hm, Hr.
  destruct (pd.lookup_column "model" (pd.columns df)) as [mcol|] eqn:Emodel;
    [|discriminate].
  destruct (pd.lookup_column "repair_type" (pd.columns df)) as [rcol|] eqn:Erepair;
    [|discriminate].
  cbn [fmap option_fmap option_map mbind option_bind] in Hm, Hr.
  exists nr, mcol, rcol. repeat split; try assumption.
  all: cbn [RepairCost.enc_model RepairCost.enc_repair_type
            LabelEncoder.fit LabelEncoder.classes_].
  all: rewrite In_unique.
  1,2: rewrite (strings_In _ _ s Hm), keep_In.
  3,4: rewrite (strings_In _ _ s Hr), keep_In.
  all: intros (i & Hi & Hc); exists i; split; try exact Hc.
  all: rewrite list_lookup_fmap in *; exact Hi.
Qed.

Lemma encoders_know_repair_rows_only_witness :
  exists needs_repair model_col repair_col : list pd.cell,
    pd.getitem Tables.table_b "needs_repair" = Some needs_repair /\
    pd.getitem Tables.table_b "model" = Some model_col /\
    pd.getitem Tables.table_b "repair_type" = Some repair_col /\
    (forall s : string,
       In s ["Nissan Leaf"; "Tesla Model 3"]%string <->
       exists i : nat,
         pd.eq_True <$> needs_repair !! i = Some true /\
         model_col !! i = Some (pd.CStr s)) /\
    (forall s : string,
       In s ["Battery Replacement"; "Motor Repair"]%string <->
       exists i : nat,
         pd.eq_True <$> needs_repair !! i = Some true /\
         repair_col !! i = Some (pd.CStr s)).
Proof.
  eassert (E : RepairCost.prepare_simplified_repair_data Tables.table_b
               = Some (_, _, _, _)) by (vm_compute; reflexivity).
  exact (encoders_know_repair_rows_only _ _ _ _ _ E).
Defined.

(** ** Repair-cost preparation: missing values and required columns *)

Lemma present_nil (col : list pd.cell) :
  pd.present col = Some [] -> Forall (fun c => c = pd.CNaN) col.
Proof.
  unfold pd.present. intros H.
  apply bind_Some in H as (qs & Hqs & [= Hconcat]).
  apply mapM_Some in Hqs.
  induction Hqs as [|c q col qs Hc _ IH]; [constructor|].
  cbn in Hconcat. apply app_eq_nil in Hconcat as [-> Hrest].
  constructor; [|now apply IH].
  destruct c; try discriminate. reflexivity.
Qed.

Lemma filled_column (col : list pd.cell) (m : pd.cell) :
  pd.mean col = Some m ->
  let filled := List.map (fun c => if pd.isnull c then m else c) col in
  Forall (fun c => pd.isnull c = false) filled \/
  Forall (fun c => c = pd.CNaN) filled.
Proof.
  unfold pd.mean. intros H. apply bind_Some in H as (qs & Hqs & [= <-]). cbv zeta.
  destruct qs as [|q qs].
  - right. apply present_nil in Hqs. rewrite List.Forall_forall in *.
    intros c Hc. apply in_map_iff in Hc as (c0 & <- & Hc0).
    now rewrite (Hqs c0 Hc0).
  - left. rewrite List.Forall_forall. intros c Hc.
    apply in_map_iff in Hc as (c0 & <- & _).
    destruct (pd.isnull c0) eqn:E; [reflexivity | exact E].
Qed.

Lemma fillna_mean_columns (X0 X : pd.DataFrame) :
  pd.fillna_mean X0 = Some X ->
  List.map fst (pd.columns X) = List.map fst (pd.columns X0) /\
  pd.index X = pd.index X0 /\
  Forall (fun kv => Forall (fun c => pd.isnull c = false) kv.2 \/
                    Forall (fun c => c = pd.CNaN) kv.2) (pd.columns X).
Proof.
  unfold pd.fillna_mean. intros H.
  apply bind_Some in H as (cols & Hcols & [= <-]). cbn [pd.columns pd.index].
  apply mapM_Some in Hcols.
  split; [|split; [reflexivity|]].
  - induction Hcols as [|kv kv' l l' Hkv _ IH]; [reflexivity|].
    apply bind_Some in Hkv as (m & _ & [= <-]). cbn. now rewrite IH.
  - induction Hcols as [|kv kv' l l' Hkv _ IH]; constructor; [|exact IH].
    apply bind_Some in Hkv as (m & Hm & [= <-]). cbn [snd].
    now apply filled_column.
Qed.

Lemma count_null_zero (X : pd.DataFrame) :
  pd.count_null X = 0%nat ->
  Forall (fun kv => Forall (fun c => pd.isnull c = false) kv.2) (pd.columns X).
Proof.
  unfold pd.count_null.
  induction (pd.columns X) as [|kv cols IH]; intros H; constructor.
  - cbn in H. assert (Hlen : length (List.filter pd.isnull kv.2) = 0%nat) by lia.
    apply length_zero_iff_nil in Hlen.
    rewrite List.Forall_forall. intros c Hc.
    destruct (pd.isnull c) eqn:E; [|reflexivity].
    assert (Hin : In c (List.filter pd.isnull kv.2))
      by (apply filter_In; now split).
    rewrite Hlen in Hin. destruct Hin.
  - apply IH. cbn in H. lia.
Qed.

Lemma prepared_features_imputed_aux
    (df X : pd.DataFrame) (y : list pd.cell) (enc : RepairCost.encoders)
    (feature_cols : list string) :
  RepairCost.prepare_simplified_repair_data df = Some (X, y, enc, feature_cols) ->
  feature_cols = RepairCost.trained_feature_cols /\
  List.map fst (pd.columns X) = RepairCost.trained_feature_cols.
Proof.
  intros H.
  apply prepare_simplified_inv in H
    as (nr & models & repairs & mcodes & rcodes & X0 & _ & _ & _ & _ & _ &
        HX0 & _ & HX & _ & ->).
  cbv zeta in HX0. apply select_Some in HX0 as (Hnames & _).
  split; [reflexivity|].
  destruct (0 <? pd.count_null X0)%nat.
  - apply fillna_mean_columns in HX as (Hcols & _). now rewrite Hcols.
  - now injection HX as <-.
Qed.

(** X22.  Missing feature values are imputed before fitting: whenever the
    repair-cost preparation returns, the feature frame has exactly the
    six trained columns, and each of them either has no missing cell
    left, or is missing throughout (a column with nothing to average
    stays as it is). *)
Theorem prepared_features_imputed
    (df X : pd.DataFrame) (y : list pd.cell) (enc : RepairCost.encoders)
    (feature_cols : list string) :
  RepairCost.prepare_simplified_repair_data df = Some (X, y, enc, feature_cols) ->
  feature_cols = RepairCost.trained_feature_cols /\
  List.map fst (pd.columns X) = RepairCost.trained_feature_cols /\
  Forall (fun kv => Forall (fun c => pd.isnull c = false) kv.2 \/
                    Forall (fun c => c = pd.CNaN) kv.2) (pd.columns X).
Proof.
  intros H.
  apply prepare_simplified_inv in H
    as (nr & models & repairs & mcodes & rcodes & X0 & _ & _ & _ & _ & _ &
        HX0 & _ & HX & _ & ->).
  cbv zeta in HX0. apply select_Some in HX0 as (Hnames & _).
  split; [reflexivity|].
  destruct (Nat.ltb_spec 0 (pd.count_null X0)) as [Hpos | Hzero].
  - apply fillna_mean_columns in HX as (Hcols & _ & Hfilled).
    split; [now rewrite Hcols | exact Hfilled].
  - injection HX as <-. split; [exact Hnames|].
    eapply Forall_impl; [apply count_null_zero; lia|].
    intros kv Hkv. now left.
Qed.

Lemma prepared_features_imputed_witness :
  exists X : pd.DataFrame,
    (RepairCost.prepare_simplified_repair_data
       (pd.setitem Tables.table_a "age_years" [pd.CNaN; pd.CNum 1; pd.CNum 4])
     ≫= fun r => Some r.1.1.1) = Some X /\
    pd.getitem X "age_years" = Some [pd.CNum 4; pd.CNum 4] /\
    List.map fst (pd.columns X) = RepairCost.trained_feature_cols /\
    Forall (fun kv => Forall (fun c => pd.isnull c = false) kv.2 \/
                      Forall (fun c => c = pd.CNaN) kv.2) (pd.columns X).
Proof.
  eassert (E : RepairCost.prepare_simplified_repair_data
                 (pd.setitem Tables.table_a "age_years"
                    [pd.CNaN; pd.CNum 1; pd.CNum 4])
               = Some (_, _, _, _)) by (vm_compute; reflexivity).
  eexists. rewrite E. split; [reflexivity|].
  split; [vm_compute; reflexivity|].
  exact (proj2 (prepared_features_imputed _ _ _ _ _ E)).
Defined.

(** X23.  The repair-cost preparation needs all eight columns: it returns
    only when the table has [needs_repair], [model], [repair_type], the
    four numeric features and [out_of_pocket_cost_lkr]; with any of them
    absent it raises. *)
Theorem prepare_needs_all_columns (df : pd.DataFrame) (name : string) :
  In name [ "needs_repair"; "model"; "repair_type"; "age_years"; "mileage_km";
            "battery_health_percent"; "battery_capacity_kwh";
            "out_of_pocket_cost_lkr" ]%string ->
  pd.getitem df name = None ->
  RepairCost.prepare_simplified_repair_data df = None.
Proof.
  intros Hin Hnone.
  destruct (RepairCost.prepare_simplified_repair_data df)
    as [[[[X y] enc] fc]|] eqn:E; [exfalso | reflexivity].
  apply prepare_simplified_inv in E
    as (nr & models & repairs & mcodes & rcodes & X0 & Hnr & Hm & _ & Hr & _ &
        HX0 & Hy & _).
  cbv zeta in Hr, HX0, Hy.
  apply select_Some in HX0 as (Hnames & _ & Hvals & _).
  assert (Hfeat : forall n, In n RepairCost.trained_feature_cols ->
            is_Some (pd.getitem
              (pd.setitem
                 (pd.setitem (pd.filter_rows df (List.map pd.eq_True nr))
                    "model_encoded" (LabelEncoder.cells mcodes))
                 "repair_type_encoded" (LabelEncoder.cells rcodes)) n)).
  { intros n Hn. rewrite <- Hvals by exact Hn.
    apply lookup_column_present. now rewrite Hnames. }
  unfold pd.getitem, pd.setitem, pd.filter_rows in *.
  cbn [pd.columns pd.index] in *.
  cbn [In] in Hin.
  repeat (destruct Hin as [<- | Hin]); [.. | destruct Hin].
  - congruence.
  - rewrite lookup_column_map, Hnone in Hm. discriminate.
  - rewrite lookup_assign_ne, lookup_column_map, Hnone in Hr by discriminate.
    discriminate.
  - destruct (Hfeat "age_years"%string ltac:(cbn; tauto)) as [v Hv].
    rewrite !lookup_assign_ne, lookup_column_map, Hnone in Hv by discriminate.
    discriminate.
  - destruct (Hfeat "mileage_km"%string ltac:(cbn; tauto)) as [v Hv].
    rewrite !lookup_assign_ne, lookup_column_map, Hnone in Hv by discriminate.
    discriminate.
  - destruct (Hfeat "battery_health_percent"%string ltac:(cbn; tauto)) as [v Hv].
    rewrite !lookup_assign_ne, lookup_column_map, Hnone in Hv by discriminate.
    discriminate.
  - destruct (Hfeat "battery_capacity_kwh"%string ltac:(cbn; tauto)) as [v Hv].
    rewrite !lookup_assign_ne, lookup_column_map, Hnone in Hv by discriminate.
    discriminate.
  - rewrite !lookup_assign_ne, lookup_column_map, Hnone in Hy by discriminate.
    discriminate.
Qed.

Lemma prepare_needs_all_columns_witness :
  RepairCost.prepare_simplified_repair_data
    {| pd.index := pd.index Tables.table_a;
       pd.columns := removelast (pd.columns Tables.table_a) |} = None.
Proof.
  apply (prepare_needs_all_columns _ "out_of_pocket_cost_lkr"%string).
  - cbn. tauto.
  - vm_compute. reflexivity.
Defined.

(** ** Repair-cost training, prediction and export together *)

(** What a successful training call returns and saves. *)
Lemma train_simplified_inv {model_t onnx_t : Type}
    (fit : list (string * Q) -> list (list Q) -> list Q -> option model_t)
    (train_test_split : nat -> option (list nat * list nat))
    (df : pd.DataFrame) (model_dir : string)
    (model : model_t) (enc : RepairCost.encoders) (feature_cols : list string)
    (files : list (string * RepairCost.artifact model_t onnx_t)) :
  RepairCost.train_simplified_repair_model fit train_test_split df model_dir
    = Some (model, enc, feature_cols, files) ->
  (exists (X : pd.DataFrame) (y : list pd.cell),
     RepairCost.prepare_simplified_repair_data df
       = Some (X, y, enc, feature_cols)) /\
  feature_cols = RepairCost.trained_feature_cols /\
  files =
    [ (model_dir +:+ "/simple_repair_cost_model.pkl",
       RepairCost.PickledModel model);
      (model_dir +:+ "/simple_repair_cost_encoders.pkl",
       RepairCost.PickledEncoders enc);
      (model_dir +:+ "/simple_repair_cost_features.pkl",
       RepairCost.PickledFeatures feature_cols) ]%string.
Proof.
  unfold RepairCost.train_simplified_repair_model. intros H.
  apply bind_Some in H as ([[[X y] enc'] fc] & Hprep & H).
  apply bind_Some in H as (Xm & _ & H).
  apply bind_Some in H as (yv & _ & H).
  apply bind_Some in H as ([train test] & _ & H).
  apply bind_Some in H as (X_train & _ & H).
  apply bind_Some in H as (y_train & _ & H).
  apply bind_Some in H as (model' & _ & [= <- <- <- <-]).
  split; [eauto|]. split; [|reflexivity].
  apply prepare_simplified_inv in Hprep
    as (? & ? & ? & ? & ? & ? & _ & _ & _ & _ & _ & _ & _ & _ & _ & ->).
  reflexivity.
Qed.

(** X24.  A training that returns gives back the six trained feature
    names.  With them and the returned encoders the repair-cost predictor
    prints nothing when the vehicle model and the repair type both label
    repair rows of the training table, and a value it returns is the
    model's prediction, or 0 when that is negative, for the four numbers
    followed by the codes of the two labels (0 for a label the encoder
    has not seen). *)
Theorem trained_repair_predictor_features {model_t onnx_t : Type}
    (fit : list (string * Q) -> list (list Q) -> list Q -> option model_t)
    (train_test_split : nat -> option (list nat * list nat))
    (predict : model_t -> list Q -> Q)
    (df : pd.DataFrame) (model_dir : string)
    (model : model_t) (enc : RepairCost.encoders) (feature_cols : list string)
    (files : list (string * RepairCost.artifact model_t onnx_t))
    (age : Q) (km : Z) (health : Q) (kwh : Z) (model_name repair_type : string) :
  RepairCost.train_simplified_repair_model fit train_test_split df model_dir
    = Some (model, enc, feature_cols, files) ->
  feature_cols = RepairCost.trained_feature_cols /\
  (In model_name (LabelEncoder.classes_ (RepairCost.enc_model enc)) ->
   In repair_type (LabelEncoder.classes_ (RepairCost.enc_repair_type enc)) ->
   (RepairCost.predict_repair_cost (predict model) enc feature_cols
      age km health kwh model_name repair_type).2 = []) /\
  forall (value : Q) (out : list string),
    RepairCost.predict_repair_cost (predict model) enc feature_cols
      age km health kwh model_name repair_type = (Some value, out) ->
    value =
      Py.max 0 (predict model
        [age; inject_Z km; health; inject_Z kwh;
         LabelEncoder.code_or_default (RepairCost.enc_model enc) model_name;
         LabelEncoder.code_or_default (RepairCost.enc_repair_type enc)
           repair_type]).
Proof.
  intros Htrain.
  apply train_simplified_inv in Htrain as (_ & -> & _).
  split; [reflexivity|].
  rewrite predict_repair_cost_eq. cbn [snd]. split.
  - intros Hm Hr.
    destruct (warning_if_unseen_cases (RepairCost.enc_model enc) model_name
                (RepairCost.unknown_model_warning model_name))
      as [[-> _] | [_ Hno]]; [|contradiction].
    destruct (warning_if_unseen_cases (RepairCost.enc_repair_type enc) repair_type
                (RepairCost.unknown_repair_type_warning repair_type))
      as [[-> _] | [_ Hno]]; [reflexivity | contradiction].
  - intros value out [= <- _]. reflexivity.
Qed.

Lemma trained_repair_predictor_features_witness :
  let enc :=
    {| RepairCost.enc_model :=
         LabelEncoder.fit ["Nissan Leaf"; "Tesla Model 3"]%string;
       RepairCost.enc_repair_type :=
         LabelEncoder.fit ["Battery Replacement"; "Motor Repair"]%string |} in
  let predict (x : list Q) := 1000 * nth 0 x 0 in
  RepairCost.trained_feature_cols = RepairCost.trained_feature_cols /\
  (In "Tesla Model 3"%string (LabelEncoder.classes_ (RepairCost.enc_model enc)) ->
   In "Motor Repair"%string
     (LabelEncoder.classes_ (RepairCost.enc_repair_type enc)) ->
   (RepairCost.predict_repair_cost predict enc RepairCost.trained_feature_cols
      4 55000 78 75 "Tesla Model 3" "Motor Repair").2 = []) /\
  forall (value : Q) (out : list string),
    RepairCost.predict_repair_cost predict enc RepairCost.trained_feature_cols
      4 55000 78 75 "Tesla Model 3" "Motor Repair" = (Some value, out) ->
    value =
      Py.max 0 (predict
        [4; inject_Z 55000; 78; inject_Z 75;
         LabelEncoder.code_or_default (RepairCost.enc_model enc) "Tesla Model 3";
         LabelEncoder.code_or_default (RepairCost.enc_repair_type enc)
           "Motor Repair"]).
Proof.
  intros enc predict.
  eassert (E : RepairCost.train_simplified_repair_model
                 (onnx_t := (list (list Q) * list Q) * nat)
                 Tables.fit Tables.train_test_split Tables.table_a "models"
               = Some (_, enc, RepairCost.trained_feature_cols, _))
    by (vm_compute; reflexivity).
  exact (trained_repair_predictor_features Tables.fit Tables.train_test_split
           (fun _ => predict) Tables.table_a "models" _ _ _ _
           4 55000 78 75 "Tesla Model 3" "Motor Repair" E).
Defined.

(** X25.  conver.py exports what repairecost.py saved: once the training
    script has saved its files under [models], the export script writes
    to [ONNXmodels/repair_cost_model.onnx] the graph of the returned
    model for six inputs and leaves every other file as it was; on a disk
    without the saved model it fails. *)
Theorem conver_exports_saved_model {model_t onnx_t : Type}
    (fit : list (string * Q) -> list (list Q) -> list Q -> option model_t)
    (train_test_split : nat -> option (list nat * list nat))
    (convert_sklearn : model_t -> nat -> onnx_t)
    (df : pd.DataFrame)
    (model : model_t) (enc : RepairCost.encoders) (feature_cols : list string)
    (files : list (string * RepairCost.artifact model_t onnx_t))
    (disk : gmap string (RepairCost.artifact model_t onnx_t)) :
  RepairCost.train_simplified_repair_model fit train_test_split df "models"
    = Some (model, enc, feature_cols, files) ->
  Conver.conver convert_sklearn (Conver.save files disk) =
    Some (<["ONNXmodels/repair_cost_model.onnx"%string :=
              RepairCost.OnnxFile (convert_sklearn model 6%nat)]>
            (Conver.save files disk)) /\
  (forall path : string,
     path <> "ONNXmodels/repair_cost_model.onnx"%string ->
     (Conver.conver convert_sklearn (Conver.save files disk)
        ≫= fun disk' => disk' !! path) = Conver.save files disk !! path) /\
  Conver.conver convert_sklearn
    (delete "models/simple_repair_cost_model.pkl"%string disk) = None.
Proof.
  intros Htrain.
  apply train_simplified_inv in Htrain as (_ & -> & ->).
  match goal with |- ?first /\ _ => assert (Hrun : first) end.
  { unfold Conver.conver, Conver.save. cbn [fold_left fst snd].
    change ("models" +:+ "/simple_repair_cost_model.pkl")%string
      with "models/simple_repair_cost_model.pkl"%string.
    change ("models" +:+ "/simple_repair_cost_encoders.pkl")%string
      with "models/simple_repair_cost_encoders.pkl"%string.
    change ("models" +:+ "/simple_repair_cost_features.pkl")%string
      with "models/simple_repair_cost_features.pkl"%string.
    rewrite lookup_insert_eq.
    rewrite lookup_insert_ne by discriminate.
    rewrite lookup_insert_ne by discriminate.
    rewrite lookup_insert_eq. reflexivity. }
  split; [exact Hrun|]. split.
  - intros path Hne. rewrite Hrun. cbn [mbind option_bind].
    now apply lookup_insert_ne.
  - unfold Conver.conver. now rewrite lookup_delete_eq.
Qed.

Lemma conver_exports_saved_model_witness :
  exists (model : list (list Q) * list Q)
         (files : list (string * RepairCost.artifact (list (list Q) * list Q)
                                   ((list (list Q) * list Q) * nat))),
    Conver.conver Tables.convert_sklearn (Conver.save files ∅) =
    Some (<["ONNXmodels/repair_cost_model.onnx"%string :=
              RepairCost.OnnxFile (Tables.convert_sklearn model 6%nat)]>
            (Conver.save files ∅)).
Proof.
  eassert (E : RepairCost.train_simplified_repair_model
                 (onnx_t := (list (list Q) * list Q) * nat)
                 Tables.fit Tables.train_test_split Tables.table_a "models"
               = Some (_, _, _, _)) by (vm_compute; reflexivity).
  eexists _, _.
  exact (proj1 (conver_exports_saved_model Tables.fit Tables.train_test_split
                  Tables.convert_sklearn Tables.table_a _ _ _ _ ∅ E)).
Defined.

Lemma to_matrix_width (X : pd.DataFrame) (matrix : list (list Q)) :
  pd.to_matrix X = Some matrix ->
  length matrix = length (pd.index X) /\
  Forall (fun row => length row = length (pd.columns X)) matrix.
Proof.
  unfold pd.to_matrix. intros H.
  apply bind_Some in H as (cols & Hcols & [= <-]).
  apply mapM_Some, Forall2_length in Hcols.
  split; [now rewrite length_map, length_seq|].
  rewrite List.Forall_forall. intros row Hrow.
  apply in_map_iff in Hrow as (i & <- & _).
  now rewrite length_map.
Qed.

(** X26.  The export script trains on every repair row: whenever
    [train_and_convert] writes its files, the model was fitted on the
    whole prepared feature matrix and target (no test rows held out),
    every row of that matrix has six numbers, which is the input width of
    the exported graph, and the three files hold the model, the six
    feature names and the graph. *)
Theorem train_and_convert_outcome {model_t onnx_t : Type}
    (fit : list (string * Q) -> list (list Q) -> list Q -> option model_t)
    (convert_sklearn : model_t -> nat -> onnx_t)
    (csv : pd.DataFrame)
    (files : list (string * RepairCost.artifact model_t onnx_t)) :
  RepairCost.train_and_convert fit convert_sklearn csv = Some files ->
  exists (X : pd.DataFrame) (y : list pd.cell) (enc : RepairCost.encoders)
         (matrix : list (list Q)) (targets : list Q) (model : model_t),
    RepairCost.prepare_simplified_repair_data csv
      = Some (X, y, enc, RepairCost.trained_feature_cols) /\
    pd.to_matrix X = Some matrix /\
    pd.numbers y = Some targets /\
    Forall (fun row => length row = 6%nat) matrix /\
    fit [ ("n_estimators", 200); ("max_depth", 10);
          ("learning_rate", 0.1); ("random_state", 42) ]%string matrix targets
      = Some model /\
    files =
      [ ("models/repair_cost_out_of_pocket_model.pkl",
         RepairCost.PickledModel model);
        ("models/repair_cost_out_of_pocket_features.pkl",
         RepairCost.PickledFeatures RepairCost.trained_feature_cols);
        ("ONNXmodels/repair_cost_model.onnx",
         RepairCost.OnnxFile (convert_sklearn model 6%nat)) ]%string.
Proof.
  rewrite train_and_convert_prepare. intros H.
  apply bind_Some in H as ([[[X y] enc] fc] & Hprep & H).
  apply bind_Some in H as (matrix & Hmatrix & H).
  apply bind_Some in H as (targets & Htargets & H).
  apply bind_Some in H as (model & Hfit & [= <-]).
  destruct (prepared_features_imputed_aux csv X y enc fc Hprep) as [-> Hnames].
  exists X, y, enc, matrix, targets, model.
  split; [exact Hprep|]. split; [exact Hmatrix|]. split; [exact Htargets|].
  split; [|split; [exact Hfit | reflexivity]].
  apply to_matrix_width in Hmatrix as [_ Hwidth].
  eapply Forall_impl; [exact Hwidth|]. cbn. intros row ->.
  rewrite <- (length_map fst), Hnames. reflexivity.
Qed.

Lemma train_and_convert_outcome_witness :
  exists (X : pd.DataFrame) (y : list pd.cell) (enc : RepairCost.encoders)
         (matrix : list (list Q)) (targets : list Q)
         (model : list (list Q) * list Q),
    RepairCost.prepare_simplified_repair_data Tables.table_a
      = Some (X, y, enc, RepairCost.trained_feature_cols) /\
    pd.to_matrix X = Some matrix /\
    pd.numbers y = Some targets /\
    Forall (fun row => length row = 6%nat) matrix /\
    Tables.fit [ ("n_estimators", 200); ("max_depth", 10);
                 ("learning_rate", 0.1); ("random_state", 42) ]%string
      matrix targets = Some model.
Proof.
  eassert (E : RepairCost.train_and_convert Tables.fit Tables.convert_sklearn
                 Tables.table_a = Some _) by (vm_compute; reflexivity).
  destruct (train_and_convert_outcome _ _ _ _ E)
    as (X & y & enc & matrix & targets & model & H1 & H2 & H3 & H4 & H5 & _).
  exists X, y, enc, matrix, targets, model. repeat split; assumption.
Defined.

(** ** What the fallback code stands for *)

(** X10.  "Default to first model" means the smallest label: for an
    encoder fitted on a non-empty column, the battery-health predictor
    gives a vehicle whose model was not in that column the prediction of
    the training label that comes first in the string order, which is
    not necessarily the first label of the column. *)
Theorem fallback_is_smallest_training_label
    (model : list Q -> Q) (labels : list string)
    (a m c f t d v r e k : Q) (unseen : string) :
  labels <> [] ->
  ~ In unseen labels ->
  exists smallest : string,
    In smallest labels /\
    (forall s : string, In s labels ->
       s = smallest \/ String.ltb smallest s = true) /\
    (BatteryHealth.predict_battery_health model (LabelEncoder.fit labels)
       BatteryHealth.trained_feature_cols
       (BatteryHealth.input_data a m c f t d v r e k unseen)).1 =
    (BatteryHealth.predict_battery_health model (LabelEncoder.fit labels)
       BatteryHealth.trained_feature_cols
       (BatteryHealth.input_data a m c f t d v r e k smallest)).1.
Proof.
  intros Hne Hunseen.
  destruct (classes_sorted_distinct labels) as (_ & _ & Hmem & Hfirst).
  cbv zeta in Hmem, Hfirst.
  cbn [LabelEncoder.fit LabelEncoder.classes_] in Hmem, Hfirst.
  destruct (LabelEncoder.unique labels) as [|smallest others] eqn:Hclasses.
  { destruct labels as [|s labels]; [congruence|].
    destruct (Hfirst s (or_introl eq_refl)). }
  exists smallest.
  split; [apply Hmem; now left|]. split; [exact Hfirst|].
  rewrite !predict_battery_health_eq. cbn [fst].
  unfold LabelEncoder.code_or_default.
  cbn [LabelEncoder.fit LabelEncoder.classes_].
  rewrite Hclasses, position_head.
  destruct (LabelEncoder.position unseen (smallest :: others)) as [i|] eqn:Ei;
    [|reflexivity].
  exfalso. apply Hunseen, Hmem, position_is_Some_In. eauto.
Qed.

Lemma fallback_is_smallest_training_label_witness :
  exists smallest : string,
    In smallest ["Tesla Model 3"; "Nissan Leaf"; "BYD Atto 3"]%string /\
    (forall s : string, In s ["Tesla Model 3"; "Nissan Leaf"; "BYD Atto 3"]%string ->
       s = smallest \/ String.ltb smallest s = true) /\
    (BatteryHealth.predict_battery_health (fun x => 100 - nth 10 x 0 * 7)
       (LabelEncoder.fit ["Tesla Model 3"; "Nissan Leaf"; "BYD Atto 3"]%string)
       BatteryHealth.trained_feature_cols
       (BatteryHealth.input_data 3 45000 800 0.35 32 0.7 380 4.5 0.92 75
          "Lucid Air")).1 =
    (BatteryHealth.predict_battery_health (fun x => 100 - nth 10 x 0 * 7)
       (LabelEncoder.fit ["Tesla Model 3"; "Nissan Leaf"; "BYD Atto 3"]%string)
       BatteryHealth.trained_feature_cols
       (BatteryHealth.input_data 3 45000 800 0.35 32 0.7 380 4.5 0.92 75
          smallest)).1.
Proof.
  apply (fallback_is_smallest_training_label (fun x => 100 - nth 10 x 0 * 7)
           ["Tesla Model 3"; "Nissan Leaf"; "BYD Atto 3"]%string).
  - discriminate.
  - cbn. intuition discriminate.
Defined.

(** X16.  The column added by [prepare_battery_health_data] decodes back
    to the models: after the call, looking each cell of [model_encoded]
    up among the classes of the returned encoder gives the label on the
    same row of the [model] column, so rows share a code only when they
    share a model. *)
Theorem model_encoded_decodes
    (h : BatteryHealth.heap) (df : BatteryHealth.loc) (frame : pd.DataFrame)
    (labels : list string) :
  h !! df = Some frame ->
  pd.getitem frame "model" ≫= pd.strings = Some labels ->
  exists (codes : list nat) (frame' : pd.DataFrame),
    (BatteryHealth.prepare_battery_health_data df h).2 !! df = Some frame' /\
    pd.getitem frame' "model_encoded" = Some (LabelEncoder.cells codes) /\
    pd.getitem frame' "model" ≫= pd.strings = Some labels /\
    length codes = length labels /\
    List.map (fun code => LabelEncoder.classes_ (LabelEncoder.fit labels) !! code)
      codes = List.map Some labels /\
    (forall (i j : nat) (s s' : string) (code : nat),
       labels !! i = Some s -> labels !! j = Some s' ->
       codes !! i = Some code -> codes !! j = Some code -> s = s').
Proof.
  intros Hdf Hlabels.
  destruct (fit_transform_decodes labels) as (codes & Hcodes & Hdec & Hlen & Hinj).
  cbn [LabelEncoder.fit_transform snd] in Hcodes.
  exists codes, (pd.setitem frame "model_encoded" (LabelEncoder.cells codes)).
  rewrite (prepare_run h df frame labels codes Hdf Hlabels Hcodes). cbn [snd].
  split; [apply lookup_insert_eq|].
  split; [apply lookup_assign_eq|]. split.
  { unfold pd.getitem, pd.setitem. cbn [pd.columns].
    rewrite lookup_assign_ne by discriminate. exact Hlabels. }
  split; [exact Hlen|]. split; [exact Hdec | exact Hinj].
Qed.

Lemma model_encoded_decodes_witness :
  let frame :=
    BatteryHealth.frame_of_rows
      (BatteryHealth.generate_rows
         (R := Scripted.source Scripted.young_vehicle) 2 []).1 in
  let h : BatteryHealth.heap := {[ 1%positive := frame ]} in
  let labels := ["Tesla Model 3"; "Tesla Model 3"]%string in
  exists (codes : list nat) (frame' : pd.DataFrame),
    (BatteryHealth.prepare_battery_health_data 1%positive h).2 !! 1%positive
      = Some frame' /\
    pd.getitem frame' "model_encoded" = Some (LabelEncoder.cells codes) /\
    pd.getitem frame' "model" ≫= pd.strings = Some labels /\
    length codes = length labels /\
    List.map (fun code => LabelEncoder.classes_ (LabelEncoder.fit labels) !! code)
      codes = List.map Some labels /\
    (forall (i j : nat) (s s' : string) (code : nat),
       labels !! i = Some s -> labels !! j = Some s' ->
       codes !! i = Some code -> codes !! j = Some code -> s = s').
Proof.
  intros frame h labels.
  apply (model_encoded_decodes h 1%positive frame labels).
  - apply lookup_singleton_eq.
  - vm_compute. reflexivity.
Defined.
